(** * method-crm-mcp: the request/response normalisation core

    A shallow embedding of the Python package [method_mcp]
    (errors.py, utils.py, auth.py, client.py, tools/tables.py,
    tools/files.py and tools/apikeys.py), the properties of it that the
    specification states, and further properties of the same code.

    Conventions of the embedding.
    - A Python [str] is a Rocq [string], one character per code point
      (code points above 255 are outside the model).
    - A Python [int] is a [Z]; floating point numbers are not interpreted.
    - A JSON-safe Python value is a [json]; a [dict] keeps its insertion
      order and is an association list with distinct keys.
    - A call that may raise returns a [result]; code that touches the
      network or the module-level client threads a [World].
    - Library calls whose full behaviour is not part of this repository
      ([int], [float], [base64.b64decode], [repr] of containers) are the
      fields of the class [PyRuntime]. *)

From Stdlib Require Import ZArith Bool List Ascii String Lia.
From Stdlib Require Import DecimalFacts DecimalPos DecimalString.
From stdpp Require Import base option list gmap strings.

Local Open Scope string_scope.
Local Open Scope Z_scope.

(** ** Characters and strings of the Python runtime *)

Module PyStr.

Definition nl : ascii := "010"%char.
Definition dq : ascii := "034"%char.
Definition bs : ascii := "092"%char.

Definition NL : string := String nl "".
Definition DQ : string := String dq "".

(** [str.isspace] on one code point below 256. *)
Definition is_space (c : ascii) : bool :=
  let n := N_of_ascii c in
  ((9 <=? n) && (n <=? 13) || (28 <=? n) && (n <=? 32)
   || (n =? 133) || (n =? 160))%N.

Fixpoint lstrip_by (p : ascii -> bool) (s : string) : string :=
  match s with
  | String c s' => if p c then lstrip_by p s' else s
  | EmptyString => EmptyString
  end.

Fixpoint rstrip_by (p : ascii -> bool) (s : string) : string :=
  match s with
  | String c s' =>
      match rstrip_by p s' with
      | EmptyString => if p c then EmptyString else String c EmptyString
      | r => String c r
      end
  | EmptyString => EmptyString
  end.

(** [s.strip()] *)
Definition strip (s : string) : string := rstrip_by is_space (lstrip_by is_space s).

(** [s.rstrip(c)] and [s.lstrip(c)] for a one-character argument. *)
Definition rstrip_char (c : ascii) (s : string) : string :=
  rstrip_by (fun x => bool_decide (x = c)) s.
Definition lstrip_char (c : ascii) (s : string) : string :=
  lstrip_by (fun x => bool_decide (x = c)) s.

Definition lower_char (c : ascii) : ascii :=
  let n := N_of_ascii c in
  if ((65 <=? n) && (n <=? 90))%N then ascii_of_N (n + 32) else c.

Fixpoint lower (s : string) : string :=
  match s with
  | String c s' => String (lower_char c) (lower s')
  | EmptyString => EmptyString
  end.

(** Truth value of a string: non-empty. *)
Definition truthy (s : string) : bool :=
  match s with EmptyString => false | _ => true end.

(** [s.startswith(sub)] *)
Fixpoint startswith (sub s : string) : bool :=
  match sub, s with
  | EmptyString, _ => true
  | String a sub', String b s' => Ascii.eqb a b && startswith sub' s'
  | String _ _, EmptyString => false
  end.

(** [sub in s] *)
Fixpoint contains (sub s : string) : bool :=
  startswith sub s ||
  match s with
  | String _ s' => contains sub s'
  | EmptyString => false
  end.

(** [str(n)] for an [int]. *)
Definition of_Z (n : Z) : string := NilZero.string_of_int (Z.to_int n).

End PyStr.

(** ** JSON-safe Python values *)

#[local] Unset Elimination Schemes.
Inductive json : Type :=
| JNull
| JBool (b : bool)
| JInt (n : Z)
| JStr (s : string)
| JList (items : list json)
| JDict (fields : list (string * json)).
#[local] Set Elimination Schemes.

Module Py.

(** [d.get(k)] on the association list of a dict. *)
Fixpoint dict_get (d : list (string * json)) (k : string) : option json :=
  match d with
  | (k', v) :: d' => if String.eqb k k' then Some v else dict_get d' k
  | [] => None
  end.

(** [d[k] = v]: in place when the key exists, appended otherwise. *)
Fixpoint dict_set (d : list (string * json)) (k : string) (v : json)
  : list (string * json) :=
  match d with
  | (k', v') :: d' =>
      if String.eqb k k' then (k', v) :: d' else (k', v') :: dict_set d' k v
  | [] => [(k, v)]
  end.

Definition dict_has (d : list (string * json)) (k : string) : bool :=
  match dict_get d k with Some _ => true | None => false end.

(** Truth value of a value ([if v:], [v or default]). *)
Definition truthy (v : json) : bool :=
  match v with
  | JNull => false
  | JBool b => b
  | JInt n => negb (n =? 0)
  | JStr s => PyStr.truthy s
  | JList l => match l with [] => false | _ => true end
  | JDict d => match d with [] => false | _ => true end
  end.

(** [type(v).__name__] *)
Definition type_name (v : json) : string :=
  match v with
  | JNull => "NoneType"
  | JBool _ => "bool"
  | JInt _ => "int"
  | JStr _ => "str"
  | JList _ => "list"
  | JDict _ => "dict"
  end.

(** The integer a value counts as in arithmetic and comparisons
    ([bool] is a subclass of [int]). *)
Definition as_int (v : json) : option Z :=
  match v with
  | JInt n => Some n
  | JBool b => Some (if b then 1 else 0)
  | _ => None
  end.

Definition of_option_Z (o : option Z) : json :=
  match o with Some n => JInt n | None => JNull end.

Definition of_option_str (o : option string) : json :=
  match o with Some s => JStr s | None => JNull end.

End Py.

(** ** Exceptions and results *)

(** An HTTP response as the code reads it: the status, the headers
    (keyed by lower-cased name, as [httpx.Headers] compares names) and
    what [response.json()] gives: the decoded value, or the text of the
    decoding error it raises. [status_text] is the message httpx gives
    the [HTTPStatusError] of this response (status line, URL and a link
    to the documentation of the status). *)
Record Response : Type := mkResponse {
  status_code : Z;
  headers : gmap string string;
  body : json + string;
  status_text : string;
}.

(** The attributes [MethodAPIError.__init__] stores. *)
Record APIErrorData : Type := mkAPIErrorData {
  message : string;
  err_status_code : option Z;
  response_data : option json;
}.

(** The exception classes the code tells apart with [isinstance], and
    [PyException] for every other class, with its [type(e).__name__] and
    [str(e)]. [TimeoutException] and [ConnectError] stand for the httpx
    classes and their subclasses. *)
Inductive exn : Type :=
| HTTPStatusError (text : string) (response : Response)
| TimeoutException (text : string)
| ConnectError (text : string)
| MethodAPIError (d : APIErrorData)
| AuthenticationError (d : APIErrorData)
| RateLimitError (d : APIErrorData) (retry_after : option Z)
| ValidationError (d : APIErrorData)
| NotFoundError (d : APIErrorData)
| PermissionError (d : APIErrorData)
| PyException (type_name : string) (text : string).

Inductive result (A : Type) : Type :=
| Ok (a : A)
| Raise (e : exn).
Arguments Ok {A} a.
Arguments Raise {A} e.

Definition rbind {A B} (r : result A) (k : A -> result B) : result B :=
  match r with Ok a => k a | Raise e => Raise e end.

Module Exn.

(** [MethodAPIError(message)] with the constructor's defaults. *)
Definition api_error (msg : string) : APIErrorData :=
  {| message := msg; err_status_code := None; response_data := None |}.

(** [RateLimitError(message, retry_after)] sets [status_code=429]. *)
Definition rate_limit_error (msg : string) (retry_after : option Z) : exn :=
  RateLimitError
    {| message := msg; err_status_code := Some 429; response_data := None |}
    retry_after.

(** [isinstance(e, MethodAPIError)] *)
Definition is_MethodAPIError (e : exn) : bool :=
  match e with
  | MethodAPIError _ | AuthenticationError _ | RateLimitError _ _
  | ValidationError _ | NotFoundError _ | PermissionError _ => true
  | _ => false
  end.

(** [str(e)] *)
Definition str (e : exn) : string :=
  match e with
  | HTTPStatusError t _ | TimeoutException t | ConnectError t => t
  | MethodAPIError d | AuthenticationError d | RateLimitError d _
  | ValidationError d | NotFoundError d | PermissionError d => message d
  | PyException _ t => t
  end.

(** [type(e).__name__] *)
Definition type_name (e : exn) : string :=
  match e with
  | HTTPStatusError _ _ => "HTTPStatusError"
  | TimeoutException _ => "TimeoutException"
  | ConnectError _ => "ConnectError"
  | MethodAPIError _ => "MethodAPIError"
  | AuthenticationError _ => "AuthenticationError"
  | RateLimitError _ _ => "RateLimitError"
  | ValidationError _ => "ValidationError"
  | NotFoundError _ => "NotFoundError"
  | PermissionError _ => "PermissionError"
  | PyException n _ => n
  end.

Definition value_error (t : string) : exn := PyException "ValueError" t.
Definition type_error (t : string) : exn := PyException "TypeError" t.
Definition attribute_error (t : string) : exn := PyException "AttributeError" t.

End Exn.

(** ** The part of the Python runtime the code calls into *)

Class PyRuntime : Type := {
  (** [int(s)] for a [str]: the integer, or the [ValueError] raised. *)
  py_int : string -> result Z;
  (** Python floats, [float(s)] for a [str] and [float(n)] for an [int]. *)
  pyfloat : Type;
  py_float : string -> result pyfloat;
  py_float_of_int : Z -> pyfloat;
  (** [bytes] objects with [len], and [base64.b64decode] on a [str]. *)
  pybytes : Type;
  bytes_len : pybytes -> Z;
  b64decode : string -> result pybytes;
  (** [repr] of a list or a dict of JSON-safe values. *)
  py_repr : json -> string;
}.

Module Fmt.

(** [str(v)], which is what an f-string field [{v}] inserts. *)
Definition str `{PyRuntime} (v : json) : string :=
  match v with
  | JNull => "None"
  | JBool true => "True"
  | JBool false => "False"
  | JInt n => PyStr.of_Z n
  | JStr s => s
  | JList _ | JDict _ => py_repr v
  end.

(** [v.get(k, default)]: only a dict has the method. *)
Definition get (v : json) (k : string) (default : json) : result json :=
  match v with
  | JDict d => Ok (match Py.dict_get d k with Some x => x | None => default end)
  | _ => Raise (Exn.attribute_error
                  ("'" +:+ Py.type_name v +:+ "' object has no attribute 'get'"))
  end.

(** [len(v)] *)
Definition len (v : json) : result Z :=
  match v with
  | JStr s => Ok (Z.of_nat (String.length s))
  | JList l => Ok (Z.of_nat (List.length l))
  | JDict d => Ok (Z.of_nat (List.length d))
  | _ => Raise (Exn.type_error
                  ("object of type '" +:+ Py.type_name v +:+ "' has no len()"))
  end.

End Fmt.

(** [response.json()] *)
Definition Response_json (r : Response) : result json :=
  match body r with
  | inl v => Ok v
  | inr t => Raise (PyException "JSONDecodeError" t)
  end.

(** [response.headers.get(name)]: header names compare case-insensitively. *)
Definition headers_get (r : Response) (name : string) : option string :=
  headers r !! PyStr.lower name.

(** ** errors.py *)

Module Errors.

Section Translator.
Context `{PyRuntime}.

(** The upstream error text of an HTTP status error:
<<
    try:
        error_data = e.response.json()
        error_message = error_data.get("error", {}).get("message", str(e))
    except Exception:
        error_message = str(e)
>>
    as the f-strings below insert it. *)
Definition error_message (text : string) (r : Response) : string :=
  let attempt :=
    rbind (Response_json r) (fun error_data =>
    rbind (Fmt.get error_data "error" (JDict [])) (fun inner =>
    Fmt.get inner "message" (JStr text))) in
  match attempt with
  | Ok v => Fmt.str v
  | Raise _ => text
  end.

Definition handle_api_error (e : exn) : string :=
  match e with
  | HTTPStatusError text r =>
      let status := status_code r in
      let error_message := error_message text r in
      if status =? 400 then
        "Error: Validation failed - " +:+ error_message +:+ PyStr.NL +:+
        "Suggestion: Check that all required fields are provided and have valid values. " +:+
        "Review the API documentation for parameter requirements."
      else if status =? 401 then
        "Error: Authentication failed. Your API key or access token is invalid or expired." +:+ PyStr.NL +:+
        "Suggestion: Check that METHOD_API_KEY is correctly set in your environment. " +:+
        "If using OAuth2, ensure your token hasn't expired and refresh if needed."
      else if status =? 403 then
        "Error: Permission denied - " +:+ error_message +:+ PyStr.NL +:+
        "Suggestion: Your account doesn't have permission to perform this operation. " +:+
        "Check that you have the required role (e.g., Admin for API key creation) or " +:+
        "that the resource belongs to your account."
      else if status =? 404 then
        "Error: Resource not found - " +:+ error_message +:+ PyStr.NL +:+
        "Suggestion: Verify that the table name, record ID, or file ID is correct. " +:+
        "Use list/query tools to find the correct identifier."
      else if status =? 429 then
        let retry_after :=
          match headers_get r "Retry-After" with
          | Some v => v
          | None => "unknown"
          end in
        "Error: Rate limit exceeded (100 requests/minute or daily limit reached)." +:+ PyStr.NL +:+
        "Retry-After: " +:+ retry_after +:+ " seconds" +:+ PyStr.NL +:+
        "Suggestion: Wait before making more requests. Method CRM limits: " +:+
        "100 req/min per account, 5,000-25,000 daily depending on licenses."
      else if status =? 500 then
        "Error: Method API server error occurred." +:+ PyStr.NL +:+
        "Suggestion: This is a temporary server issue. Wait a moment and retry. " +:+
        "If the problem persists, check Method CRM status page or contact support."
      else if status =? 503 then
        "Error: Method API service temporarily unavailable." +:+ PyStr.NL +:+
        "Suggestion: The API is undergoing maintenance or experiencing high load. " +:+
        "Wait a few minutes and retry your request."
      else
        "Error: API request failed with status " +:+ PyStr.of_Z status +:+
        " - " +:+ error_message
  | TimeoutException _ =>
      "Error: Request timed out while waiting for Method API response." +:+ PyStr.NL +:+
      "Suggestion: The API might be slow or your network connection interrupted. " +:+
      "Try again, or increase METHOD_REQUEST_TIMEOUT in your configuration."
  | ConnectError _ =>
      "Error: Unable to connect to Method API." +:+ PyStr.NL +:+
      "Suggestion: Check your internet connection and verify that METHOD_API_BASE_URL " +:+
      "is correct (default: https://rest.method.me/api/v1/)."
  | AuthenticationError d =>
      "Error: " +:+ message d +:+ PyStr.NL +:+
      "Suggestion: Verify your authentication credentials."
  | RateLimitError d retry_after =>
      let retry_msg :=
        match retry_after with
        | Some n =>
            if n =? 0 then ""
            else " Retry after " +:+ PyStr.of_Z n +:+ " seconds."
        | None => ""
        end in
      "Error: " +:+ message d +:+ retry_msg +:+ PyStr.NL +:+
      "Suggestion: Wait before making more requests to respect rate limits."
  | ValidationError d =>
      "Error: " +:+ message d +:+ PyStr.NL +:+
      "Suggestion: Check your input parameters and try again."
  | NotFoundError d =>
      "Error: " +:+ message d +:+ PyStr.NL +:+
      "Suggestion: Verify the resource ID and try again."
  | PermissionError d =>
      "Error: " +:+ message d +:+ PyStr.NL +:+
      "Suggestion: Check your account permissions."
  | MethodAPIError d =>
      "Error: " +:+ message d
  | PyException error_type error_msg =>
      "Error: Unexpected " +:+ error_type +:+ " occurred - " +:+ error_msg +:+ PyStr.NL +:+
      "Suggestion: This is an unexpected error. Check your input parameters and " +:+
      "ensure the Method API is accessible. If the problem persists, report this issue."
  end.

End Translator.

End Errors.

(** ** The [json] library: [json.dumps(v, indent=2)] *)

Module Json.

Definition hex_digit (n : N) : ascii :=
  match n with
  | 0 => "0" | 1 => "1" | 2 => "2" | 3 => "3" | 4 => "4" | 5 => "5"
  | 6 => "6" | 7 => "7" | 8 => "8" | 9 => "9" | 10 => "a" | 11 => "b"
  | 12 => "c" | 13 => "d" | 14 => "e" | _ => "f"
  end%N%char.

(** One character of a string literal with [ensure_ascii=True]: the short
    escapes, the printable ASCII characters as they are, and a
    [\u00XX] escape for every other code point. *)
Definition escape_char (c : ascii) : string :=
  let n := N_of_ascii c in
  if (n =? 34)%N then String PyStr.bs (String PyStr.dq "")
  else if (n =? 92)%N then String PyStr.bs (String PyStr.bs "")
  else if (n =? 8)%N then String PyStr.bs "b"
  else if (n =? 12)%N then String PyStr.bs "f"
  else if (n =? 10)%N then String PyStr.bs "n"
  else if (n =? 13)%N then String PyStr.bs "r"
  else if (n =? 9)%N then String PyStr.bs "t"
  else if ((32 <=? n) && (n <=? 126))%N then String c ""
  else String PyStr.bs
         (String "u" (String "0" (String "0"
            (String (hex_digit (n / 16)) (String (hex_digit (n mod 16)) ""))))).

Fixpoint escape (s : string) : string :=
  match s with
  | String c s' => escape_char c +:+ escape s'
  | EmptyString => EmptyString
  end.

Definition encode_str (s : string) : string :=
  PyStr.DQ +:+ escape s +:+ PyStr.DQ.

Fixpoint spaces (n : nat) : string :=
  match n with
  | O => ""
  | S n' => String " " (String " " (spaces n'))
  end.

(** A line break followed by the indentation of nesting level [lvl]. *)
Definition newline_indent (lvl : nat) : string := String PyStr.nl (spaces lvl).

Fixpoint dumps_at (lvl : nat) (v : json) {struct v} : string :=
  match v with
  | JNull => "null"
  | JBool true => "true"
  | JBool false => "false"
  | JInt n => PyStr.of_Z n
  | JStr s => encode_str s
  | JList [] => "[]"
  | JList (x :: xs) =>
      "[" +:+ newline_indent (S lvl) +:+ dumps_at (S lvl) x +:+
      (fix rest (l : list json) : string :=
         match l with
         | [] => newline_indent lvl +:+ "]"
         | y :: l' =>
             "," +:+ newline_indent (S lvl) +:+ dumps_at (S lvl) y +:+ rest l'
         end) xs
  | JDict [] => "{}"
  | JDict ((k, x) :: kvs) =>
      "{" +:+ newline_indent (S lvl) +:+ encode_str k +:+ ": " +:+
      dumps_at (S lvl) x +:+
      (fix rest (l : list (string * json)) : string :=
         match l with
         | [] => newline_indent lvl +:+ "}"
         | (k', y) :: l' =>
             "," +:+ newline_indent (S lvl) +:+ encode_str k' +:+ ": " +:+
             dumps_at (S lvl) y +:+ rest l'
         end) kvs
  end.

(** [json.dumps(v, indent=2)] *)
Definition dumps (v : json) : string := dumps_at 0 v.

(** The text of a list after its first item, and of a dict after its
    first member: the remaining items, each after a comma and a line
    break, and the closing bracket on a line of its own. *)
Fixpoint dumps_items (lvl : nat) (l : list json) : string :=
  match l with
  | [] => newline_indent lvl +:+ "]"
  | y :: l' =>
      "," +:+ newline_indent (S lvl) +:+ dumps_at (S lvl) y +:+ dumps_items lvl l'
  end.

Fixpoint dumps_members (lvl : nat) (l : list (string * json)) : string :=
  match l with
  | [] => newline_indent lvl +:+ "}"
  | (k, y) :: l' =>
      "," +:+ newline_indent (S lvl) +:+ encode_str k +:+ ": " +:+
      dumps_at (S lvl) y +:+ dumps_members lvl l'
  end.

(** *** [json.loads]

    The decoder follows the scanner of the [json] module: blanks are
    space, tab, line feed and carriage return; strings are read in
    strict mode; a number is an optional minus sign and an integer part
    without leading zeros. The result is [None] where Python raises
    [JSONDecodeError], and also where it returns a value outside the
    model (a float, or a character above code point 255). *)

Definition is_ws (c : ascii) : bool :=
  let n := N_of_ascii c in ((n =? 32) || (n =? 9) || (n =? 10) || (n =? 13))%N.

Fixpoint skip_ws (s : string) : string :=
  match s with
  | String c s' => if is_ws c then skip_ws s' else s
  | EmptyString => EmptyString
  end.

Fixpoint strip_prefix (p s : string) : option string :=
  match p, s with
  | EmptyString, _ => Some s
  | String a p', String b s' => if Ascii.eqb a b then strip_prefix p' s' else None
  | String _ _, EmptyString => None
  end.

Definition hex_value (c : ascii) : option N :=
  let n := N_of_ascii c in
  (if (48 <=? n) && (n <=? 57) then Some (n - 48)
   else if (97 <=? n) && (n <=? 102) then Some (n - 87)
   else if (65 <=? n) && (n <=? 70) then Some (n - 55)
   else None)%N.

(** The character a one-letter escape stands for. *)
Definition unescape (c : ascii) : option ascii :=
  let n := N_of_ascii c in
  (if n =? 34 then Some PyStr.dq
   else if n =? 92 then Some PyStr.bs
   else if n =? 47 then Some "/"%char
   else if n =? 98 then Some "008"%char
   else if n =? 102 then Some "012"%char
   else if n =? 110 then Some "010"%char
   else if n =? 114 then Some "013"%char
   else if n =? 116 then Some "009"%char
   else None)%N.

(** The rest of a string literal, after its opening quote: the decoded
    text and what follows the closing quote. *)
Fixpoint scan_string (s : string) : option (string * string) :=
  match s with
  | EmptyString => None
  | String c s' =>
      if Ascii.eqb c PyStr.dq then Some (EmptyString, s')
      else if Ascii.eqb c PyStr.bs then
        match s' with
        | EmptyString => None
        | String e s'' =>
            if Ascii.eqb e "u" then
              match s'' with
              | String h1 (String h2 (String h3 (String h4 s3))) =>
                  match hex_value h1, hex_value h2, hex_value h3, hex_value h4 with
                  | Some a, Some b, Some c3, Some d =>
                      let n := (((a * 16 + b) * 16 + c3) * 16 + d)%N in
                      if (n <? 256)%N then
                        match scan_string s3 with
                        | Some (t, r) => Some (String (ascii_of_N n) t, r)
                        | None => None
                        end
                      else None
                  | _, _, _, _ => None
                  end
              | _ => None
              end
            else
              match unescape e with
              | Some ch =>
                  match scan_string s'' with
                  | Some (t, r) => Some (String ch t, r)
                  | None => None
                  end
              | None => None
              end
        end
      else if (N_of_ascii c <? 32)%N then None
      else
        match scan_string s' with
        | Some (t, r) => Some (String c t, r)
        | None => None
        end
  end.

Definition is_digit (c : ascii) : bool :=
  let n := N_of_ascii c in ((48 <=? n) && (n <=? 57))%N.

(** The longest run of digits at the start of [s], and the rest. *)
Fixpoint span_digits (s : string) : string * string :=
  match s with
  | String c s' =>
      if is_digit c then
        let (d, r) := span_digits s' in (String c d, r)
      else (EmptyString, s)
  | EmptyString => (EmptyString, EmptyString)
  end.

Definition head_not_digit (rest : string) : Prop :=
  match rest with
  | EmptyString => True
  | String c _ => is_digit c = false
  end.

(** Whether a number may end before [rest]: a digit, a fraction or an
    exponent there means a leading zero or a float. *)
Definition number_ends (rest : string) : bool :=
  match rest with
  | EmptyString => true
  | String c _ =>
      negb (is_digit c || Ascii.eqb c "." || Ascii.eqb c "e" || Ascii.eqb c "E")
  end.

Definition scan_digits (negative : bool) (s : string) : option (Z * string) :=
  let (ds, rest) := span_digits s in
  let (int_part, rest) :=
    match ds with
    | String c more =>
        if Ascii.eqb c "0" then (String c EmptyString, more +:+ rest)
        else (ds, rest)
    | EmptyString => (ds, rest)
    end in
  match int_part with
  | EmptyString => None
  | _ =>
      if number_ends rest then
        match NilEmpty.uint_of_string int_part with
        | Some u =>
            Some (if negative then - Z.of_uint u else Z.of_uint u, rest)
        | None => None
        end
      else None
  end.

Definition scan_number (s : string) : option (Z * string) :=
  match s with
  | String c s' =>
      if Ascii.eqb c "-" then scan_digits true s' else scan_digits false s
  | EmptyString => None
  end.

(** [dict(pairs)]: a repeated key keeps its first place and its last
    value. *)
Definition dict_of_pairs (pairs : list (string * json)) : list (string * json) :=
  fold_left (fun d kv => Py.dict_set d (fst kv) (snd kv)) pairs [].

(** The scanner proper. [fuel] bounds the nesting and the number of
    items; [loads] gives it the length of the text. *)
Fixpoint parse_value (fuel : nat) (s : string) {struct fuel}
  : option (json * string) :=
  match fuel with
  | O => None
  | S fuel' =>
      match s with
      | EmptyString => None
      | String c s' =>
          if Ascii.eqb c PyStr.dq then
            match scan_string s' with
            | Some (t, r) => Some (JStr t, r)
            | None => None
            end
          else if Ascii.eqb c "{" then
            match skip_ws s' with
            | EmptyString => None
            | String c1 s2 =>
                if Ascii.eqb c1 "}" then Some (JDict [], s2)
                else
                  match parse_members fuel' (String c1 s2) with
                  | Some (kvs, r) => Some (JDict (dict_of_pairs kvs), r)
                  | None => None
                  end
            end
          else if Ascii.eqb c "[" then
            match skip_ws s' with
            | EmptyString => None
            | String c1 s2 =>
                if Ascii.eqb c1 "]" then Some (JList [], s2)
                else
                  match parse_elements fuel' (String c1 s2) with
                  | Some (vs, r) => Some (JList vs, r)
                  | None => None
                  end
            end
          else
            match strip_prefix "null" s with
            | Some r => Some (JNull, r)
            | None =>
                match strip_prefix "true" s with
                | Some r => Some (JBool true, r)
                | None =>
                    match strip_prefix "false" s with
                    | Some r => Some (JBool false, r)
                    | None =>
                        match scan_number s with
                        | Some (n, r) => Some (JInt n, r)
                        | None => None
                        end
                    end
                end
            end
      end
  end

with parse_elements (fuel : nat) (s : string) {struct fuel}
  : option (list json * string) :=
  match fuel with
  | O => None
  | S fuel' =>
      match parse_value fuel' s with
      | None => None
      | Some (v, s1) =>
          match skip_ws s1 with
          | EmptyString => None
          | String c s2 =>
              if Ascii.eqb c "]" then Some ([v], s2)
              else if Ascii.eqb c "," then
                match parse_elements fuel' (skip_ws s2) with
                | Some (vs, r) => Some (v :: vs, r)
                | None => None
                end
              else None
          end
      end
  end

with parse_members (fuel : nat) (s : string) {struct fuel}
  : option (list (string * json) * string) :=
  match fuel with
  | O => None
  | S fuel' =>
      match s with
      | EmptyString => None
      | String q s0 =>
          if Ascii.eqb q PyStr.dq then
            match scan_string s0 with
            | None => None
            | Some (k, s1) =>
                match skip_ws s1 with
                | EmptyString => None
                | String c1 s2 =>
                    if Ascii.eqb c1 ":" then
                      match parse_value fuel' (skip_ws s2) with
                      | None => None
                      | Some (v, s3) =>
                          match skip_ws s3 with
                          | EmptyString => None
                          | String c2 s4 =>
                              if Ascii.eqb c2 "}" then Some ([(k, v)], s4)
                              else if Ascii.eqb c2 "," then
                                match parse_members fuel' (skip_ws s4) with
                                | Some (kvs, r) => Some ((k, v) :: kvs, r)
                                | None => None
                                end
                              else None
                          end
                      end
                    else None
                end
            end
          else None
      end
  end.

(** [json.loads(s)] *)
Definition loads (s : string) : option json :=
  match parse_value (S (String.length s)) (skip_ws s) with
  | Some (v, r) =>
      match skip_ws r with
      | EmptyString => Some v
      | String _ _ => None
      end
  | None => None
  end.

(** The fuel the scanner needs for the text of a value: one unit per
    value and one per item of a container. *)
Fixpoint size (v : json) : nat :=
  match v with
  | JList l => S ((fix sum (l : list json) : nat :=
                     match l with
                     | [] => O
                     | x :: l' => S (size x + sum l')
                     end) l)
  | JDict d => S ((fix sum (l : list (string * json)) : nat :=
                     match l with
                     | [] => O
                     | (_, x) :: l' => S (size x + sum l')
                     end) d)
  | _ => 1%nat
  end.

Definition items_size (l : list json) : nat :=
  fold_right (fun x n => S (size x + n)) O l.

Definition members_size (l : list (string * json)) : nat :=
  fold_right (fun kv n => S (size (snd kv) + n)) O l.

(** The scanner reads the text of [v] back, at any nesting level, before
    any text a number may end at, and with any fuel from [size v] on. *)
Definition scans_back (v : json) : Prop :=
  forall (lvl : nat) (rest : string) (fuel : nat),
    number_ends rest = true -> (size v <= fuel)%nat ->
    parse_value fuel (dumps_at lvl v +:+ rest) = Some (v, rest).

(** Values that are Python dicts all the way down: no key occurs twice
    in a dict. *)
Fixpoint wf (v : json) : Prop :=
  match v with
  | JList l => (fix all (l : list json) : Prop :=
                  match l with
                  | [] => True
                  | x :: l' => wf x /\ all l'
                  end) l
  | JDict d => NoDup (map fst d) /\
               (fix all (l : list (string * json)) : Prop :=
                  match l with
                  | [] => True
                  | (_, x) :: l' => wf x /\ all l'
                  end) d
  | _ => True
  end.

End Json.

(** ** utils.py *)

Module Utils.

(** [offset + count] for an [int] offset. *)
Definition add_int (offset : Z) (count : json) : result Z :=
  match Py.as_int count with
  | Some c => Ok (offset + c)
  | None =>
      Raise (Exn.type_error
               ("unsupported operand type(s) for +: 'int' and '" +:+
                Py.type_name count +:+ "'"))
  end.

(** [total > n] for an [int] bound. *)
Definition gt_int (total : json) (n : Z) : result bool :=
  match Py.as_int total with
  | Some t => Ok (n <? t)
  | None =>
      Raise (Exn.type_error
               ("'>' not supported between instances of '" +:+
                Py.type_name total +:+ "' and 'int'"))
  end.

(** [count == limit] for an [int] limit. *)
Definition eq_int (count : json) (limit : Z) : bool :=
  match Py.as_int count with
  | Some c => c =? limit
  | None => false
  end.

Definition format_pagination_info (total count : json) (offset limit : Z)
  : result (list (string * json)) :=
  rbind
    (match total with
     | JNull => Ok (eq_int count limit)
     | _ => rbind (add_int offset count) (fun s => gt_int total s)
     end) (fun has_more =>
  rbind
    (if has_more : bool
     then rbind (add_int offset count) (fun s => Ok (JInt s))
     else Ok JNull) (fun next_offset =>
  Ok [("total", total);
      ("count", count);
      ("offset", JInt offset);
      ("limit", JInt limit);
      ("has_more", JBool has_more);
      ("next_offset", next_offset)])).

(** The dict [format_json_response] serialises. *)
Definition json_response (data : json) (success : bool) (message : option string)
  : json :=
  let response := [("success", JBool success)] in
  let response :=
    match message with
    | Some m => if PyStr.truthy m then Py.dict_set response "message" (JStr m)
                else response
    | None => response
    end in
  let response :=
    match data with
    | JDict d =>
        match Py.dict_get d "error" with
        | Some err => Py.dict_set response "error" err
        | None => Py.dict_set response "data" data
        end
    | _ => Py.dict_set response "data" data
    end in
  JDict response.

Definition format_json_response (data : json) (success : bool)
    (message : option string) : string :=
  Json.dumps (json_response data success message).

End Utils.

(** ** auth.py *)

Module Auth.

(** The environment snapshot [os.getenv] reads. *)
Definition Env : Type := gmap string string.

(** [os.getenv(name)] used as a condition or an argument: [None] and the
    empty string are both false. *)
Definition getenv_truthy (env : Env) (name : string) : option string :=
  match env !! name with
  | Some v => if PyStr.truthy v then Some v else None
  | None => None
  end.

(** [os.getenv(name, default)] *)
Definition getenv_default (env : Env) (name default : string) : string :=
  match env !! name with Some v => v | None => default end.

(** The four authentication handlers, subclasses of [AuthBase]. *)
Inductive AuthBase : Type :=
| APIKeyAuth (api_key : string)
| OAuth2AuthorizationCodeAuth
    (client_id client_secret redirect_uri authorize_url token_url : string)
| OAuth2ClientCredentialsAuth (client_id client_secret token_url : string)
| OAuth2ImplicitAuth (client_id authorize_url : string).

(** [APIKeyAuth.__init__] *)
Definition APIKeyAuth_init (api_key : string) : result AuthBase :=
  if negb (PyStr.truthy api_key) || negb (PyStr.truthy (PyStr.strip api_key))
  then Raise (AuthenticationError (Exn.api_error "API key cannot be empty"))
  else Ok (APIKeyAuth (PyStr.strip api_key)).

Definition not_implemented (flow : string) : exn :=
  PyException "NotImplementedError"
    (flow +:+ " is not yet implemented. " +:+
     "Please use API Key authentication (METHOD_API_KEY) for now. " +:+
     "OAuth2 support is coming in a future release.").

Definition get_headers (a : AuthBase) : result (list (string * string)) :=
  match a with
  | APIKeyAuth api_key =>
      Ok [("Authorization", "APIKey " +:+ api_key);
          ("Content-Type", "application/json")]
  | OAuth2AuthorizationCodeAuth _ _ _ _ _ =>
      Raise (not_implemented "OAuth2 Authorization Code Flow")
  | OAuth2ClientCredentialsAuth _ _ _ =>
      Raise (not_implemented "OAuth2 Client Credentials Flow")
  | OAuth2ImplicitAuth _ _ =>
      Raise (not_implemented "OAuth2 Implicit Flow")
  end.

Definition is_valid (a : AuthBase) : bool :=
  match a with
  | APIKeyAuth api_key => PyStr.truthy api_key
  | _ => false
  end.

Record AuthManager : Type := mkAuthManager {
  auth : option AuthBase;
  auth_method : string;
}.

Definition no_credentials : exn :=
  AuthenticationError (Exn.api_error
    ("No authentication credentials found. Please set one of:" +:+ PyStr.NL +:+
     "1. METHOD_API_KEY for API key authentication (recommended)" +:+ PyStr.NL +:+
     "2. METHOD_CLIENT_ID and METHOD_CLIENT_SECRET for OAuth2 (coming soon)" +:+ PyStr.NL +:+
     "See .env.example for configuration details.")).

(** [AuthManager.__init__]: the scan of the environment, in the order of
    the [if] statements of the source. *)
Definition AuthManager_init (env : Env) : result AuthManager :=
  match getenv_truthy env "METHOD_API_KEY" with
  | Some api_key =>
      rbind (APIKeyAuth_init api_key) (fun a =>
      Ok {| auth := Some a; auth_method := "api_key" |})
  | None =>
      let client_id := getenv_truthy env "METHOD_CLIENT_ID" in
      let client_secret := getenv_truthy env "METHOD_CLIENT_SECRET" in
      let redirect_uri := getenv_truthy env "METHOD_REDIRECT_URI" in
      let authorize_url :=
        getenv_default env "METHOD_OAUTH_AUTHORIZE_URL"
          "https://rest.method.me/oauth/authorize" in
      let token_url :=
        getenv_default env "METHOD_OAUTH_TOKEN_URL"
          "https://rest.method.me/oauth/token" in
      match client_id, client_secret, redirect_uri with
      | Some id, Some secret, Some uri =>
          (* if client_id and client_secret and redirect_uri *)
          Ok {| auth := Some (OAuth2AuthorizationCodeAuth
                                id secret uri authorize_url token_url);
                auth_method := "oauth2_authorization_code" |}
      | _, _, _ =>
          match client_id, client_secret with
          | Some id, Some secret =>
              (* if client_id and client_secret *)
              Ok {| auth := Some (OAuth2ClientCredentialsAuth
                                    id secret token_url);
                    auth_method := "oauth2_client_credentials" |}
          | _, _ =>
              match client_id with
              | Some id =>
                  (* if client_id *)
                  Ok {| auth := Some (OAuth2ImplicitAuth id authorize_url);
                        auth_method := "oauth2_implicit" |}
              | None => Raise no_credentials
              end
          end
      end
  end.

Definition AuthManager_get_headers (m : AuthManager)
  : result (list (string * string)) :=
  match auth m with
  | None =>
      Raise (AuthenticationError
               (Exn.api_error "No authentication method configured"))
  | Some a => get_headers a
  end.

Definition AuthManager_is_valid (m : AuthManager) : bool :=
  match auth m with
  | None => false
  | Some a => is_valid a
  end.

End Auth.

(** ** The network and the module-level state *)

Section Network.
Context `{PyRuntime}.

(** One HTTP request as the code hands it to httpx. *)
Record HttpRequest : Type := mkHttpRequest {
  req_method : string;
  req_url : string;
  req_headers : list (string * string);
  req_params : option (list (string * json));
  req_json : option json;
  req_files : option (string * pybytes);
  req_data : option (list (string * json));
  req_follow_redirects : bool;
}.

End Network.

Module Client.

Section WithRuntime.
Context `{PyRuntime}.

Record MethodAPIClient : Type := mkMethodAPIClient {
  base_url : string;
  auth_manager : Auth.AuthManager;
  timeout : pyfloat;
  max_retries : Z;
}.

Definition default_base_url : string := "https://rest.method.me/api/v1/".
Definition default_timeout : pyfloat := py_float_of_int 30.
Definition default_max_retries : Z := 3.

(** [MethodAPIClient.__init__(base_url, auth_manager, timeout, max_retries)] *)
Definition MethodAPIClient_init (env : Auth.Env)
    (base_url : option string) (auth_manager : option Auth.AuthManager)
    (timeout : pyfloat) (max_retries : Z) : result MethodAPIClient :=
  let from_env :=
    PyStr.rstrip_char "/"
      (Auth.getenv_default env "METHOD_API_BASE_URL" default_base_url) in
  let base_url :=
    match base_url with
    | Some b => if PyStr.truthy b then b else from_env
    | None => from_env
    end in
  rbind (match auth_manager with
         | Some m => Ok m
         | None => Auth.AuthManager_init env
         end) (fun auth_manager =>
  rbind (match env !! "METHOD_REQUEST_TIMEOUT" with
         | Some v => py_float v
         | None => Ok timeout
         end) (fun timeout =>
  rbind (match env !! "METHOD_MAX_RETRIES" with
         | Some v => py_int v
         | None => Ok max_retries
         end) (fun max_retries =>
  if negb (Auth.AuthManager_is_valid auth_manager)
  then Raise (AuthenticationError (Exn.api_error "Authentication is not valid"))
  else Ok {| base_url := base_url; auth_manager := auth_manager;
             timeout := timeout; max_retries := max_retries |}))).

(** The state a call runs in: the requests sent so far, and the
    [_client] singletons of tools/tables.py and tools/files.py. *)
Record World : Type := mkWorld {
  sent : list HttpRequest;
  tables_client : option MethodAPIClient;
  files_client : option MethodAPIClient;
}.

(** The remote side: what a request gets back, given the requests sent
    before it: a response, or the transport's exception. *)
Definition Network : Type := list HttpRequest -> HttpRequest -> result Response.

(** Computations that read and update the world and may raise. *)
Definition M (A : Type) : Type := World -> result A * World.

Definition ret {A} (a : A) : M A := fun w => (Ok a, w).
Definition raise {A} (e : exn) : M A := fun w => (Raise e, w).
Definition lift {A} (r : result A) : M A := fun w => (r, w).
Definition bind {A B} (m : M A) (k : A -> M B) : M B :=
  fun w => match m w with
           | (Ok a, w') => k a w'
           | (Raise e, w') => (Raise e, w')
           end.
(** [try: m except Exception as e: h e] *)
Definition try_except {A} (m : M A) (h : exn -> M A) : M A :=
  fun w => match m w with
           | (Ok a, w') => (Ok a, w')
           | (Raise e, w') => h e w'
           end.

(** Sending a request: it is recorded, and the network answers. *)
Definition send (net : Network) (rq : HttpRequest) : M Response :=
  fun w => (net (sent w) rq,
            {| sent := sent w ++ [rq];
               tables_client := tables_client w;
               files_client := files_client w |}).

(** [response.raise_for_status()]: httpx raises for every status outside
    200..299. *)
Definition raise_for_status (r : Response) : result unit :=
  if (200 <=? status_code r) && (status_code r <=? 299) then Ok tt
  else Raise (HTTPStatusError (status_text r) r).

(** The marker [request] returns for 204 No Content. *)
Definition no_content_marker : json :=
  JDict [("success", JBool true);
         ("message", JStr "Operation completed successfully")].

(** [int(retry_after) if retry_after else None] *)
Definition parse_retry_after (retry_after : option string) : result (option Z) :=
  match retry_after with
  | Some v =>
      if PyStr.truthy v then rbind (py_int v) (fun n => Ok (Some n))
      else Ok None
  | None => Ok None
  end.

Section Request.
Variable net : Network.
Variable self : MethodAPIClient.

(** The [try] block of [request]: one exchange with the API and the
    handling of its status. *)
Definition request_try (method url : string)
    (params : option (list (string * json))) (json_data : option json)
  : M json :=
  bind (lift (Auth.AuthManager_get_headers (auth_manager self))) (fun hdrs =>
  bind (send net {| req_method := method; req_url := url;
                    req_headers := hdrs; req_params := params;
                    req_json := json_data; req_files := None;
                    req_data := None; req_follow_redirects := true |})
       (fun response =>
  if status_code response =? 429 then
    bind (lift (parse_retry_after (headers_get response "Retry-After")))
         (fun retry_after =>
    raise (Exn.rate_limit_error "Rate limit exceeded" retry_after))
  else
    bind (lift (raise_for_status response)) (fun _ =>
    if status_code response =? 204 then ret no_content_marker
    else lift (Response_json response)))).

(** The [except Exception as e] clause of [request]. *)
Definition request_except (e : exn) : M json :=
  if Exn.is_MethodAPIError e then raise e
  else raise (MethodAPIError (Exn.api_error (Errors.handle_api_error e))).

(** The body of [request], which the [@retry] decorator wraps. *)
Definition request_body (method endpoint : string)
    (params : option (list (string * json))) (json_data : option json)
  : M json :=
  let endpoint := PyStr.lstrip_char "/" endpoint in
  let url := base_url self +:+ "/" +:+ endpoint in
  try_except (request_try method url params json_data) request_except.

(** [retry_if_exception_type((httpx.TimeoutException, httpx.ConnectError))] *)
Definition retry_if_exception_type (e : exn) : bool :=
  match e with
  | TimeoutException _ | ConnectError _ => true
  | _ => false
  end.

(** [stop_after_attempt(3)] *)
Definition stop_after_attempt : nat := 3.

(** tenacity's loop with [reraise=True]: the call is made again while it
    raises a retried exception and attempts remain; otherwise its result,
    or the exception of the last attempt, is the outcome. [retries] is
    the number of further attempts allowed. *)
Fixpoint retrying {A} (retries : nat) (call : M A) : M A :=
  fun w =>
    match call w with
    | (Ok a, w') => (Ok a, w')
    | (Raise e, w') =>
        if retry_if_exception_type e then
          match retries with
          | O => (Raise e, w')
          | S n => retrying n call w'
          end
        else (Raise e, w')
    end.

(** [MethodAPIClient.request] *)
Definition request (method endpoint : string)
    (params : option (list (string * json))) (json_data : option json)
  : M json :=
  retrying (stop_after_attempt - 1)%nat (request_body method endpoint params json_data).

Definition get (endpoint : string) (params : option (list (string * json)))
  : M json := request "GET" endpoint params None.
Definition post (endpoint : string) (json_data : option json)
    (params : option (list (string * json))) : M json :=
  request "POST" endpoint params json_data.
Definition patch (endpoint : string) (json_data : option json)
    (params : option (list (string * json))) : M json :=
  request "PATCH" endpoint params json_data.
Definition put (endpoint : string) (json_data : option json)
    (params : option (list (string * json))) : M json :=
  request "PUT" endpoint params json_data.
Definition delete (endpoint : string) (params : option (list (string * json)))
  : M json := request "DELETE" endpoint params None.

End Request.

End WithRuntime.

End Client.

(** ** models.py: the validated tool inputs *)

Module Models.

Inductive ResponseFormat : Type := MARKDOWN | JSON.

Record TableQueryInput : Type := mkTableQueryInput {
  table : string;
  filter : option string;
  select : option string;
  top : option Z;
  skip : option Z;
  orderby : option string;
  expand : option string;
  aggregate : option string;
  response_format : ResponseFormat;
}.

Record FileUploadInput : Type := mkFileUploadInput {
  filename : string;
  content : string;
  link_table : string;
  link_record_id : string;
  description : option string;
}.

(** [x or default] for an optional integer. *)
Definition int_or (x : option Z) (default : Z) : Z :=
  match x with
  | Some n => if n =? 0 then default else n
  | None => default
  end.

(** [if x:] for an optional string. *)
Definition str_if (x : option string) : option string :=
  match x with
  | Some s => if PyStr.truthy s then Some s else None
  | None => None
  end.

(** [if x:] for an optional integer. *)
Definition int_if (x : option Z) : option Z :=
  match x with
  | Some n => if n =? 0 then None else Some n
  | None => None
  end.

End Models.

(** ** tools/tables.py and tools/files.py *)

Module Tools.

Import Client Models.

Section WithWorld.
Context `{PyRuntime}.
Variable env : Auth.Env.
Variable net : Network.
(** [utils.format_markdown_table(data, title=...)]: its text holds code
    points above 255 and is not interpreted; it returns a string or
    raises. *)
Variable format_markdown_table : json -> string -> result string.

(** The [try ... except Exception as e: return handle_api_error(e)] every
    tool is wrapped in. *)
Definition tool_boundary (body : M string) : M string :=
  try_except body (fun e => ret (Errors.handle_api_error e)).

(** [get_client()] of tools/tables.py *)
Definition tables_get_client : M MethodAPIClient :=
  fun w =>
    match tables_client w with
    | Some c => (Ok c, w)
    | None =>
        match MethodAPIClient_init env None None default_timeout
                default_max_retries with
        | Ok c => (Ok c, {| sent := sent w; tables_client := Some c;
                            files_client := files_client w |})
        | Raise e => (Raise e, w)
        end
    end.

(** [get_client()] of tools/files.py *)
Definition files_get_client : M MethodAPIClient :=
  fun w =>
    match files_client w with
    | Some c => (Ok c, w)
    | None =>
        match MethodAPIClient_init env None None default_timeout
                default_max_retries with
        | Ok c => (Ok c, {| sent := sent w; tables_client := tables_client w;
                            files_client := Some c |})
        | Raise e => (Raise e, w)
        end
    end.

Definition add_param (name : string) (v : option json)
    (q : list (string * json)) : list (string * json) :=
  match v with
  | Some x => Py.dict_set q name x
  | None => q
  end.

(** The query parameters [method_tables_query] builds. *)
Definition query_params (params : TableQueryInput) : list (string * json) :=
  add_param "$apply" (JStr <$> str_if (aggregate params))
  (add_param "$expand" (JStr <$> str_if (expand params))
  (add_param "$orderby" (JStr <$> str_if (orderby params))
  (add_param "$skip" (JInt <$> int_if (skip params))
  (add_param "$top" (JInt <$> int_if (top params))
  (add_param "$select" (JStr <$> str_if (select params))
  (add_param "$filter" (JStr <$> str_if (filter params)) [])))))).

(** The pagination metadata of [method_tables_query]: the call of
    [format_pagination_info] followed by the two assignments
    [pagination["has_more"] = has_more] and
    [pagination["next_link"] = next_link]. *)
Definition query_pagination (params : TableQueryInput) (count next_link : json)
  : result (list (string * json)) :=
  let has_more := match next_link with JNull => false | _ => true end in
  rbind (Utils.format_pagination_info JNull count
           (int_or (skip params) 0) (int_or (top params) 10))
        (fun pagination =>
  let pagination := Py.dict_set pagination "has_more" (JBool has_more) in
  let pagination := Py.dict_set pagination "next_link" next_link in
  Ok pagination).

Definition dict_item (d : list (string * json)) (k : string) : json :=
  match Py.dict_get d k with Some v => v | None => JNull end.

(** The body of [method_tables_query], inside its [try]. *)
Definition method_tables_query_body (params : TableQueryInput) : M string :=
  bind tables_get_client (fun client =>
  let endpoint := "tables/" +:+ table params in
  bind (get net client endpoint (Some (query_params params))) (fun response =>
  bind (lift (Fmt.get response "value" (JList []))) (fun records =>
  bind (lift (Fmt.len records)) (fun n_records =>
  bind (lift (Fmt.get response "count" (JInt n_records))) (fun count =>
  bind (lift (Fmt.get response "nextLink" JNull)) (fun next_link =>
  bind (lift (query_pagination params count next_link)) (fun pagination =>
  match response_format params with
  | MARKDOWN =>
      if negb (Py.truthy records) then
        ret ("# Query Results: " +:+ table params +:+ PyStr.NL +:+ PyStr.NL +:+
             "No records found matching the query.")
      else
        let title :=
          "Query Results: " +:+ table params +:+ " (" +:+
          Fmt.str (dict_item pagination "count") +:+ " records)" in
        bind (lift (format_markdown_table records title)) (fun table_md =>
        let start_record := int_or (skip params) 0 + 1 in
        let end_record := int_or (skip params) 0 + n_records in
        let footer :=
          PyStr.NL +:+ PyStr.NL +:+ "**Pagination**: Showing records " +:+
          PyStr.of_Z start_record +:+ "-" +:+ PyStr.of_Z end_record in
        let footer :=
          if Py.truthy (dict_item pagination "has_more") then
            footer +:+ " | More records available | Next offset: " +:+
            Fmt.str (dict_item pagination "next_offset")
          else footer +:+ " | No more records" in
        ret (table_md +:+ footer))
  | JSON =>
      let result := Py.dict_set pagination "records" records in
      ret (Utils.format_json_response (JDict result) true None)
  end))))))).

Definition method_tables_query (params : TableQueryInput) : M string :=
  tool_boundary (method_tables_query_body params).

(** [50 * 1024 * 1024] *)
Definition max_size : Z := 50 * 1024 * 1024.

Definition size_limit_error (file_size : Z) : string :=
  Utils.format_json_response
    (JDict [("error", JStr ("File size (" +:+ PyStr.of_Z file_size +:+
                            " bytes) exceeds 50MB limit (" +:+
                            PyStr.of_Z max_size +:+ " bytes)"))])
    false None.

Definition decode_error (e : exn) : string :=
  Utils.format_json_response
    (JDict [("error", JStr ("Invalid base64 content: " +:+ Exn.str e))])
    false None.

Definition quota_error : string :=
  Utils.format_json_response
    (JDict [("error",
             JStr "File size exceeds 50MB limit or storage quota (10GB) exceeded")])
    false None.

(** The multipart request [method_files_upload] posts. *)
Definition upload_request (client : MethodAPIClient) (params : FileUploadInput)
    (file_bytes : pybytes) (record_id : option Z)
    (hdrs : list (string * string)) : HttpRequest :=
  let data :=
    add_param "description" (JStr <$> str_if (description params))
    (add_param "recordId" (JInt <$> record_id)
    (add_param "table" (JStr <$> str_if (Some (link_table params))) [])) in
  {| req_method := "POST";
     req_url := base_url client +:+ "/files";
     req_headers :=
       List.filter (fun kv => negb (String.eqb (fst kv) "Content-Type")) hdrs;
     req_params := None;
     req_json := None;
     req_files := Some (filename params, file_bytes);
     req_data := match data with [] => None | _ => Some data end;
     req_follow_redirects := false |}.

(** The body of [method_files_upload], inside its outer [try]. *)
Definition method_files_upload_body (params : FileUploadInput) : M string :=
  bind files_get_client (fun client =>
  match b64decode (content params) with
  | Raise decode_error_ => ret (decode_error decode_error_)
  | Ok file_bytes =>
      let file_size := bytes_len file_bytes in
      if max_size <? file_size then ret (size_limit_error file_size)
      else
        bind (lift (if PyStr.truthy (link_record_id params)
                    then rbind (py_int (link_record_id params))
                               (fun n => Ok (Some n))
                    else Ok None)) (fun record_id =>
        bind (lift (Auth.AuthManager_get_headers (auth_manager client)))
             (fun hdrs =>
        bind (send net (upload_request client params file_bytes record_id hdrs))
             (fun response =>
        if status_code response =? 413 then ret quota_error
        else
          bind (lift (raise_for_status response)) (fun _ =>
          bind (lift (Response_json response)) (fun result =>
          bind (lift (Fmt.get result "id" JNull)) (fun file_id =>
          bind (lift (Fmt.get result "filename" JNull)) (fun fname =>
          bind (lift (Fmt.get result "fileExtension" JNull)) (fun ext =>
          bind (lift (Fmt.get result "size" JNull)) (fun size =>
          bind (lift (Fmt.get result "createdBy" JNull)) (fun created_by =>
          bind (lift (Fmt.get result "createdDate" JNull)) (fun created =>
          let response_data :=
            JDict [("FileId", file_id);
                   ("Filename", fname);
                   ("FileExtension", ext);
                   ("Size", size);
                   ("LinkedTable", JStr (link_table params));
                   ("LinkedRecordId", JStr (link_record_id params));
                   ("CreatedBy", created_by);
                   ("UploadedAt", created)] in
          ret (Utils.format_json_response response_data true
                 (Some ("File '" +:+ filename params +:+
                        "' uploaded successfully"))))))))))))))
  end).

Definition method_files_upload (params : FileUploadInput) : M string :=
  tool_boundary (method_files_upload_body params).

End WithWorld.

End Tools.

(** ** A reference runtime for concrete runs

    The theorems below hold for every [PyRuntime]. Closed examples run
    on this instance, which follows CPython on strings of code points
    below 256: [int] with surrounding blanks, a sign and underscores
    between digits; [base64.b64decode] in its default, lenient mode;
    [repr] with Python's choice of quotes and escapes. [float] reads
    whole-number literals only, and a float is represented by its value;
    no example depends on another form. *)

Module Ref.

Definition is_digit (c : ascii) : bool :=
  let n := N_of_ascii c in ((48 <=? n) && (n <=? 57))%N.

Definition digit_value (c : ascii) : Z := Z.of_N (N_of_ascii c) - 48.

(** Digits with single underscores between them, read left to right.
    [prev] tells whether the previous character was a digit. *)
Fixpoint digits (s : string) (prev : bool) (acc : Z) : option Z :=
  match s with
  | EmptyString => if prev then Some acc else None
  | String c s' =>
      if is_digit c then digits s' true (10 * acc + digit_value c)
      else if bool_decide (c = "_"%char) && prev then
        match s' with
        | String d _ => if is_digit d then digits s' false acc else None
        | EmptyString => None
        end
      else None
  end.

Definition quoted (s : string) : string := "'" +:+ s +:+ "'".

Definition int (s : string) : result Z :=
  let bad :=
    Raise (Exn.value_error
             ("invalid literal for int() with base 10: " +:+ quoted s)) in
  let t := PyStr.strip s in
  let parse (sign : Z) (body : string) :=
    match digits body false 0 with
    | Some n => Ok (sign * n)
    | None => bad
    end in
  match t with
  | String "-" body => parse (-1) body
  | String "+" body => parse 1 body
  | _ => parse 1 t
  end.

Definition float (s : string) : result Z :=
  match int s with
  | Ok n => Ok n
  | Raise _ =>
      Raise (Exn.value_error
               ("could not convert string to float: " +:+ quoted s))
  end.

(** The value of a character of the base64 alphabet. *)
Definition b64_value (c : ascii) : option N :=
  let n := N_of_ascii c in
  (if (65 <=? n) && (n <=? 90) then Some (n - 65)
   else if (97 <=? n) && (n <=? 122) then Some (n - 71)
   else if (48 <=? n) && (n <=? 57) then Some (n + 4)
   else if n =? 43 then Some 62
   else if n =? 47 then Some 63
   else None)%N.

Definition binascii_error (t : string) : exn := PyException "Error" t.

(** [binascii.a2b_base64] without strict mode: characters outside the
    alphabet are skipped, a complete run of padding ends the data, and
    an incomplete last group is an error. [out] is the output so far,
    latest byte first. *)
Fixpoint a2b_base64 (s : string) (quad_pos : nat) (leftchar : N) (pads : nat)
    (out : list ascii) : result (list ascii) :=
  match s with
  | EmptyString =>
      match quad_pos with
      | 0%nat => Ok (rev out)
      | 1%nat =>
          Raise (binascii_error
                   ("Invalid base64-encoded string: number of data characters (" +:+
                    PyStr.of_Z (Z.of_nat (List.length out) / 3 * 4 + 1) +:+
                    ") cannot be 1 more than a multiple of 4"))
      | _ => Raise (binascii_error "Incorrect padding")
      end
  | String c s' =>
      if bool_decide (c = "="%char) then
        if (2 <=? quad_pos)%nat then
          if (4 <=? quad_pos + S pads)%nat then Ok (rev out)
          else a2b_base64 s' quad_pos leftchar (S pads) out
        else a2b_base64 s' quad_pos leftchar pads out
      else
        match b64_value c with
        | None => a2b_base64 s' quad_pos leftchar pads out
        | Some v =>
            match quad_pos with
            | 0%nat => a2b_base64 s' 1 v 0 out
            | 1%nat =>
                a2b_base64 s' 2 (v mod 16) 0
                  (ascii_of_N (leftchar * 4 + v / 16) :: out)
            | 2%nat =>
                a2b_base64 s' 3 (v mod 4) 0
                  (ascii_of_N (leftchar * 16 + v / 4) :: out)
            | _ =>
                a2b_base64 s' 0 0 0 (ascii_of_N (leftchar * 64 + v) :: out)
            end
        end
  end.

Fixpoint all_ascii (s : string) : bool :=
  match s with
  | EmptyString => true
  | String c s' => (N_of_ascii c <? 128)%N && all_ascii s'
  end.

Definition decode (s : string) : result (list ascii) :=
  if all_ascii s then a2b_base64 s 0 0 0 []
  else Raise (Exn.value_error
                "string argument should contain only ASCII characters").

(** [repr] of a string. *)
Definition repr_char (quote c : ascii) : string :=
  let n := N_of_ascii c in
  if bool_decide (c = quote) || bool_decide (c = PyStr.bs)
  then String PyStr.bs (String c "")
  else if (n =? 10)%N then String PyStr.bs "n"
  else if (n =? 13)%N then String PyStr.bs "r"
  else if (n =? 9)%N then String PyStr.bs "t"
  else if ((n <? 32) || (127 <=? n) && (n <=? 160) || (n =? 173))%N
  then String PyStr.bs
         (String "x" (String (Json.hex_digit (n / 16))
                        (String (Json.hex_digit (n mod 16)) "")))
  else String c "".

Fixpoint repr_chars (quote : ascii) (s : string) : string :=
  match s with
  | EmptyString => EmptyString
  | String c s' => repr_char quote c +:+ repr_chars quote s'
  end.

Definition repr_str (s : string) : string :=
  let quote :=
    if PyStr.contains "'" s && negb (PyStr.contains PyStr.DQ s)
    then PyStr.dq else "'"%char in
  String quote (repr_chars quote s +:+ String quote "").

Fixpoint repr (v : json) : string :=
  match v with
  | JNull => "None"
  | JBool true => "True"
  | JBool false => "False"
  | JInt n => PyStr.of_Z n
  | JStr s => repr_str s
  | JList [] => "[]"
  | JList (x :: xs) =>
      "[" +:+ repr x +:+
      (fix rest (l : list json) : string :=
         match l with
         | [] => "]"
         | y :: l' => ", " +:+ repr y +:+ rest l'
         end) xs
  | JDict [] => "{}"
  | JDict ((k, x) :: kvs) =>
      "{" +:+ repr_str k +:+ ": " +:+ repr x +:+
      (fix rest (l : list (string * json)) : string :=
         match l with
         | [] => "}"
         | (k', y) :: l' =>
             ", " +:+ repr_str k' +:+ ": " +:+ repr y +:+ rest l'
         end) kvs
  end.

#[export] Instance runtime : PyRuntime := {|
  py_int := int;
  pyfloat := Z;
  py_float := float;
  py_float_of_int := fun n => n;
  pybytes := list ascii;
  bytes_len := fun b => Z.of_nat (List.length b);
  b64decode := decode;
  py_repr := repr;
|}.

(** A runtime in which a file is known by its size alone, and every
    content decodes to a file of [size] bytes: the stand-in for uploads
    too large to write down. *)
Definition sized_runtime (size : Z) : PyRuntime := {|
  py_int := int;
  pyfloat := Z;
  py_float := float;
  py_float_of_int := fun n => n;
  pybytes := Z;
  bytes_len := fun b => b;
  b64decode := fun _ => Ok size;
  py_repr := repr;
|}.

End Ref.

(** ** The pagination invariant *)

Module Pagination.

(** [next_offset] is set: the key holds a value other than [None]. *)
Definition next_offset_set (p : list (string * json)) : bool :=
  match Py.dict_get p "next_offset" with
  | Some JNull | None => false
  | Some _ => true
  end.

(** [has_more] is true. *)
Definition has_more (p : list (string * json)) : bool :=
  match Py.dict_get p "has_more" with
  | Some v => Py.truthy v
  | None => false
  end.

(** [next_offset] is set if and only if [has_more] is true. *)
Definition invariant (p : list (string * json)) : Prop :=
  next_offset_set p = has_more p.

End Pagination.

(** ** Concrete environments, networks and inputs *)

Module Scenario.

Import Client Models.

Definition api_key_env : Auth.Env := {[ "METHOD_API_KEY" := "test-key" ]}.

Definition oauth_env : Auth.Env :=
  {[ "METHOD_CLIENT_ID" := "my-client";
     "METHOD_CLIENT_SECRET" := "my-secret";
     "METHOD_REDIRECT_URI" := "https://app.example/callback" ]}.

Definition retries_env : Auth.Env :=
  {[ "METHOD_API_KEY" := "test-key"; "METHOD_MAX_RETRIES" := "7" ]}.

Definition no_credentials_env : Auth.Env := ∅.

(** An API key together with OAuth2 client credentials. *)
Definition api_key_and_oauth_env : Auth.Env :=
  {[ "METHOD_API_KEY" := "  test-key ";
     "METHOD_CLIENT_ID" := "my-client";
     "METHOD_CLIENT_SECRET" := "my-secret" ]}.

Section WithRuntime.
Context `{PyRuntime}.

Definition empty_world : World :=
  {| sent := []; tables_client := None; files_client := None |}.

Definition api_key_manager : Auth.AuthManager :=
  {| Auth.auth := Some (Auth.APIKeyAuth "test-key");
     Auth.auth_method := "api_key" |}.

(** The client [MethodAPIClient()] builds in [api_key_env]. *)
Definition client : MethodAPIClient :=
  {| base_url := "https://rest.method.me/api/v1";
     auth_manager := api_key_manager;
     timeout := default_timeout;
     max_retries := 3 |}.

Definition response_of (status : Z) (hdrs : gmap string string)
    (b : json + string) : Response :=
  {| status_code := status; headers := hdrs; body := b;
     status_text := "HTTP status " +:+ PyStr.of_Z status |}.

(** The connection fails for the first two requests and the third gets
    a 200 response. *)
Definition flaky_net : Network :=
  fun before _ =>
    match before with
    | [] | [_] => Raise (ConnectError "All connection attempts failed")
    | _ => Ok (response_of 200 ∅ (inl (JDict [("ok", JBool true)])))
    end.

(** Every request gets the same response. *)
Definition constant_net (r : Response) : Network := fun _ _ => Ok r.

(** A 429 response whose [Retry-After] header holds [v]. *)
Definition rate_limited (v : string) : Response :=
  response_of 429 {[ "retry-after" := v ]} (inr "Expecting value").

Definition http_date : string := "Wed, 21 Oct 2015 07:28:00 GMT".

(** The GET request [client] sends for [endpoint]. *)
Definition get_request (endpoint : string)
    (params : option (list (string * json))) : HttpRequest :=
  {| req_method := "GET";
     req_url := "https://rest.method.me/api/v1/" +:+ endpoint;
     req_headers := [("Authorization", "APIKey test-key");
                     ("Content-Type", "application/json")];
     req_params := params;
     req_json := None;
     req_files := None;
     req_data := None;
     req_follow_redirects := true |}.

(** Two customer records, with neither a total nor a next link. *)
Definition two_records : json :=
  JList [JDict [("RecordID", JInt 1); ("Name", JStr "Ada")];
         JDict [("RecordID", JInt 2); ("Name", JStr "Grace")]].

Definition two_records_page : Response :=
  response_of 200 ∅ (inl (JDict [("value", two_records)])).

Definition active_customers : TableQueryInput :=
  {| table := "Customer";
     filter := Some "Status eq 'Active'";
     select := None;
     top := Some 2;
     skip := Some 0;
     orderby := None;
     expand := None;
     aggregate := None;
     response_format := JSON |}.

Definition upload_of (content : string) : FileUploadInput :=
  {| filename := "report.pdf";
     content := content;
     link_table := "Customer";
     link_record_id := "42";
     description := None |}.

End WithRuntime.

End Scenario.

(** ** More of the [str] methods *)

Module Text.

(** [c.lower()] below code point 256: the ASCII capitals and the Latin-1
    capitals, which are 192..222 without the multiplication sign. *)
Definition lower_char (c : ascii) : ascii :=
  let n := N_of_ascii c in
  if ((65 <=? n) && (n <=? 90)
      || (192 <=? n) && (n <=? 222) && negb (n =? 215))%N
  then ascii_of_N (n + 32) else c.

(** [s.lower()] *)
Fixpoint lower (s : string) : string :=
  match s with
  | String c s' => String (lower_char c) (lower s')
  | EmptyString => EmptyString
  end.

(** [sep.join(parts)] *)
Fixpoint join (sep : string) (parts : list string) : string :=
  match parts with
  | [] => ""
  | x :: rest =>
      match rest with
      | [] => x
      | _ :: _ => x +:+ sep +:+ join sep rest
      end
  end.

(** The first piece of [s.split(sep)] and the pieces after it, for a
    one-character separator. *)
Fixpoint split_from (sep : ascii) (s : string) : string * list string :=
  match s with
  | EmptyString => (EmptyString, [])
  | String c s' =>
      let (piece, pieces) := split_from sep s' in
      if Ascii.eqb c sep then (EmptyString, piece :: pieces)
      else (String c piece, pieces)
  end.

(** [s.split(sep)] *)
Definition split (sep : ascii) (s : string) : list string :=
  let (piece, pieces) := split_from sep s in piece :: pieces.

(** [s.rsplit(sep, 1)] for a separator that is not empty: the text
    before the last occurrence of [sep] and the text after it, or [None]
    when [sep] does not occur and the result is [[s]]. *)
Fixpoint rsplit_once (sep s : string) : option (string * string) :=
  match s with
  | EmptyString => None
  | String c s' =>
      match rsplit_once sep s' with
      | Some (before, after) => Some (String c before, after)
      | None =>
          match Json.strip_prefix sep s with
          | Some after => Some (EmptyString, after)
          | None => None
          end
      end
  end.

(** [s.replace(old, new)] for a one-character [old]. *)
Fixpoint replace_char (old : ascii) (new : string) (s : string) : string :=
  match s with
  | String c s' =>
      (if Ascii.eqb c old then new else String c EmptyString) +:+
      replace_char old new s'
  | EmptyString => EmptyString
  end.

(** The first [n] characters of [s], or all of it. *)
Fixpoint take (n : nat) (s : string) : string :=
  match n, s with
  | S n', String c s' => String c (take n' s')
  | _, _ => EmptyString
  end.

(** [s[:k]]: a negative [k] counts from the end. *)
Definition slice_to (s : string) (k : Z) : string :=
  if k <? 0 then take (Z.to_nat (Z.of_nat (String.length s) + k)) s
  else take (Z.to_nat k) s.

(** [for x in s]: the characters, each a string. *)
Fixpoint chars (s : string) : list string :=
  match s with
  | String c s' => String c EmptyString :: chars s'
  | EmptyString => []
  end.

End Text.

(** ** utils.py: query building, field selection and the small helpers *)

Module Helpers.

(** [op_map.get(op, "eq")] *)
Definition op_map (op : string) : string :=
  if String.eqb op "gt" then "gt"
  else if String.eqb op "gte" then "ge"
  else if String.eqb op "lt" then "lt"
  else if String.eqb op "lte" then "le"
  else if String.eqb op "ne" then "ne"
  else if String.eqb op "contains" then "contains"
  else if String.eqb op "startswith" then "startswith"
  else if String.eqb op "endswith" then "endswith"
  else "eq".

(** The field and the operator a filter key stands for:
<<
    if "__" in key:
        field, op = key.rsplit("__", 1)
        operator = op_map.get(op, "eq")
    else:
        field = key
        operator = "eq"
>>
    A key that holds ["__"] always splits in two. *)
Definition parse_key (key : string) : string * string :=
  if PyStr.contains "__" key then
    match Text.rsplit_once "__" key with
    | Some (field, op) => (field, op_map op)
    | None => (key, "eq")
    end
  else (key, "eq").

(** [operator in ["contains", "startswith", "endswith"]] *)
Definition is_string_function (operator : string) : bool :=
  String.eqb operator "contains" || String.eqb operator "startswith"
  || String.eqb operator "endswith".

(** The expression one item of the filters adds, if any. *)
Definition expression (key : string) (value : json) : option string :=
  let (field, operator) := parse_key key in
  match value with
  | JNull => Some (field +:+ " eq null")
  | JBool b => Some (field +:+ " eq " +:+ (if b then "true" else "false"))
  | JInt n => Some (field +:+ " " +:+ operator +:+ " " +:+ PyStr.of_Z n)
  | JStr s =>
      if is_string_function operator
      then Some (operator +:+ "(" +:+ field +:+ ", '" +:+ s +:+ "')")
      else Some (field +:+ " " +:+ operator +:+ " '" +:+ s +:+ "'")
  | JList _ | JDict _ => None
  end.

(** The list [expressions] at the end of the loop. *)
Definition expressions (filters : list (string * json)) : list string :=
  omap (fun kv => expression (fst kv) (snd kv)) filters.

Definition build_query_filter (filters : list (string * json)) : string :=
  match filters with
  | [] => ""
  | _ :: _ => Text.join " and " (expressions filters)
  end.

(** [k in fields] for a list of strings. *)
Definition str_in (k : string) (fields : list string) : bool :=
  existsb (String.eqb k) fields.

(** [filter_record], the inner function of [select_fields]. *)
Definition filter_record (fields : list string) (record : json) : result json :=
  match record with
  | JDict d => Ok (JDict (List.filter (fun kv => str_in (fst kv) fields) d))
  | _ => Raise (Exn.attribute_error
                  ("'" +:+ Py.type_name record +:+
                   "' object has no attribute 'items'"))
  end.

(** [[filter_record(record) for record in data]] *)
Fixpoint filter_records (fields : list string) (data : list json)
  : result (list json) :=
  match data with
  | [] => Ok []
  | record :: data' =>
      rbind (filter_record fields record) (fun r =>
      rbind (filter_records fields data') (fun rs => Ok (r :: rs)))
  end.

Definition select_fields (data : json) (fields : option (list string))
  : result json :=
  match fields with
  | None => Ok data
  | Some fields =>
      match data with
      | JList l => rbind (filter_records fields l) (fun rs => Ok (JList rs))
      | _ => filter_record fields data
      end
  end.

Definition parse_boolean (value : json) : bool :=
  match value with
  | JBool b => b
  | JStr s => str_in (Text.lower s) ["true"; "yes"; "1"; "on"]
  | _ => Py.truthy value
  end.

Definition truncate_string (s : string) (max_length : Z) (suffix : string)
  : string :=
  if Z.of_nat (String.length s) <=? max_length then s
  else Text.slice_to s (max_length - Z.of_nat (String.length suffix)) +:+ suffix.

(** The loop of [safe_get] over the keys of the path. *)
Fixpoint safe_get_loop (keys : list string) (value default : json) : json :=
  match keys with
  | [] => value
  | key :: keys' =>
      match value with
      | JDict d =>
          match Py.dict_get d key with
          | Some v => safe_get_loop keys' v default
          | None => default
          end
      | _ => default
      end
  end.

Definition safe_get (data : json) (path : string) (default : json) : json :=
  safe_get_loop (Text.split "." path) data default.

(** *** [format_markdown_list] *)

Section Markdown.
Context `{PyRuntime}.
(** [str.title]: its result may hold code points above 255, and it is
    not interpreted. *)
Variable str_title : string -> string.

(** [for x in v] *)
Definition iterate (v : json) : result (list json) :=
  match v with
  | JList l => Ok l
  | JDict d => Ok (map (fun kv => JStr (fst kv)) d)
  | JStr s => Ok (map JStr (Text.chars s))
  | _ => Raise (Exn.type_error
                  ("'" +:+ Py.type_name v +:+ "' object is not iterable"))
  end.

(** The line of one field of a record, if its value is not [None]. *)
Definition field_line (record : list (string * json)) (field : string)
  : option string :=
  match Py.dict_get record field with
  | None | Some JNull => None
  | Some value =>
      let shown :=
        match value with
        | JBool b => if b then "Yes" else "No"
        | JList _ | JDict _ => Json.dumps value
        | _ => Fmt.str value
        end in
      Some ("- **" +:+ str_title (Text.replace_char "_" " " field) +:+
            "**: " +:+ shown)
  end.

(** The lines of the [i]-th record. *)
Definition record_lines (title_field : string) (fields : option (list string))
    (i : Z) (record : json) : result (list string) :=
  rbind (Fmt.get record title_field (JStr ("Record " +:+ PyStr.of_Z i)))
        (fun section_title =>
  let d := match record with JDict d => d | _ => [] end in
  let display_fields :=
    match fields with
    | Some (f :: fs) => f :: fs
    | _ => List.filter (fun k => negb (String.eqb k title_field)) (map fst d)
    end in
  Ok (["## " +:+ Fmt.str section_title; ""] ++
      omap (field_line d) display_fields ++ [""])%list).

(** The lines of the records from the [i]-th on. *)
Fixpoint records_lines (title_field : string) (fields : option (list string))
    (i : Z) (records : list json) : result (list string) :=
  match records with
  | [] => Ok []
  | record :: records' =>
      rbind (record_lines title_field fields i record) (fun ls =>
      rbind (records_lines title_field fields (i + 1) records') (fun rest =>
      Ok (ls ++ rest)%list))
  end.

Definition format_markdown_list (data : json) (title_field : string)
    (fields : option (list string)) (title : option string) : result string :=
  if negb (Py.truthy data) then Ok "No records found."
  else
    let lines :=
      match title with
      | Some t => if PyStr.truthy t then ["# " +:+ t; ""] else []
      | None => []
      end in
    rbind (iterate data) (fun records =>
    rbind (records_lines title_field fields 1 records) (fun body =>
    Ok (Text.join PyStr.NL (lines ++ body)%list))).

End Markdown.

End Helpers.

(** ** errors.py: the two response formatters *)

Module Responses.

Definition format_success_response (data : json) (message : option string)
  : string :=
  let response := [("success", JBool true)] in
  let response :=
    match message with
    | Some m => if PyStr.truthy m then Py.dict_set response "message" (JStr m)
                else response
    | None => response
    end in
  let response := Py.dict_set response "data" data in
  Json.dumps (JDict response).

Definition format_error_response (error_message : string) : string :=
  Json.dumps (JDict [("success", JBool false); ("error", JStr error_message)]).

End Responses.

(** ** models.py: more of the validated tool inputs *)

Module TableUpdateInput.
Record t : Type := mk {
  table : string;
  record_id : string;
  fields : list (string * json);
  related_records : option (list json);
}.
End TableUpdateInput.

Module TableDeleteInput.
Record t : Type := mk {
  table : string;
  record_id : string;
}.
End TableDeleteInput.

Module FileListInput.
Record t : Type := mk {
  table : option string;
  record_id : option string;
  filename_contains : option string;
  top : option Z;
  skip : option Z;
  response_format : Models.ResponseFormat;
}.
End FileListInput.

Module FileGetURLInput.
Record t : Type := mk {
  file_id : string;
}.
End FileGetURLInput.

Module FileUpdateLinkInput.
Record t : Type := mk {
  file_id : string;
  link_table : string;
  link_record_id : string;
  description : option string;
}.
End FileUpdateLinkInput.

Module FileDeleteInput.
Record t : Type := mk {
  file_id : string;
}.
End FileDeleteInput.

(** ** tools/tables.py: update and delete *)

Module Tables.

Import Client.

Section WithWorld.
Context `{PyRuntime}.
Variable env : Auth.Env.
Variable net : Network.

(** The payload [method_tables_update] sends. *)
Definition update_payload (params : TableUpdateInput.t) : list (string * json) :=
  let payload := TableUpdateInput.fields params in
  match TableUpdateInput.related_records params with
  | Some (r :: rs) => Py.dict_set payload "RelatedRecords" (JList (r :: rs))
  | _ => payload
  end.

(** The body of [method_tables_update], inside its [try]. *)
Definition method_tables_update_body (params : TableUpdateInput.t) : M string :=
  bind (Tools.tables_get_client env) (fun client =>
  let payload := update_payload params in
  let endpoint :=
    "tables/" +:+ TableUpdateInput.table params +:+ "/" +:+
    TableUpdateInput.record_id params in
  bind (patch net client endpoint (Some (JDict payload)) None) (fun result =>
  let response_data :=
    JDict [("RecordId", JStr (TableUpdateInput.record_id params));
           ("Table", JStr (TableUpdateInput.table params));
           ("UpdatedFields",
            JList (map (fun kv => JStr (fst kv)) (TableUpdateInput.fields params)));
           ("Result", result)] in
  ret (Utils.format_json_response response_data true
         (Some "Record updated successfully")))).

Definition method_tables_update (params : TableUpdateInput.t) : M string :=
  Tools.tool_boundary (method_tables_update_body params).

(** The confirmation [method_tables_delete] returns. *)
Definition delete_confirmation (params : TableDeleteInput.t) : string :=
  Utils.format_json_response
    (JDict [("RecordId", JStr (TableDeleteInput.record_id params));
            ("Table", JStr (TableDeleteInput.table params));
            ("DeletedAt", JStr "now")])
    true (Some "Record deleted successfully").

(** The body of [method_tables_delete], inside its [try]. *)
Definition method_tables_delete_body (params : TableDeleteInput.t) : M string :=
  bind (Tools.tables_get_client env) (fun client =>
  let endpoint :=
    "tables/" +:+ TableDeleteInput.table params +:+ "/" +:+
    TableDeleteInput.record_id params in
  bind (delete net client endpoint None) (fun _ =>
  ret (delete_confirmation params))).

Definition method_tables_delete (params : TableDeleteInput.t) : M string :=
  Tools.tool_boundary (method_tables_delete_body params).

End WithWorld.

End Tables.

(** ** tools/files.py: list, download URL, link update and delete *)

Module Files.

Import Client.

Section WithWorld.
Context `{PyRuntime}.
Variable env : Auth.Env.
Variable net : Network.
Variable str_title : string -> string.

(** The list [filters] of [method_files_list]. *)
Definition list_filters (params : FileListInput.t) : list string :=
  (match Models.str_if (FileListInput.table params) with
   | Some t => ["LinkTable eq '" +:+ t +:+ "'"]
   | None => []
   end ++
   match Models.str_if (FileListInput.record_id params) with
   | Some r => ["LinkRecordId eq '" +:+ r +:+ "'"]
   | None => []
   end ++
   match Models.str_if (FileListInput.filename_contains params) with
   | Some f => ["contains(Filename, '" +:+ f +:+ "')"]
   | None => []
   end)%list.

(** The query parameters [method_files_list] builds. *)
Definition list_query_params (params : FileListInput.t) : list (string * json) :=
  Tools.add_param "$skip" (JInt <$> Models.int_if (FileListInput.skip params))
  (Tools.add_param "$top" (JInt <$> Models.int_if (FileListInput.top params))
  (Tools.add_param "$filter"
     (match list_filters params with
      | [] => None
      | f :: fs => Some (JStr (Text.join " and " (f :: fs)))
      end) [])).

(** What [method_files_list] reads off the response: the files, their
    number [len(files)], [count], [total] and [next_link]. *)
Definition list_metadata (response : json)
  : result (json * Z * json * json * json) :=
  match response with
  | JList l =>
      Ok (response, Z.of_nat (List.length l),
          JInt (Z.of_nat (List.length l)), JNull, JNull)
  | _ =>
      rbind (Fmt.get response "value" (JList [])) (fun files =>
      rbind (Fmt.len files) (fun n_files =>
      rbind (Fmt.get response "count" (JInt n_files)) (fun count =>
      rbind (Fmt.get response "@odata.count" JNull) (fun total =>
      rbind (Fmt.get response "nextLink" JNull) (fun next_link =>
      Ok (files, n_files, count, total, next_link))))))
  end.

(** The pagination metadata of [method_files_list]: the call of
    [format_pagination_info] and the assignments that follow it. *)
Definition list_pagination (params : FileListInput.t) (response : json)
    (count total next_link : json) : result (list (string * json)) :=
  let limit := Models.int_or (FileListInput.top params) 20 in
  rbind (Utils.format_pagination_info total count
           (Models.int_or (FileListInput.skip params) 0) limit)
        (fun pagination =>
  match response with
  | JList _ =>
      Ok (Py.dict_set pagination "has_more" (JBool (Utils.eq_int count limit)))
  | _ =>
      match next_link with
      | JNull => Ok pagination
      | _ =>
          Ok (Py.dict_set (Py.dict_set pagination "has_more" (JBool true))
                "next_link" next_link)
      end
  end).

(** The body of [method_files_list], inside its [try]. *)
Definition method_files_list_body (params : FileListInput.t) : M string :=
  bind (Tools.files_get_client env) (fun client =>
  bind (get net client "files" (Some (list_query_params params))) (fun response =>
  bind (lift (list_metadata response)) (fun '(files, n_files, count, total, next_link) =>
  bind (lift (list_pagination params response count total next_link))
       (fun pagination =>
  match FileListInput.response_format params with
  | Models.MARKDOWN =>
      if negb (Py.truthy files) then
        ret ("# Files" +:+ PyStr.NL +:+ PyStr.NL +:+
             "No files found matching the criteria.")
      else
        let title :=
          match total with
          | JNull =>
              "Files (" +:+ Fmt.str (Tools.dict_item pagination "count") +:+
              " files)"
          | _ =>
              "Files (" +:+ Fmt.str (Tools.dict_item pagination "count") +:+
              " of " +:+ Fmt.str (Tools.dict_item pagination "total") +:+ ")"
          end in
        bind (lift (Helpers.format_markdown_list str_title files "Filename"
                      (Some ["Id"; "Size"; "LinkedTable"; "LinkedRecordId";
                             "CreatedDate"])
                      (Some title))) (fun files_md =>
        let start_file := Models.int_or (FileListInput.skip params) 0 + 1 in
        let end_file := Models.int_or (FileListInput.skip params) 0 + n_files in
        let footer :=
          PyStr.NL +:+ PyStr.NL +:+ "**Pagination**: Showing files " +:+
          PyStr.of_Z start_file +:+ "-" +:+ PyStr.of_Z end_file +:+
          match total with
          | JNull => ""
          | _ => " of " +:+ Fmt.str total
          end in
        let footer :=
          if Py.truthy (Tools.dict_item pagination "has_more") then
            footer +:+ " | More files available | Next offset: " +:+
            Fmt.str (Tools.dict_item pagination "next_offset")
          else footer +:+ " | No more files" in
        ret (files_md +:+ footer))
  | Models.JSON =>
      let result := Py.dict_set pagination "files" files in
      ret (Utils.format_json_response (JDict result) true None)
  end)))).

Definition method_files_list (params : FileListInput.t) : M string :=
  Tools.tool_boundary (method_files_list_body params).

(** The request [method_files_get_url] makes with an [httpx] client of
    its own. *)
Definition get_url_request (client : MethodAPIClient)
    (params : FileGetURLInput.t) (hdrs : list (string * string)) : HttpRequest :=
  {| req_method := "GET";
     req_url := base_url client +:+ "/files/" +:+
                FileGetURLInput.file_id params +:+ "/url";
     req_headers := hdrs;
     req_params := None;
     req_json := None;
     req_files := None;
     req_data := None;
     req_follow_redirects := false |}.

(** The body of [method_files_get_url], inside its [try]. *)
Definition method_files_get_url_body (params : FileGetURLInput.t) : M string :=
  bind (Tools.files_get_client env) (fun client =>
  bind (lift (Auth.AuthManager_get_headers (auth_manager client))) (fun hdrs =>
  bind (send net (get_url_request client params hdrs)) (fun response =>
  bind (lift (raise_for_status response)) (fun _ =>
  bind (lift (Response_json response)) (fun download_url =>
  let response_data :=
    JDict [("FileId", JStr (FileGetURLInput.file_id params));
           ("DownloadURL", download_url);
           ("ExpiresIn", JStr "20 minutes");
           ("Note",
            JStr "This URL expires in 20 minutes. Generate a new URL after expiration.")] in
  ret (Utils.format_json_response response_data true None)))))).

Definition method_files_get_url (params : FileGetURLInput.t) : M string :=
  Tools.tool_boundary (method_files_get_url_body params).

(** The body of [method_files_update_link], inside its [try]. *)
Definition method_files_update_link_body (params : FileUpdateLinkInput.t)
  : M string :=
  bind (Tools.files_get_client env) (fun client =>
  bind (lift (py_int (FileUpdateLinkInput.link_record_id params))) (fun record_id =>
  let payload :=
    JDict [("tableName", JStr (FileUpdateLinkInput.link_table params));
           ("recordId", JInt record_id)] in
  let endpoint := "files/" +:+ FileUpdateLinkInput.file_id params +:+ "/link" in
  bind (put net client endpoint (Some payload) None) (fun result =>
  bind (lift (Fmt.get result "Filename" JNull)) (fun fname =>
  let response_data :=
    JDict [("FileId", JStr (FileUpdateLinkInput.file_id params));
           ("Filename", fname);
           ("NewLinkTable", JStr (FileUpdateLinkInput.link_table params));
           ("NewLinkRecordId", JStr (FileUpdateLinkInput.link_record_id params));
           ("Description",
            Py.of_option_str (FileUpdateLinkInput.description params))] in
  ret (Utils.format_json_response response_data true
         (Some "File link updated successfully")))))).

Definition method_files_update_link (params : FileUpdateLinkInput.t) : M string :=
  Tools.tool_boundary (method_files_update_link_body params).

(** The confirmation [method_files_delete] returns. *)
Definition delete_confirmation (params : FileDeleteInput.t) : string :=
  Utils.format_json_response
    (JDict [("FileId", JStr (FileDeleteInput.file_id params));
            ("DeletedAt", JStr "now")])
    true (Some "File deleted successfully").

(** The body of [method_files_delete], inside its [try]. *)
Definition method_files_delete_body (params : FileDeleteInput.t) : M string :=
  bind (Tools.files_get_client env) (fun client =>
  let endpoint := "files/" +:+ FileDeleteInput.file_id params in
  bind (delete net client endpoint None) (fun _ =>
  ret (delete_confirmation params))).

Definition method_files_delete (params : FileDeleteInput.t) : M string :=
  Tools.tool_boundary (method_files_delete_body params).

End WithWorld.

End Files.

(** ** tools/apikeys.py: list and update *)

Module APIKeyListInput.
Record t : Type := mk {
  top : option Z;
  skip : option Z;
  response_format : Models.ResponseFormat;
}.
End APIKeyListInput.

Module APIKeyUpdateInput.
Record t : Type := mk {
  key_id : string;
  name : option string;
  description : option string;
  permissions : option (list string);
  is_active : option bool;
}.
End APIKeyUpdateInput.

Module Apikeys.

Import Client.

Section WithWorld.
Context `{PyRuntime}.
Variable env : Auth.Env.
Variable net : Network.
Variable str_title : string -> string.

(** The state a tool of this module runs in: the world, and the
    [_client] singleton of tools/apikeys.py. *)
Record State : Type := mkState {
  world : World;
  client : option MethodAPIClient;
}.

Definition SM (A : Type) : Type := State -> result A * State.

Definition sret {A} (a : A) : SM A := fun s => (Ok a, s).
Definition slift {A} (r : result A) : SM A := fun s => (r, s).
Definition sbind {A B} (m : SM A) (k : A -> SM B) : SM B :=
  fun s => match m s with
           | (Ok a, s') => k a s'
           | (Raise e, s') => (Raise e, s')
           end.

(** A computation on the world, run in the state of the module. *)
Definition in_world {A} (m : M A) : SM A :=
  fun s => match m (world s) with
           | (r, w') => (r, {| world := w'; client := client s |})
           end.

(** [try: body except Exception as e: return handle_api_error(e)] *)
Definition tool_boundary (body : SM string) : SM string :=
  fun s => match body s with
           | (Ok a, s') => (Ok a, s')
           | (Raise e, s') => (Ok (Errors.handle_api_error e), s')
           end.

(** [get_client()] of tools/apikeys.py *)
Definition get_client : SM MethodAPIClient :=
  fun s =>
    match client s with
    | Some c => (Ok c, s)
    | None =>
        match MethodAPIClient_init env None None default_timeout
                default_max_retries with
        | Ok c => (Ok c, {| world := world s; client := Some c |})
        | Raise e => (Raise e, s)
        end
    end.

(** The query parameters [method_apikeys_list] builds. *)
Definition list_query_params (params : APIKeyListInput.t)
  : list (string * json) :=
  Tools.add_param "$skip" (JInt <$> Models.int_if (APIKeyListInput.skip params))
  (Tools.add_param "$top" (JInt <$> Models.int_if (APIKeyListInput.top params))
     []).

(** The footer of the Markdown listing: the two bounds are
    [params.skip or 0 + 1] and [params.skip or 0 + len(api_keys)]. *)
Definition list_footer (params : APIKeyListInput.t) (n_keys : Z) (total : json)
    (pagination : list (string * json)) : string :=
  let footer :=
    PyStr.NL +:+ PyStr.NL +:+ "**Pagination**: Showing keys " +:+
    PyStr.of_Z (Models.int_or (APIKeyListInput.skip params) (0 + 1)) +:+ "-" +:+
    PyStr.of_Z (Models.int_or (APIKeyListInput.skip params) (0 + n_keys)) +:+
    " of " +:+ Fmt.str total in
  let footer :=
    if Py.truthy (Tools.dict_item pagination "has_more") then
      footer +:+ " | Next offset: " +:+
      Fmt.str (Tools.dict_item pagination "next_offset")
    else footer in
  footer +:+ PyStr.NL +:+ PyStr.NL +:+
  "**Security Note**: For security reasons, actual API keys are masked. " +:+
  "Keys are only shown once during creation.".

(** The body of [method_apikeys_list], inside its [try]. *)
Definition method_apikeys_list_body (params : APIKeyListInput.t) : SM string :=
  sbind get_client (fun client =>
  sbind (in_world (get net client "apikeys" (Some (list_query_params params))))
        (fun response =>
  sbind (slift (Fmt.get response "value" (JList []))) (fun api_keys =>
  sbind (slift (Fmt.len api_keys)) (fun n_keys =>
  sbind (slift (Fmt.get response "@odata.count" (JInt n_keys))) (fun total =>
  sbind (slift (Utils.format_pagination_info total (JInt n_keys)
                  (Models.int_or (APIKeyListInput.skip params) 0)
                  (Models.int_or (APIKeyListInput.top params) 20)))
        (fun pagination =>
  match APIKeyListInput.response_format params with
  | Models.MARKDOWN =>
      if negb (Py.truthy api_keys) then
        sret ("# API Keys" +:+ PyStr.NL +:+ PyStr.NL +:+ "No API keys found.")
      else
        sbind (slift (Helpers.format_markdown_list str_title api_keys "Name"
                        (Some ["Id"; "Description"; "MaskedKey"; "Permissions";
                               "CreatedDate"; "CreatedBy"; "LastUsed";
                               "IsActive"])
                        (Some ("API Keys (" +:+
                               Fmt.str (Tools.dict_item pagination "count") +:+
                               " of " +:+
                               Fmt.str (Tools.dict_item pagination "total") +:+
                               ")"))))
              (fun keys_md =>
        sret (keys_md +:+ list_footer params n_keys total pagination))
  | Models.JSON =>
      let result :=
        Py.dict_set (Py.dict_set pagination "api_keys" api_keys)
          "security_note"
          (JStr ("Actual API keys are masked for security. " +:+
                 "Keys are only shown once during creation.")) in
      sret (Utils.format_json_response (JDict result) true None)
  end)))))).

Definition method_apikeys_list (params : APIKeyListInput.t) : SM string :=
  tool_boundary (method_apikeys_list_body params).

(** The payload [method_apikeys_update] builds: the fields that are not
    [None]. *)
Definition update_payload (params : APIKeyUpdateInput.t)
  : list (string * json) :=
  Tools.add_param "IsActive" (JBool <$> APIKeyUpdateInput.is_active params)
  (Tools.add_param "Permissions"
     ((fun l => JList (map JStr l)) <$> APIKeyUpdateInput.permissions params)
  (Tools.add_param "Description"
     (JStr <$> APIKeyUpdateInput.description params)
  (Tools.add_param "Name" (JStr <$> APIKeyUpdateInput.name params) []))).

Definition no_fields_error : string :=
  "Error: No fields provided for update. Specify at least one field to " +:+
  "update (name, description, permissions, or is_active).".

(** The body of [method_apikeys_update], inside its [try]. *)
Definition method_apikeys_update_body (params : APIKeyUpdateInput.t)
  : SM string :=
  sbind get_client (fun client =>
  let payload := update_payload params in
  match payload with
  | [] => sret no_fields_error
  | _ :: _ =>
      let endpoint := "apikeys/" +:+ APIKeyUpdateInput.key_id params in
      sbind (in_world (put net client endpoint (Some (JDict payload)) None))
            (fun result =>
      sret (Utils.format_json_response result true
              (Some "API key updated successfully")))
  end).

Definition method_apikeys_update (params : APIKeyUpdateInput.t) : SM string :=
  tool_boundary (method_apikeys_update_body params).

End WithWorld.

End Apikeys.

(** ** What a call is expected to send and to leave behind *)

Module Expect.

Import Client.

Section WithRuntime.
Context `{PyRuntime}.

(** The headers of API-key authentication. *)
Definition api_key_headers (key : string) : list (string * string) :=
  [("Authorization", "APIKey " +:+ key); ("Content-Type", "application/json")].

(** A request as [MethodAPIClient.request] hands it to httpx. *)
Definition api_request (method url key : string)
    (params : option (list (string * json))) (json_data : option json)
  : HttpRequest :=
  {| req_method := method;
     req_url := url;
     req_headers := api_key_headers key;
     req_params := params;
     req_json := json_data;
     req_files := None;
     req_data := None;
     req_follow_redirects := true |}.

(** The world after one more request. *)
Definition after (w : World) (rq : HttpRequest) : World :=
  {| sent := sent w ++ [rq];
     tables_client := tables_client w;
     files_client := files_client w |}.

End WithRuntime.

End Expect.

(** ** More environments and inputs *)

Module Examples.

(** A blank API key together with OAuth2 client credentials. *)
Definition blank_key_env : Auth.Env :=
  {[ "METHOD_API_KEY" := "   ";
     "METHOD_CLIENT_ID" := "my-client";
     "METHOD_CLIENT_SECRET" := "my-secret" ]}.

(** OAuth2 client credentials only. *)
Definition client_credentials_env : Auth.Env :=
  {[ "METHOD_CLIENT_ID" := "my-client";
     "METHOD_CLIENT_SECRET" := "my-secret" ]}.

Definition customer_42 : TableDeleteInput.t :=
  {| TableDeleteInput.table := "Customer"; TableDeleteInput.record_id := "42" |}.

Definition relink (record_id : string) : FileUpdateLinkInput.t :=
  {| FileUpdateLinkInput.file_id := "f-1";
     FileUpdateLinkInput.link_table := "Invoice";
     FileUpdateLinkInput.link_record_id := record_id;
     FileUpdateLinkInput.description := Some "signed copy" |}.

Definition first_files (top : option Z) : FileListInput.t :=
  {| FileListInput.table := None;
     FileListInput.record_id := None;
     FileListInput.filename_contains := None;
     FileListInput.top := top;
     FileListInput.skip := Some 0;
     FileListInput.response_format := Models.JSON |}.

Definition file_f1 : FileGetURLInput.t := {| FileGetURLInput.file_id := "f-1" |}.

(** An update whose fields hold a key named like the related records. *)
Definition update_customer : TableUpdateInput.t :=
  {| TableUpdateInput.table := "Customer";
     TableUpdateInput.record_id := "42";
     TableUpdateInput.fields :=
       [("Email", JStr "ada@example.com"); ("RelatedRecords", JStr "none")];
     TableUpdateInput.related_records :=
       Some [JDict [("RecordId", JInt 7); ("Status", JStr "Paid")]] |}.

Definition two_files : list json :=
  [JDict [("Id", JInt 1); ("Filename", JStr "a.pdf")];
   JDict [("Id", JInt 2); ("Filename", JStr "b.pdf")]].

(** The first twenty customers, as Markdown. *)
Definition customers_markdown : Models.TableQueryInput :=
  {| Models.table := "Customer";
     Models.filter := None;
     Models.select := None;
     Models.top := Some 20;
     Models.skip := Some 0;
     Models.orderby := None;
     Models.expand := None;
     Models.aggregate := None;
     Models.response_format := Models.MARKDOWN |}.

(** A table renderer that writes the title only. *)
Definition title_only (data : json) (title : string) : result string :=
  Ok ("## " +:+ title).

(** The API keys from the sixth on, as Markdown. *)
Definition keys_after_five : APIKeyListInput.t :=
  {| APIKeyListInput.top := Some 20;
     APIKeyListInput.skip := Some 5;
     APIKeyListInput.response_format := Models.MARKDOWN |}.

(** An update that names a key and gives no field. *)
Definition empty_update : APIKeyUpdateInput.t :=
  {| APIKeyUpdateInput.key_id := "k-1";
     APIKeyUpdateInput.name := None;
     APIKeyUpdateInput.description := None;
     APIKeyUpdateInput.permissions := None;
     APIKeyUpdateInput.is_active := None |}.

(** An update that switches a key off. *)
Definition switch_off : APIKeyUpdateInput.t :=
  {| APIKeyUpdateInput.key_id := "k-1";
     APIKeyUpdateInput.name := None;
     APIKeyUpdateInput.description := Some "";
     APIKeyUpdateInput.permissions := None;
     APIKeyUpdateInput.is_active := Some false |}.

Section WithRuntime.
Context `{PyRuntime}.

(** A world in which both modules hold [Scenario.client]. *)
Definition ready_world : Client.World :=
  {| Client.sent := [];
     Client.tables_client := Some Scenario.client;
     Client.files_client := Some Scenario.client |}.

(** A 404 response with the error body of the API. *)
Definition not_found : Response :=
  Scenario.response_of 404 ∅
    (inl (JDict [("error", JDict [("message", JStr "No such record")])])).

(** A 200 response with an empty body. *)
Definition empty_ok : Response :=
  Scenario.response_of 200 ∅ (inr "Expecting value: line 1 column 1 (char 0)").

(** The answer of the files endpoint: a plain list. *)
Definition files_page : Response :=
  Scenario.response_of 200 ∅ (inl (JList two_files)).

(** Two records and the link of a next page. *)
Definition linked_page : Response :=
  Scenario.response_of 200 ∅
    (inl (JDict [("value", Scenario.two_records);
                 ("nextLink", JStr "https://rest.method.me/api/v1/tables/Customer?$skip=2")])).

(** Two API keys of seven. *)
Definition keys_page : Response :=
  Scenario.response_of 200 ∅
    (inl (JDict [("value",
                  JList [JDict [("Id", JInt 6); ("Name", JStr "ci")];
                         JDict [("Id", JInt 7); ("Name", JStr "backup")]]);
                 ("@odata.count", JInt 7)])).

(** The state of tools/apikeys.py once its client exists. *)
Definition apikeys_ready : Apikeys.State :=
  {| Apikeys.world := Scenario.empty_world;
     Apikeys.client := Some Scenario.client |}.

(** A 204 response. *)
Definition no_content : Response :=
  Scenario.response_of 204 ∅ (inr "Expecting value: line 1 column 1 (char 0)").

End WithRuntime.

End Examples.

(** * Properties *)

(** Closed examples run on the reference runtime; every statement with a
    [PyRuntime] of its own is about that one. *)
#[global] Existing Instance Ref.runtime.

(** ** The error translator (errors.py) *)

Lemma contains_prefix (sub s : string) :
  PyStr.startswith sub s = true -> PyStr.contains sub s = true.
Proof.
  intros Hp. destruct s as [|c s]; cbn [PyStr.contains]; rewrite Hp; reflexivity.
Qed.

Lemma handle_api_error_starts_with_Error `{PyRuntime} (e : exn) :
  exists rest, Errors.handle_api_error e = "Error" +:+ rest.
Proof.
  destruct e as [text r| | | | | | | | | ]; simpl;
    try (eexists; reflexivity).
  repeat (match goal with
          | |- context [if ?b then _ else _] => destruct b
          end; try (eexists; reflexivity)).
Qed.

(** C4. The error translator is total: whatever the exception, also one
    of an unrecognised class or an HTTP status error whose response body
    is not JSON or has an unexpected shape, [handle_api_error] returns a
    string, the string is not empty and it contains the word "Error". *)
Theorem handle_api_error_total `{PyRuntime} (e : exn) :
  Errors.handle_api_error e <> "" /\
  PyStr.contains "Error" (Errors.handle_api_error e) = true.
Proof.
  destruct (handle_api_error_starts_with_Error e) as [rest ->].
  split; [discriminate | apply contains_prefix; reflexivity].
Qed.

(** A malformed error body degrades to the exception's own text. *)
Lemma error_message_malformed_body `{PyRuntime} (text t : string) (r : Response) :
  body r = inr t -> Errors.error_message text r = text.
Proof. intros Hb. unfold Errors.error_message, Response_json. rewrite Hb. reflexivity. Qed.

(** ** Pagination (utils.py) *)

(** C2. For integer inputs, [format_pagination_info] returns the six
    fields with [has_more] equal to [total > offset + count] when the
    total is known and to [count == limit] when it is [None], and with
    [next_offset] equal to [offset + count] exactly when [has_more] is
    true and [None] otherwise. *)
Theorem format_pagination_info_spec (total : option Z) (count offset limit : Z) :
  exists (has_more : bool) (next_offset : option Z),
    Utils.format_pagination_info (Py.of_option_Z total) (JInt count) offset limit
    = Ok [("total", Py.of_option_Z total);
          ("count", JInt count);
          ("offset", JInt offset);
          ("limit", JInt limit);
          ("has_more", JBool has_more);
          ("next_offset", Py.of_option_Z next_offset)]
    /\ (forall t, total = Some t -> (has_more = true <-> t > offset + count))
    /\ (total = None -> (has_more = true <-> count = limit))
    /\ (has_more = true -> next_offset = Some (offset + count))
    /\ (has_more = false -> next_offset = None).
Proof.
  unfold Utils.format_pagination_info, Utils.add_int, Utils.gt_int, Utils.eq_int.
  destruct total as [t|]; simpl.
  - destruct (offset + count <? t) eqn:E; simpl.
    + exists true, (Some (offset + count)). apply Z.ltb_lt in E.
      split; [reflexivity|]. split; [|split; [discriminate|split]].
      * intros t' [= <-]. split; [lia | reflexivity].
      * reflexivity.
      * discriminate.
    + exists false, None. apply Z.ltb_ge in E.
      split; [reflexivity|]. split; [|split; [discriminate|split]].
      * intros t' [= <-]. split; [discriminate | lia].
      * discriminate.
      * reflexivity.
  - destruct (count =? limit) eqn:E; simpl.
    + exists true, (Some (offset + count)). apply Z.eqb_eq in E.
      split; [reflexivity|]. split; [discriminate|split; [|split]].
      * intros _. split; [intros _; exact E | reflexivity].
      * reflexivity.
      * discriminate.
    + exists false, None. apply Z.eqb_neq in E.
      split; [reflexivity|]. split; [discriminate|split; [|split]].
      * intros _. split; [discriminate | contradiction].
      * discriminate.
      * reflexivity.
Qed.

(** ** Authentication selection (auth.py) *)

(** C6. With no API key and with client id, client secret and redirect
    URI all set, [AuthManager()] selects the authorization-code handler:
    the three-variable test comes before the client-credentials test. *)
Theorem AuthManager_init_prefers_authorization_code
    (env : Auth.Env) (id secret uri : string) :
  Auth.getenv_truthy env "METHOD_API_KEY" = None ->
  Auth.getenv_truthy env "METHOD_CLIENT_ID" = Some id ->
  Auth.getenv_truthy env "METHOD_CLIENT_SECRET" = Some secret ->
  Auth.getenv_truthy env "METHOD_REDIRECT_URI" = Some uri ->
  exists authorize_url token_url,
    Auth.AuthManager_init env =
    Ok {| Auth.auth := Some (Auth.OAuth2AuthorizationCodeAuth
                               id secret uri authorize_url token_url);
          Auth.auth_method := "oauth2_authorization_code" |}.
Proof.
  intros Hk Hi Hs Hu. unfold Auth.AuthManager_init.
  rewrite Hk, Hi, Hs, Hu. eexists _, _. reflexivity.
Qed.

Lemma AuthManager_init_prefers_authorization_code_run :
  exists authorize_url token_url,
    Auth.AuthManager_init Scenario.oauth_env =
    Ok {| Auth.auth := Some (Auth.OAuth2AuthorizationCodeAuth
                               "my-client" "my-secret"
                               "https://app.example/callback"
                               authorize_url token_url);
          Auth.auth_method := "oauth2_authorization_code" |}.
Proof.
  apply (AuthManager_init_prefers_authorization_code Scenario.oauth_env);
    reflexivity.
Defined.

(** X4. The API key has the highest precedence: when it is set and not
    blank, it is selected whatever else the environment holds. *)
Lemma AuthManager_init_api_key_wins (env : Auth.Env) (key : string) :
  Auth.getenv_truthy env "METHOD_API_KEY" = Some key ->
  PyStr.strip key <> "" ->
  Auth.AuthManager_init env =
  Ok {| Auth.auth := Some (Auth.APIKeyAuth (PyStr.strip key));
        Auth.auth_method := "api_key" |}.
Proof.
  intros Hk Hne. unfold Auth.AuthManager_init, Auth.APIKeyAuth_init.
  rewrite Hk.
  assert (PyStr.truthy key = true) as ->.
  { unfold Auth.getenv_truthy in Hk. destruct (env !! "METHOD_API_KEY"); [|discriminate].
    destruct (PyStr.truthy s) eqn:E; [|discriminate]. congruence. }
  assert (PyStr.truthy (PyStr.strip key) = true) as ->.
  { destruct (PyStr.strip key); [contradiction|reflexivity]. }
  reflexivity.
Qed.

Lemma AuthManager_init_api_key_wins_run :
  Auth.AuthManager_init Scenario.api_key_and_oauth_env =
  Ok {| Auth.auth := Some (Auth.APIKeyAuth "test-key");
        Auth.auth_method := "api_key" |}.
Proof.
  apply (AuthManager_init_api_key_wins Scenario.api_key_and_oauth_env "  test-key ").
  - reflexivity.
  - discriminate.
Defined.


(** Without any credential the construction fails with
    [AuthenticationError]. *)
Lemma AuthManager_init_no_credentials (env : Auth.Env) :
  Auth.getenv_truthy env "METHOD_API_KEY" = None ->
  Auth.getenv_truthy env "METHOD_CLIENT_ID" = None ->
  Auth.AuthManager_init env = Raise Auth.no_credentials.
Proof.
  intros Hk Hi. unfold Auth.AuthManager_init. rewrite Hk, Hi.
  destruct (Auth.getenv_truthy env "METHOD_CLIENT_SECRET");
    destruct (Auth.getenv_truthy env "METHOD_REDIRECT_URI"); reflexivity.
Qed.

(** ** Client construction (client.py) *)

Lemma rstrip_by_no_trailing (p : ascii -> bool) (s : string) :
  forall t c, PyStr.rstrip_by p s = t +:+ String c "" -> p c = false.
Proof.
  induction s as [|a s IH]; intros t c; simpl.
  - destruct t; discriminate.
  - destruct (PyStr.rstrip_by p s) as [|b r] eqn:E.
    + destruct (p a) eqn:Ea.
      * destruct t; discriminate.
      * destruct t as [|x t]; simpl; intros Heq.
        -- injection Heq as Hac. subst c. exact Ea.
        -- injection Heq as _ Ht. destruct t; discriminate.
    + destruct t as [|x t]; simpl; intros Heq.
      * discriminate.
      * injection Heq as _ Ht. eapply IH. exact Ht.
Qed.

(** The base URL taken from the environment or the default never ends
    with a slash. *)
Lemma resolved_base_url_no_trailing_slash (env : Auth.Env) (t : string) :
  PyStr.rstrip_char "/"
    (Auth.getenv_default env "METHOD_API_BASE_URL" Client.default_base_url)
  <> t +:+ "/".
Proof.
  intros Heq. apply rstrip_by_no_trailing in Heq. discriminate.
Qed.

(** C9, as the code has it. When [MethodAPIClient(...)] succeeds:
    - a non-empty [base_url] argument is used as given; otherwise the
      base URL is [METHOD_API_BASE_URL], or the default
      [https://rest.method.me/api/v1/] when the variable is unset, with
      its trailing slashes stripped;
    - the timeout is [float] of [METHOD_REQUEST_TIMEOUT] when the
      variable is set, and the [timeout] argument only when it is unset;
    - the retry count is [int] of [METHOD_MAX_RETRIES] when the variable
      is set, and the [max_retries] argument only when it is unset. *)
Theorem MethodAPIClient_init_resolution `{PyRuntime}
    (env : Auth.Env) (base_url : option string)
    (auth_manager : option Auth.AuthManager) (timeout : pyfloat)
    (max_retries : Z) (c : Client.MethodAPIClient) :
  Client.MethodAPIClient_init env base_url auth_manager timeout max_retries = Ok c ->
  (forall b, base_url = Some b -> b <> "" -> Client.base_url c = b)
  /\ (base_url = None \/ base_url = Some "" ->
      Client.base_url c =
      PyStr.rstrip_char "/"
        (Auth.getenv_default env "METHOD_API_BASE_URL"
           "https://rest.method.me/api/v1/"))
  /\ (forall v, env !! "METHOD_REQUEST_TIMEOUT" = Some v ->
      py_float v = Ok (Client.timeout c))
  /\ (env !! "METHOD_REQUEST_TIMEOUT" = None -> Client.timeout c = timeout)
  /\ (forall v, env !! "METHOD_MAX_RETRIES" = Some v ->
      py_int v = Ok (Client.max_retries c))
  /\ (env !! "METHOD_MAX_RETRIES" = None -> Client.max_retries c = max_retries).
Proof.
  unfold Client.MethodAPIClient_init.
  destruct (match auth_manager with Some m => Ok m | None => _ end)
    as [m|] eqn:Em; simpl; [|discriminate].
  destruct (env !! "METHOD_REQUEST_TIMEOUT") as [vt|] eqn:Et.
  - destruct (py_float vt) as [ft|] eqn:Eft; simpl; [|discriminate].
    destruct (env !! "METHOD_MAX_RETRIES") as [vr|] eqn:Er.
    + destruct (py_int vr) as [nr|] eqn:Enr; simpl; [|discriminate].
      destruct (negb _); [discriminate|]. intros [= <-]; simpl.
      repeat split; try congruence.
      * intros b -> Hb. destruct b; [contradiction|reflexivity].
      * intros [->| ->]; reflexivity.
    + simpl. destruct (negb _); [discriminate|]. intros [= <-]; simpl.
      repeat split; try congruence.
      * intros b -> Hb. destruct b; [contradiction|reflexivity].
      * intros [->| ->]; reflexivity.
  - simpl. destruct (env !! "METHOD_MAX_RETRIES") as [vr|] eqn:Er.
    + destruct (py_int vr) as [nr|] eqn:Enr; simpl; [|discriminate].
      destruct (negb _); [discriminate|]. intros [= <-]; simpl.
      repeat split; try congruence.
      * intros b -> Hb. destruct b; [contradiction|reflexivity].
      * intros [->| ->]; reflexivity.
    + simpl. destruct (negb _); [discriminate|]. intros [= <-]; simpl.
      repeat split; try congruence.
      * intros b -> Hb. destruct b; [contradiction|reflexivity].
      * intros [->| ->]; reflexivity.
Qed.

(** The construction at work: in an environment that only holds an API
    key, the defaults are resolved. *)
Lemma MethodAPIClient_init_defaults :
  Client.MethodAPIClient_init (H := Ref.runtime) Scenario.api_key_env
    None None Client.default_timeout Client.default_max_retries
  = Ok Scenario.client.
Proof. reflexivity. Qed.

Lemma MethodAPIClient_init_resolution_run :
  (forall b, @None string = Some b -> b <> "" ->
             Client.base_url (H := Ref.runtime) Scenario.client = b)
  /\ (@None string = None \/ @None string = Some "" ->
      Client.base_url (H := Ref.runtime) Scenario.client =
      PyStr.rstrip_char "/"
        (Auth.getenv_default Scenario.api_key_env "METHOD_API_BASE_URL"
           "https://rest.method.me/api/v1/"))
  /\ (forall v, Scenario.api_key_env !! "METHOD_REQUEST_TIMEOUT" = Some v ->
      py_float (PyRuntime := Ref.runtime) v
      = Ok (Client.timeout (H := Ref.runtime) Scenario.client))
  /\ (Scenario.api_key_env !! "METHOD_REQUEST_TIMEOUT" = None ->
      Client.timeout (H := Ref.runtime) Scenario.client = Client.default_timeout)
  /\ (forall v, Scenario.api_key_env !! "METHOD_MAX_RETRIES" = Some v ->
      py_int (PyRuntime := Ref.runtime) v
      = Ok (Client.max_retries (H := Ref.runtime) Scenario.client))
  /\ (Scenario.api_key_env !! "METHOD_MAX_RETRIES" = None ->
      Client.max_retries (H := Ref.runtime) Scenario.client
      = Client.default_max_retries).
Proof.
  apply (MethodAPIClient_init_resolution (H := Ref.runtime)
           Scenario.api_key_env None None
           Client.default_timeout Client.default_max_retries Scenario.client).
  reflexivity.
Defined.

(** C9, as the claim has it, fails: with [METHOD_MAX_RETRIES=7] in the
    environment, [MethodAPIClient(max_retries=5)] ends with 7 retries,
    not with the 5 of the explicit argument. *)
Lemma explicit_max_retries_loses_to_environment :
  exists c,
    Client.MethodAPIClient_init (H := Ref.runtime) Scenario.retries_env
      None None Client.default_timeout 5 = Ok c
    /\ Client.max_retries c = 7
    /\ Client.max_retries c <> 5.
Proof.
  eexists. split; [reflexivity|].
  split; [reflexivity | discriminate].
Qed.

(** ** The request operation (client.py) *)

Section RequestFacts.
Context `{PyRuntime}.
Variable net : Client.Network.
Variable self : Client.MethodAPIClient.

(** Whatever [request]'s body raises is a member of the client's own
    error family: any other exception has been wrapped by the [except]
    clause. *)
Lemma request_body_raises_api_error method endpoint params json_data w e w' :
  Client.request_body net self method endpoint params json_data w = (Raise e, w') ->
  Exn.is_MethodAPIError e = true.
Proof.
  unfold Client.request_body, Client.try_except.
  destruct (Client.request_try _ _ _ _ _ _ w) as [[a|e0] w1]; [discriminate|].
  unfold Client.request_except.
  destruct (Exn.is_MethodAPIError e0) eqn:E; unfold Client.raise;
    intros [= <- <-]; [exact E | reflexivity].
Qed.

Lemma api_error_not_retried e :
  Exn.is_MethodAPIError e = true -> Client.retry_if_exception_type e = false.
Proof. destruct e; simpl; congruence. Qed.

(** The first attempt of the retry loop is also its last: the body
    returns, or raises an error the loop does not retry on. *)
Lemma retrying_request_body n method endpoint params json_data w :
  Client.retrying n (Client.request_body net self method endpoint params json_data) w =
  Client.request_body net self method endpoint params json_data w.
Proof.
  destruct n; simpl.
  all: destruct (Client.request_body net self method endpoint params json_data w)
    as [[a|e] w'] eqn:E; [reflexivity|].
  all: rewrite (api_error_not_retried e); [reflexivity|].
  all: eapply request_body_raises_api_error; exact E.
Qed.

(** X1. The retry decorator never fires: what it retries on, a timeout
    or a connection error, never leaves the body unwrapped. [request] is
    one attempt. *)
Lemma request_is_one_attempt method endpoint params json_data w :
  Client.request net self method endpoint params json_data w =
  Client.request_body net self method endpoint params json_data w.
Proof.
  unfold Client.request. apply retrying_request_body.
Qed.

(** The [try] block sends at most one HTTP request. *)
Lemma request_try_sends_at_most_once method url params json_data w r w' :
  Client.request_try net self method url params json_data w = (r, w') ->
  Client.sent w' = Client.sent w \/
  exists rq, Client.sent w' = (Client.sent w ++ [rq])%list.
Proof.
  unfold Client.request_try, Client.bind, Client.lift, Client.send,
    Client.raise, Client.ret.
  destruct (Auth.AuthManager_get_headers _) as [hdrs|e0];
    [|intros [= <- <-]; left; reflexivity].
  destruct (net _ _) as [response|e1];
    [|intros [= <- <-]; right; eexists; reflexivity].
  destruct (status_code response =? 429).
  - destruct (Client.parse_retry_after _);
      intros [= <- <-]; right; eexists; reflexivity.
  - destruct (Client.raise_for_status response);
      [|intros [= <- <-]; right; eexists; reflexivity].
    destruct (status_code response =? 204);
      intros [= <- <-]; right; eexists; reflexivity.
Qed.

(** [request] sends at most one HTTP request. *)
Lemma request_sends_at_most_once method endpoint params json_data w :
  let w' := snd (Client.request net self method endpoint params json_data w) in
  Client.sent w' = Client.sent w \/
  exists rq, Client.sent w' = (Client.sent w ++ [rq])%list.
Proof.
  unfold Client.request. rewrite retrying_request_body.
  unfold Client.request_body, Client.try_except.
  destruct (Client.request_try _ _ _ _ _ _ w) as [[a|e] w1] eqn:E;
    apply request_try_sends_at_most_once in E; simpl.
  - exact E.
  - unfold Client.request_except, Client.raise.
    destruct (Exn.is_MethodAPIError e); exact E.
Qed.

End RequestFacts.

(** C1. A call whose transport fails with a connection error on the
    first two attempts and would succeed on the third: [request] makes
    one attempt only, and raises a [MethodAPIError] that wraps the
    translated connection error. There is no retry and no successful
    result. *)
Theorem request_connection_error_not_retried `{PyRuntime} :
  Client.request Scenario.flaky_net Scenario.client "GET" "me" None None
    Scenario.empty_world
  = (Raise (MethodAPIError
              (Exn.api_error
                 (Errors.handle_api_error
                    (ConnectError "All connection attempts failed")))),
     {| Client.sent := [Scenario.get_request "me" None];
        Client.tables_client := None;
        Client.files_client := None |}).
Proof. reflexivity. Qed.

(** The third attempt would have succeeded: after two requests the
    network of this scenario answers 200. *)
Lemma flaky_net_third_attempt_succeeds `{PyRuntime} (r1 r2 r3 : HttpRequest) :
  exists response,
    Scenario.flaky_net [r1; r2] r3 = Ok response /\ status_code response = 200.
Proof. eexists. split; reflexivity. Qed.

(** *** Status handling *)

Section StatusHandling.
Context `{PyRuntime}.
Variable net : Client.Network.
Variable self : Client.MethodAPIClient.

(** X2. The status handling of [request]'s [try] block, for a client
    whose headers can be produced and a request the network answers with
    [response]: a 429 raises [RateLimitError] with the parsed
    [Retry-After] (or without it when the header is missing or empty);
    any other status outside 200..299 raises the HTTP status error; 204
    returns the marker; every other success returns what
    [response.json()] gives. *)
Lemma request_try_status_handling method url params json_data w hdrs response :
  Auth.AuthManager_get_headers (Client.auth_manager self) = Ok hdrs ->
  net (Client.sent w)
      {| req_method := method; req_url := url; req_headers := hdrs;
         req_params := params; req_json := json_data; req_files := None;
         req_data := None; req_follow_redirects := true |} = Ok response ->
  let out := fst (Client.request_try net self method url params json_data w) in
  (status_code response = 429 ->
     (forall v n, headers_get response "Retry-After" = Some v -> v <> "" ->
                  py_int v = Ok n ->
                  out = Raise (Exn.rate_limit_error "Rate limit exceeded" (Some n)))
     /\ (headers_get response "Retry-After" = None \/
         headers_get response "Retry-After" = Some "" ->
         out = Raise (Exn.rate_limit_error "Rate limit exceeded" None)))
  /\ (status_code response <> 429 ->
      ~ (200 <= status_code response <= 299) ->
      out = Raise (HTTPStatusError (status_text response) response))
  /\ (status_code response = 204 -> out = Ok Client.no_content_marker)
  /\ (200 <= status_code response <= 299 -> status_code response <> 204 ->
      out = Response_json response).
Proof.
  intros Hh Hn out. subst out.
  unfold Client.request_try, Client.bind, Client.lift, Client.send.
  rewrite Hh. simpl. rewrite Hn. simpl.
  split; [|split; [|split]].
  - intros ->. simpl. split.
    + intros v n Hv Hne Hint. rewrite Hv. unfold Client.parse_retry_after.
      destruct v; [contradiction|]. simpl. rewrite Hint. reflexivity.
    + intros [Hv|Hv]; rewrite Hv; reflexivity.
  - intros H429 Herr. apply Z.eqb_neq in H429. rewrite H429.
    unfold Client.raise_for_status.
    destruct ((200 <=? status_code response) && (status_code response <=? 299)) eqn:E.
    + apply andb_prop in E as [E1 E2]. apply Z.leb_le in E1, E2. lia.
    + reflexivity.
  - intros E. unfold Client.raise_for_status. rewrite E. reflexivity.
  - intros [H1 H2] H204.
    assert ((status_code response =? 429) = false) as -> by (apply Z.eqb_neq; lia).
    unfold Client.raise_for_status.
    assert (((200 <=? status_code response) && (status_code response <=? 299)) = true)
      as -> by (apply andb_true_intro; split; apply Z.leb_le; lia).
    simpl. apply Z.eqb_neq in H204. rewrite H204.
    destruct (Response_json response); reflexivity.
Qed.

End StatusHandling.

Lemma request_try_status_handling_run :
  fst (Client.request_try
         (Scenario.constant_net (Scenario.rate_limited "30")) Scenario.client
         "GET" "https://rest.method.me/api/v1/tables/Customer" None None
         Scenario.empty_world)
  = Raise (Exn.rate_limit_error "Rate limit exceeded" (Some 30)).
Proof.
  apply (proj1 (proj1 (request_try_status_handling
                         (Scenario.constant_net (Scenario.rate_limited "30"))
                         Scenario.client
                         "GET" "https://rest.method.me/api/v1/tables/Customer"
                         None None Scenario.empty_world
                         [("Authorization", "APIKey test-key");
                          ("Content-Type", "application/json")]
                         (Scenario.rate_limited "30") eq_refl eq_refl)
                      eq_refl) "30" 30).
  - reflexivity.
  - discriminate.
  - reflexivity.
Defined.

(** C5. A 429 response whose [Retry-After] header is an HTTP date:
    [int(retry_after)] raises [ValueError] before the [RateLimitError]
    is built, and [request] raises a generic [MethodAPIError] carrying
    the translation of that [ValueError]. *)
Theorem request_rate_limit_with_http_date :
  Client.request (H := Ref.runtime)
    (Scenario.constant_net (Scenario.rate_limited Scenario.http_date))
    Scenario.client "GET" "tables/Customer" None None Scenario.empty_world
  = (Raise (MethodAPIError
              (Exn.api_error
                 (Errors.handle_api_error
                    (Exn.value_error
                       ("invalid literal for int() with base 10: " +:+
                        "'Wed, 21 Oct 2015 07:28:00 GMT'"))))),
     {| Client.sent := [Scenario.get_request "tables/Customer" None];
        Client.tables_client := None;
        Client.files_client := None |}).
Proof. reflexivity. Qed.

(** With a numeric header the same call raises [RateLimitError]
    carrying the parsed delay. *)
Lemma request_rate_limit_with_seconds :
  fst (Client.request (H := Ref.runtime)
         (Scenario.constant_net (Scenario.rate_limited "30"))
         Scenario.client "GET" "tables/Customer" None None Scenario.empty_world)
  = Raise (Exn.rate_limit_error "Rate limit exceeded" (Some 30)).
Proof. reflexivity. Qed.

(** ** The tool handlers (tools/tables.py, tools/files.py) *)

(** C7. The table query of the specification's own scenario: two
    records are asked for, two are returned, and the response has no
    next link. [has_more] is overwritten with [False] and [next_offset]
    keeps the value 2 that the full-page rule gave it: the pagination
    metadata in the tool's result has [next_offset] set while
    [has_more] is false. *)
Theorem tables_query_breaks_pagination_invariant `{PyRuntime}
    (format_markdown_table : json -> string -> result string) :
  let pagination :=
    [("total", JNull); ("count", JInt 2); ("offset", JInt 0);
     ("limit", JInt 2); ("has_more", JBool false); ("next_offset", JInt 2);
     ("next_link", JNull)] in
  Tools.method_tables_query Scenario.api_key_env
    (Scenario.constant_net Scenario.two_records_page) format_markdown_table
    Scenario.active_customers Scenario.empty_world
  = (Ok (Utils.format_json_response
           (JDict (pagination ++ [("records", Scenario.two_records)]))
           true None),
     {| Client.sent :=
          [Scenario.get_request "tables/Customer"
             (Some [("$filter", JStr "Status eq 'Active'"); ("$top", JInt 2)])];
        Client.tables_client := Some Scenario.client;
        Client.files_client := None |})
  /\ Tools.query_pagination Scenario.active_customers (JInt 2) JNull = Ok pagination
  /\ Pagination.next_offset_set pagination = true
  /\ Pagination.has_more pagination = false.
Proof. vm_compute. repeat split; reflexivity. Qed.

(** X3. What [format_pagination_info] returns does satisfy the
    invariant; it is the later assignment to [has_more] that breaks it. *)
Lemma format_pagination_info_invariant (total count : json) (offset limit : Z) p :
  Utils.format_pagination_info total count offset limit = Ok p ->
  Pagination.invariant p.
Proof.
  unfold Utils.format_pagination_info, Pagination.invariant.
  destruct (match total with JNull => _ | _ => _ end) as [hm|]; simpl; [|discriminate].
  destruct hm; simpl.
  - destruct (Utils.add_int offset count); simpl; [|discriminate].
    intros [= <-]. reflexivity.
  - intros [= <-]. reflexivity.
Qed.

Lemma format_pagination_info_invariant_run :
  Pagination.invariant
    [("total", JNull); ("count", JInt 2); ("offset", JInt 0);
     ("limit", JInt 2); ("has_more", JBool true); ("next_offset", JInt 2)].
Proof.
  apply (format_pagination_info_invariant JNull (JInt 2) 0 2). reflexivity.
Defined.

(** *** The tool boundary *)

Section Boundary.
Context `{PyRuntime}.

(** The boundary turns every outcome of a body into a returned string:
    the body's own string, or the translation of the exception. *)
Lemma tool_boundary_returns (body : Client.M string) (w : Client.World) :
  exists s w',
    Tools.tool_boundary body w = (Ok s, w')
    /\ ((body w = (Ok s, w'))
        \/ (exists e, body w = (Raise e, w') /\ s = Errors.handle_api_error e)).
Proof.
  unfold Tools.tool_boundary, Client.try_except, Client.ret.
  destruct (body w) as [[s|e] w'].
  - exists s, w'. split; [reflexivity | left; reflexivity].
  - exists (Errors.handle_api_error e), w'.
    split; [reflexivity | right; exists e; split; reflexivity].
Qed.

(** C3, as the code has it. A tool handler is its body inside
    [try ... except Exception as e: return handle_api_error(e)]. Whatever
    the body, the input, the environment and the network, the invocation
    never raises: it returns a string, which is the string the body
    returned or, whenever the body raises an exception, the error
    translator's message for that exception. The table-query and
    file-upload tools are such handlers. *)
Theorem tools_return_strings (env : Auth.Env) (net : Client.Network)
    (format_markdown_table : json -> string -> result string) :
  (forall (body : Client.M string) (w : Client.World), exists s w',
      Tools.tool_boundary body w = (Ok s, w')
      /\ ((body w = (Ok s, w'))
          \/ (exists e, body w = (Raise e, w') /\ s = Errors.handle_api_error e)))
  /\ (forall params w, exists s w',
      Tools.method_tables_query env net format_markdown_table params w = (Ok s, w')
      /\ ((Tools.method_tables_query_body env net format_markdown_table params w
           = (Ok s, w'))
          \/ (exists e,
                Tools.method_tables_query_body env net format_markdown_table params w
                = (Raise e, w')
                /\ s = Errors.handle_api_error e)))
  /\ (forall params w, exists s w',
      Tools.method_files_upload env net params w = (Ok s, w')
      /\ ((Tools.method_files_upload_body env net params w = (Ok s, w'))
          \/ (exists e,
                Tools.method_files_upload_body env net params w = (Raise e, w')
                /\ s = Errors.handle_api_error e))).
Proof.
  split; [|split]; intros; apply tool_boundary_returns.
Qed.

End Boundary.

(** The three failures the upload tool reports itself are JSON
    envelopes, and no message of the translator equals one of them. *)
Lemma translator_never_gives_envelope `{PyRuntime} (e : exn) (d : list (string * json)) :
  Errors.handle_api_error e <> Utils.format_json_response (JDict d) false None.
Proof.
  destruct (handle_api_error_starts_with_Error e) as [rest ->].
  unfold Utils.format_json_response, Utils.json_response, Json.dumps.
  destruct (Py.dict_get d "error"); discriminate.
Qed.

(** C3, as the claim has it, fails: an upload whose content is not
    base64 is a failure, and the string returned for it is the JSON
    envelope built by [format_json_response], which no exception
    translates to. *)
Lemma upload_failure_not_from_translator :
  fst (Tools.method_files_upload (H := Ref.runtime) Scenario.api_key_env
         (Scenario.constant_net Scenario.two_records_page)
         (Scenario.upload_of "a") Scenario.empty_world)
  = Ok (Tools.decode_error
          (Ref.binascii_error
             ("Invalid base64-encoded string: number of data characters (1) " +:+
              "cannot be 1 more than a multiple of 4")))
  /\ forall e : exn,
       Errors.handle_api_error (H := Ref.runtime) e <>
       Tools.decode_error
         (Ref.binascii_error
            ("Invalid base64-encoded string: number of data characters (1) " +:+
             "cannot be 1 more than a multiple of 4")).
Proof.
  split; [reflexivity|].
  intros e. apply translator_never_gives_envelope.
Qed.

(** *** Upload: the checks made before any request *)

Section Upload.
Context `{PyRuntime}.
Variable env : Auth.Env.
Variable net : Client.Network.

Lemma files_get_client_sends_nothing w r w' :
  Tools.files_get_client env w = (r, w') -> Client.sent w' = Client.sent w.
Proof.
  unfold Tools.files_get_client.
  destruct (Client.files_client w); [intros [= <- <-]; reflexivity|].
  destruct (Client.MethodAPIClient_init _ _ _ _ _); intros [= <- <-]; reflexivity.
Qed.

(** The failure envelope of a message: fixed text around the escaped
    message. *)
Lemma error_envelope_text (msg : string) :
  Utils.format_json_response (JDict [("error", JStr msg)]) false None =
  ("{" +:+ Json.newline_indent 1 +:+ Json.encode_str "success" +:+ ": false," +:+
   Json.newline_indent 1 +:+ Json.encode_str "error" +:+ ": " +:+ PyStr.DQ) +:+
  ((Json.escape msg +:+ PyStr.DQ) +:+ (Json.newline_indent 0 +:+ "}")).
Proof.
  unfold Utils.format_json_response, Utils.json_response, Json.dumps.
  cbn [Py.dict_get Py.dict_set String.eqb Ascii.eqb Bool.eqb].
  reflexivity.
Qed.

Lemma str_app_inv_head (a b c : string) : a +:+ b = a +:+ c -> b = c.
Proof.
  induction a as [|x a IH]; [trivial|].
  intros Heq. apply IH. injection Heq as Heq. exact Heq.
Qed.

Lemma str_head_eq (x y : ascii) (t u : string) : String x t = String y u -> x = y.
Proof. intros [= -> _]. reflexivity. Qed.

(** The two messages are different texts. *)
Lemma size_limit_error_is_not_decode_error (n : Z) (e : exn) :
  Tools.size_limit_error n <> Tools.decode_error e.
Proof.
  unfold Tools.size_limit_error, Tools.decode_error.
  rewrite !error_envelope_text. intros Heq.
  apply str_app_inv_head in Heq.
  apply (str_head_eq "F" "I") in Heq. discriminate Heq.
Qed.

(** C10, as the code has it. Once the API client is available, an
    upload whose content decodes to more than 50 MB returns the
    size-limit message, an upload whose content cannot be decoded
    returns the (different) decoding message, and in both cases no HTTP
    request has been sent when the tool returns. *)
Theorem method_files_upload_rejects_before_sending
    (params : Models.FileUploadInput) (w w1 : Client.World)
    (client : Client.MethodAPIClient) :
  Tools.files_get_client env w = (Ok client, w1) ->
  (forall file_bytes,
      b64decode (Models.content params) = Ok file_bytes ->
      bytes_len file_bytes > Tools.max_size ->
      Tools.method_files_upload env net params w
      = (Ok (Tools.size_limit_error (bytes_len file_bytes)), w1))
  /\ (forall e,
      b64decode (Models.content params) = Raise e ->
      Tools.method_files_upload env net params w
      = (Ok (Tools.decode_error e), w1))
  /\ Client.sent w1 = Client.sent w
  /\ (forall n e, Tools.size_limit_error n <> Tools.decode_error e).
Proof.
  intros Hc.
  split; [|split; [|split]].
  - intros file_bytes Hd Hsize.
    unfold Tools.method_files_upload, Tools.tool_boundary, Client.try_except,
      Tools.method_files_upload_body, Client.bind.
    rewrite Hc, Hd.
    assert ((Tools.max_size <? bytes_len file_bytes) = true) as ->
      by (apply Z.ltb_lt; lia).
    reflexivity.
  - intros e Hd.
    unfold Tools.method_files_upload, Tools.tool_boundary, Client.try_except,
      Tools.method_files_upload_body, Client.bind.
    rewrite Hc, Hd. reflexivity.
  - eapply files_get_client_sends_nothing. exact Hc.
  - apply size_limit_error_is_not_decode_error.
Qed.

(** Whether or not the client is available, an upload that is too large
    or cannot be decoded sends no HTTP request. *)
Lemma method_files_upload_rejected_sends_nothing
    (params : Models.FileUploadInput) (w : Client.World) :
  (exists file_bytes, b64decode (Models.content params) = Ok file_bytes
                      /\ bytes_len file_bytes > Tools.max_size)
  \/ (exists e, b64decode (Models.content params) = Raise e) ->
  Client.sent (snd (Tools.method_files_upload env net params w)) = Client.sent w.
Proof.
  intros Hrej.
  unfold Tools.method_files_upload, Tools.tool_boundary, Client.try_except,
    Tools.method_files_upload_body, Client.bind.
  destruct (Tools.files_get_client env w) as [[client|e0] w1] eqn:Hc;
    pose proof (files_get_client_sends_nothing _ _ _ Hc) as Hs.
  - destruct Hrej as [(fb & Hd & Hsize)|(e & Hd)]; rewrite Hd.
    + assert ((Tools.max_size <? bytes_len fb) = true) as ->
        by (apply Z.ltb_lt; lia).
      exact Hs.
    + exact Hs.
  - exact Hs.
Qed.

End Upload.

Lemma method_files_upload_rejects_before_sending_run :
  Tools.method_files_upload (H := Ref.sized_runtime (60 * 1024 * 1024))
    Scenario.api_key_env (Scenario.constant_net Scenario.two_records_page)
    (Scenario.upload_of "AAAA") Scenario.empty_world
  = (Ok (Tools.size_limit_error (60 * 1024 * 1024)),
     {| Client.sent := [];
        Client.tables_client := None;
        Client.files_client := Some Scenario.client |})
  /\ Tools.method_files_upload (H := Ref.runtime)
       Scenario.api_key_env (Scenario.constant_net Scenario.two_records_page)
       (Scenario.upload_of "a") Scenario.empty_world
     = (Ok (Tools.decode_error
              (Ref.binascii_error
                 ("Invalid base64-encoded string: number of data characters (1) " +:+
                  "cannot be 1 more than a multiple of 4"))),
        {| Client.sent := [];
           Client.tables_client := None;
           Client.files_client := Some Scenario.client |}).
Proof.
  split.
  - apply (proj1 (method_files_upload_rejects_before_sending
                    (H := Ref.sized_runtime (60 * 1024 * 1024))
                    Scenario.api_key_env
                    (Scenario.constant_net Scenario.two_records_page)
                    (Scenario.upload_of "AAAA") Scenario.empty_world
                    {| Client.sent := [];
                       Client.tables_client := None;
                       Client.files_client := Some Scenario.client |}
                    Scenario.client eq_refl)
             (60 * 1024 * 1024)).
    + reflexivity.
    + reflexivity.
  - apply (proj1 (proj2 (method_files_upload_rejects_before_sending
                    (H := Ref.runtime)
                    Scenario.api_key_env
                    (Scenario.constant_net Scenario.two_records_page)
                    (Scenario.upload_of "a") Scenario.empty_world
                    {| Client.sent := [];
                       Client.tables_client := None;
                       Client.files_client := Some Scenario.client |}
                    Scenario.client eq_refl))).
    reflexivity.
Defined.

(** C10, as the claim has it, fails: when no credentials are configured
    the client cannot be built, and an upload of 60 MB returns the
    translated authentication error, not a size-limit message. *)
Lemma oversized_upload_without_credentials :
  fst (Tools.method_files_upload (H := Ref.sized_runtime (60 * 1024 * 1024))
         Scenario.no_credentials_env
         (Scenario.constant_net Scenario.two_records_page)
         (Scenario.upload_of "AAAA") Scenario.empty_world)
  = Ok (Errors.handle_api_error Auth.no_credentials)
  /\ b64decode (PyRuntime := Ref.sized_runtime (60 * 1024 * 1024)) "AAAA"
     = Ok (60 * 1024 * 1024)
  /\ 60 * 1024 * 1024 > Tools.max_size
  /\ forall n : Z,
       Errors.handle_api_error (H := Ref.sized_runtime (60 * 1024 * 1024))
         Auth.no_credentials
       <> Tools.size_limit_error n.
Proof.
  split; [reflexivity|].
  split; [reflexivity|].
  split; [reflexivity|].
  intros n. apply translator_never_gives_envelope.
Qed.

(** The upload tool's third own failure: an HTTP 413 answer is reported
    as a JSON envelope as well. *)
Lemma upload_quota_error_run :
  fst (Tools.method_files_upload (H := Ref.runtime) Scenario.api_key_env
         (Scenario.constant_net (Scenario.response_of 413 ∅ (inr "Expecting value")))
         (Scenario.upload_of "aGk=") Scenario.empty_world)
  = Ok Tools.quota_error.
Proof. reflexivity. Qed.

(** ** The JSON envelope (utils.py) and its round trip *)

(** *** Strings *)

Lemma str_app_cons (x : ascii) (a b : string) :
  String x a +:+ b = String x (a +:+ b).
Proof. reflexivity. Qed.

Lemma str_app_assoc (a b c : string) : (a +:+ b) +:+ c = a +:+ (b +:+ c).
Proof.
  induction a as [|x a IH]; [reflexivity|].
  rewrite !str_app_cons, IH. reflexivity.
Qed.

Lemma str_app_nil_r (a : string) : a +:+ "" = a.
Proof.
  induction a as [|x a IH]; [reflexivity|].
  rewrite str_app_cons, IH. reflexivity.
Qed.

Lemma str_length_app (a b : string) :
  String.length (a +:+ b) = (String.length a + String.length b)%nat.
Proof.
  induction a as [|x a IH]; [reflexivity|].
  rewrite str_app_cons. simpl. rewrite IH. reflexivity.
Qed.

(** *** Blanks *)

Lemma skip_ws_spaces (n : nat) (s : string) :
  Json.skip_ws (Json.spaces n +:+ s) = Json.skip_ws s.
Proof. induction n as [|n IH]; [reflexivity | exact IH]. Qed.

Lemma skip_ws_newline_indent (lvl : nat) (s : string) :
  Json.skip_ws (Json.newline_indent lvl +:+ s) = Json.skip_ws s.
Proof. exact (skip_ws_spaces lvl s). Qed.

Lemma skip_ws_head (c : ascii) (s : string) :
  Json.is_ws c = false -> Json.skip_ws (String c s) = String c s.
Proof. intros Hc. simpl. rewrite Hc. reflexivity. Qed.

(** *** String literals *)

Lemma scan_string_escape_char (c : ascii) (t : string) :
  Json.scan_string (Json.escape_char c +:+ t) =
  match Json.scan_string t with
  | Some (x, r) => Some (String c x, r)
  | None => None
  end.
Proof.
  destruct c as [[] [] [] [] [] [] [] []]; reflexivity.
Qed.

Lemma scan_string_escape (s rest : string) :
  Json.scan_string (Json.escape s +:+ String PyStr.dq rest) = Some (s, rest).
Proof.
  induction s as [|c s IH].
  - reflexivity.
  - change (Json.escape (String c s)) with (Json.escape_char c +:+ Json.escape s).
    rewrite str_app_assoc, scan_string_escape_char, IH.
    reflexivity.
Qed.

Lemma encode_str_app (s rest : string) :
  Json.encode_str s +:+ rest =
  String PyStr.dq (Json.escape s +:+ String PyStr.dq rest).
Proof.
  unfold Json.encode_str, PyStr.DQ.
  rewrite !str_app_assoc. reflexivity.
Qed.

(** *** Numbers *)

Lemma number_ends_head (rest : string) :
  Json.number_ends rest = true -> Json.head_not_digit rest.
Proof.
  destruct rest as [|c r]; simpl; [trivial|].
  destruct (Json.is_digit c); [discriminate | reflexivity].
Qed.

Lemma span_digits_stop (rest : string) :
  Json.head_not_digit rest -> Json.span_digits rest = (EmptyString, rest).
Proof. destruct rest as [|c r]; simpl; [reflexivity | intros ->; reflexivity]. Qed.

Lemma span_digits_uint (d : Decimal.uint) (rest : string) :
  Json.head_not_digit rest ->
  Json.span_digits (NilEmpty.string_of_uint d +:+ rest)
  = (NilEmpty.string_of_uint d, rest).
Proof.
  intros Hr.
  induction d as [|d IH|d IH|d IH|d IH|d IH|d IH|d IH|d IH|d IH|d IH];
    cbn [NilEmpty.string_of_uint];
    [exact (span_digits_stop rest Hr)|..];
    rewrite str_app_cons; simpl; rewrite IH; reflexivity.
Qed.

Lemma of_uint_to_uint (p : positive) : Z.of_uint (Pos.to_uint p) = Z.pos p.
Proof. unfold Z.of_uint. rewrite DecimalPos.Unsigned.of_to. reflexivity. Qed.

Lemma to_uint_normal (p : positive) : Decimal.unorm (Pos.to_uint p) = Pos.to_uint p.
Proof.
  rewrite <- DecimalPos.Unsigned.to_of, DecimalPos.Unsigned.of_to. reflexivity.
Qed.

Lemma to_uint_head (p : positive) :
  exists c t,
    NilEmpty.string_of_uint (Pos.to_uint p) = String c t
    /\ Json.is_digit c = true /\ Ascii.eqb c "0" = false.
Proof.
  pose proof (to_uint_normal p) as Hn.
  pose proof (DecimalPos.Unsigned.to_uint_nonnil p) as Hnil.
  pose proof (DecimalPos.Unsigned.to_uint_nonzero p) as Hz.
  destruct (Pos.to_uint p) as [|u|u|u|u|u|u|u|u|u|u];
    [contradiction| |eexists _, _; repeat split; reflexivity..].
  exfalso. rewrite DecimalFacts.unorm_D0 in Hn.
  destruct (Decimal.nzhead u) as [|v|v|v|v|v|v|v|v|v|v] eqn:Eh.
  - apply DecimalFacts.unorm_0 in Eh. rewrite Eh in Hn.
    injection Hn as <-. apply Hz. reflexivity.
  - exact (DecimalFacts.nzhead_nonzero u v Eh).
  - rewrite DecimalFacts.unorm_nzhead in Hn by (rewrite Eh; discriminate).
    rewrite Eh in Hn. discriminate.
  - rewrite DecimalFacts.unorm_nzhead in Hn by (rewrite Eh; discriminate).
    rewrite Eh in Hn. discriminate.
  - rewrite DecimalFacts.unorm_nzhead in Hn by (rewrite Eh; discriminate).
    rewrite Eh in Hn. discriminate.
  - rewrite DecimalFacts.unorm_nzhead in Hn by (rewrite Eh; discriminate).
    rewrite Eh in Hn. discriminate.
  - rewrite DecimalFacts.unorm_nzhead in Hn by (rewrite Eh; discriminate).
    rewrite Eh in Hn. discriminate.
  - rewrite DecimalFacts.unorm_nzhead in Hn by (rewrite Eh; discriminate).
    rewrite Eh in Hn. discriminate.
  - rewrite DecimalFacts.unorm_nzhead in Hn by (rewrite Eh; discriminate).
    rewrite Eh in Hn. discriminate.
  - rewrite DecimalFacts.unorm_nzhead in Hn by (rewrite Eh; discriminate).
    rewrite Eh in Hn. discriminate.
  - rewrite DecimalFacts.unorm_nzhead in Hn by (rewrite Eh; discriminate).
    rewrite Eh in Hn. discriminate.
Qed.

Lemma scan_digits_to_uint (negative : bool) (p : positive) (rest : string) :
  Json.number_ends rest = true ->
  Json.scan_digits negative (NilEmpty.string_of_uint (Pos.to_uint p) +:+ rest)
  = Some (if negative then Z.neg p else Z.pos p, rest).
Proof.
  intros Hr. unfold Json.scan_digits.
  rewrite span_digits_uint by (apply number_ends_head; exact Hr).
  destruct (to_uint_head p) as (c & t & E & _ & H0).
  rewrite E, H0. rewrite <- E. rewrite Hr.
  rewrite NilEmpty.usu, of_uint_to_uint.
  destruct negative; reflexivity.
Qed.

Lemma string_of_uint_to_uint (p : positive) :
  NilZero.string_of_uint (Pos.to_uint p) = NilEmpty.string_of_uint (Pos.to_uint p).
Proof.
  pose proof (DecimalPos.Unsigned.to_uint_nonnil p) as Hnil.
  destruct (Pos.to_uint p); [contradiction|reflexivity..].
Qed.

Lemma scan_number_of_Z (n : Z) (rest : string) :
  Json.number_ends rest = true ->
  Json.scan_number (PyStr.of_Z n +:+ rest) = Some (n, rest).
Proof.
  intros Hr. unfold PyStr.of_Z. destruct n as [|p|p]; cbn [Z.to_int NilZero.string_of_int].
  - change (NilZero.string_of_uint Decimal.zero +:+ rest) with (String "0" rest).
    unfold Json.scan_number, Json.scan_digits.
    change (Ascii.eqb "0" "-") with false. cbv iota.
    cbn [Json.span_digits]. change (Json.is_digit "0") with true. cbv iota.
    rewrite (span_digits_stop rest) by (apply number_ends_head; exact Hr).
    change (Ascii.eqb "0" "0") with true. cbv iota.
    change ("" +:+ rest) with rest. rewrite Hr. reflexivity.
  - rewrite string_of_uint_to_uint.
    destruct (to_uint_head p) as (c & t & E & Hd & H0).
    pose proof (scan_digits_to_uint false p rest Hr) as Hs.
    rewrite E in *. rewrite str_app_cons in *.
    unfold Json.scan_number.
    assert (Ascii.eqb c "-" = false) as ->.
    { destruct c as [[] [] [] [] [] [] [] []]; try discriminate; reflexivity. }
    exact Hs.
  - rewrite string_of_uint_to_uint, str_app_cons.
    unfold Json.scan_number. change (Ascii.eqb "-" "-") with true. cbv iota.
    exact (scan_digits_to_uint true p rest Hr).
Qed.

(** The text of an integer starts with a digit or a minus sign. *)
Lemma of_Z_head (n : Z) :
  exists c t, PyStr.of_Z n = String c t
              /\ (Json.is_digit c = true \/ c = "-"%char).
Proof.
  unfold PyStr.of_Z. destruct n as [|p|p]; cbn [Z.to_int NilZero.string_of_int].
  - eexists _, _. split; [reflexivity | left; reflexivity].
  - rewrite string_of_uint_to_uint.
    destruct (to_uint_head p) as (c & t & E & Hd & _).
    exists c, t. split; [exact E | left; exact Hd].
  - eexists _, _. split; [reflexivity | right; reflexivity].
Qed.

(** *** Values *)

Lemma json_ind' (P : json -> Prop) :
  P JNull -> (forall b, P (JBool b)) -> (forall n, P (JInt n)) ->
  (forall s, P (JStr s)) ->
  (forall l, Forall P l -> P (JList l)) ->
  (forall d, Forall (fun kv => P (snd kv)) d -> P (JDict d)) ->
  forall v, P v.
Proof.
  intros HN HB HI HS HL HD. fix IH 1. intros [ | b | n | s | l | d].
  - exact HN.
  - apply HB.
  - apply HI.
  - apply HS.
  - apply HL. revert l. fix IHl 1. intros [|x l].
    + constructor.
    + constructor; [apply IH | apply IHl].
  - apply HD. revert d. fix IHd 1. intros [|[k x] d].
    + constructor.
    + constructor; [apply IH | apply IHd].
Qed.

Lemma dumps_at_list (lvl : nat) (x : json) (xs : list json) :
  Json.dumps_at lvl (JList (x :: xs)) =
  "[" +:+ Json.newline_indent (S lvl) +:+ Json.dumps_at (S lvl) x +:+
  Json.dumps_items lvl xs.
Proof.
  cbn [Json.dumps_at].
  match goal with
  | |- context [?f xs] =>
      assert (E : forall l, f l = Json.dumps_items lvl l)
  end.
  { induction l as [|y ys IH]; [reflexivity|].
    cbn [Json.dumps_items]. rewrite <- IH. reflexivity. }
  rewrite E. reflexivity.
Qed.

Lemma dumps_at_dict (lvl : nat) (k : string) (x : json) (kvs : list (string * json)) :
  Json.dumps_at lvl (JDict ((k, x) :: kvs)) =
  "{" +:+ Json.newline_indent (S lvl) +:+ Json.encode_str k +:+ ": " +:+
  Json.dumps_at (S lvl) x +:+ Json.dumps_members lvl kvs.
Proof.
  cbn [Json.dumps_at].
  match goal with
  | |- context [?f kvs] =>
      assert (E : forall l, f l = Json.dumps_members lvl l)
  end.
  { induction l as [|[k' y] ys IH]; [reflexivity|].
    cbn [Json.dumps_members]. rewrite <- IH. reflexivity. }
  rewrite E. reflexivity.
Qed.

Lemma size_list (l : list json) : Json.size (JList l) = S (Json.items_size l).
Proof. reflexivity. Qed.

Lemma size_dict (d : list (string * json)) :
  Json.size (JDict d) = S (Json.members_size d).
Proof.
  cbn [Json.size]. f_equal.
  induction d as [|[k x] d IH]; [reflexivity|].
  change (Json.members_size ((k, x) :: d))
    with (S (Json.size x + Json.members_size d)).
  rewrite <- IH. reflexivity.
Qed.

Lemma wf_list (l : list json) : Json.wf (JList l) <-> Forall Json.wf l.
Proof.
  cbn [Json.wf]. induction l as [|x l IH].
  - split; [constructor | trivial].
  - split.
    + intros [Hx Hl]. constructor; [exact Hx | apply IH; exact Hl].
    + intros Hf. inversion Hf; subst. split; [assumption | apply IH; assumption].
Qed.

Lemma wf_dict (d : list (string * json)) :
  Json.wf (JDict d) <->
  NoDup (map fst d) /\ Forall (fun kv => Json.wf (snd kv)) d.
Proof.
  cbn [Json.wf]. apply and_iff_compat_l.
  induction d as [|[k x] d IH].
  - split; [constructor | trivial].
  - split.
    + intros [Hx Hl]. constructor; [exact Hx | apply IH; exact Hl].
    + intros Hf. inversion Hf; subst. split; [assumption | apply IH; assumption].
Qed.

(** The text of a value starts with a character that is neither a blank
    nor a closing bracket. *)
Lemma dumps_head (lvl : nat) (v : json) :
  exists c t, Json.dumps_at lvl v = String c t
              /\ Json.is_ws c = false /\ Ascii.eqb c "]" = false.
Proof.
  destruct v as [ | [|] | n | s | [|x xs] | [|[k x] kvs]];
    try (eexists _, _; repeat split; reflexivity).
  - destruct (of_Z_head n) as (c & t & E & Hc).
    exists c, t. cbn [Json.dumps_at]. split; [exact E|].
    destruct Hc as [Hd| ->]; [|split; reflexivity].
    destruct c as [[] [] [] [] [] [] [] []]; try discriminate; split; reflexivity.
Qed.

Lemma skip_ws_dumps (lvl : nat) (v : json) (rest : string) :
  Json.skip_ws (Json.dumps_at lvl v +:+ rest) = Json.dumps_at lvl v +:+ rest.
Proof.
  destruct (dumps_head lvl v) as (c & t & -> & Hc & _).
  rewrite str_app_cons. apply skip_ws_head. exact Hc.
Qed.

Lemma number_ends_items (lvl : nat) (l : list json) (rest : string) :
  Json.number_ends (Json.dumps_items lvl l +:+ rest) = true.
Proof. destruct l; reflexivity. Qed.

Lemma number_ends_members (lvl : nat) (l : list (string * json)) (rest : string) :
  Json.number_ends (Json.dumps_members lvl l +:+ rest) = true.
Proof. destruct l as [|[k x] l]; reflexivity. Qed.

(** *** The scanner on the text of a value *)

Lemma parse_value_number (fuel : nat) (c : ascii) (t : string) :
  Json.is_digit c = true \/ c = "-"%char ->
  Json.parse_value (S fuel) (String c t) =
  match Json.scan_number (String c t) with
  | Some (n, r) => Some (JInt n, r)
  | None => None
  end.
Proof.
  intros [Hd| ->]; [|reflexivity].
  destruct c as [[] [] [] [] [] [] [] []]; try discriminate; reflexivity.
Qed.

Lemma parse_value_list (fuel : nat) (s : string) (c : ascii) (t : string) :
  Json.skip_ws s = String c t -> Ascii.eqb c "]" = false ->
  Json.parse_value (S fuel) (String "[" s) =
  match Json.parse_elements fuel (String c t) with
  | Some (vs, r) => Some (JList vs, r)
  | None => None
  end.
Proof.
  intros E Hc. cbn [Json.parse_value].
  change (Ascii.eqb "[" PyStr.dq) with false.
  change (Ascii.eqb "[" "{") with false.
  change (Ascii.eqb "[" "[") with true. cbv iota.
  rewrite E, Hc. reflexivity.
Qed.

Lemma parse_value_dict (fuel : nat) (s t : string) :
  Json.skip_ws s = String PyStr.dq t ->
  Json.parse_value (S fuel) (String "{" s) =
  match Json.parse_members fuel (String PyStr.dq t) with
  | Some (kvs, r) => Some (JDict (Json.dict_of_pairs kvs), r)
  | None => None
  end.
Proof.
  intros E. cbn [Json.parse_value].
  change (Ascii.eqb "{" PyStr.dq) with false.
  change (Ascii.eqb "{" "{") with true. cbv iota.
  rewrite E. reflexivity.
Qed.

Lemma skip_ws_items_nil (lvl : nat) (rest : string) :
  Json.skip_ws (Json.dumps_items lvl [] +:+ rest) = String "]" rest.
Proof.
  cbn [Json.dumps_items]. rewrite str_app_assoc, skip_ws_newline_indent.
  reflexivity.
Qed.

Lemma skip_ws_members_nil (lvl : nat) (rest : string) :
  Json.skip_ws (Json.dumps_members lvl [] +:+ rest) = String "}" rest.
Proof.
  cbn [Json.dumps_members]. rewrite str_app_assoc, skip_ws_newline_indent.
  reflexivity.
Qed.

Lemma dumps_items_cons (lvl : nat) (y : json) (ys : list json) (rest : string) :
  Json.dumps_items lvl (y :: ys) +:+ rest =
  String ","
    (Json.newline_indent (S lvl) +:+
     (Json.dumps_at (S lvl) y +:+ (Json.dumps_items lvl ys +:+ rest))).
Proof.
  cbn [Json.dumps_items]. rewrite !str_app_assoc. reflexivity.
Qed.

Lemma dumps_members_cons (lvl : nat) (k : string) (y : json)
    (ys : list (string * json)) (rest : string) :
  Json.dumps_members lvl ((k, y) :: ys) +:+ rest =
  String ","
    (Json.newline_indent (S lvl) +:+
     (Json.encode_str k +:+
      (": " +:+ (Json.dumps_at (S lvl) y +:+ (Json.dumps_members lvl ys +:+ rest))))).
Proof.
  cbn [Json.dumps_members]. rewrite !str_app_assoc. reflexivity.
Qed.

Lemma parse_elements_dumps (xs : list json) :
  forall (x : json) (lvl : nat) (rest : string) (fuel : nat),
    Forall Json.scans_back (x :: xs) ->
    (Json.items_size (x :: xs) <= fuel)%nat ->
    Json.parse_elements fuel
      (Json.dumps_at (S lvl) x +:+ (Json.dumps_items lvl xs +:+ rest))
    = Some (x :: xs, rest).
Proof.
  induction xs as [|y ys IH]; intros x lvl rest fuel Hall Hfuel;
    inversion Hall as [|? ? Hx Hxs]; subst;
    change (Json.items_size (x :: ?l)) with (S (Json.size x + Json.items_size l)) in Hfuel;
    (destruct fuel as [|fuel]; [lia|]);
    cbn [Json.parse_elements];
    rewrite (Hx (S lvl) _ fuel) by (try apply number_ends_items; lia).
  - rewrite skip_ws_items_nil. reflexivity.
  - rewrite dumps_items_cons.
    rewrite skip_ws_head by reflexivity.
    change (Ascii.eqb "," "]") with false.
    change (Ascii.eqb "," ",") with true. cbv iota.
    rewrite skip_ws_newline_indent, skip_ws_dumps.
    rewrite (IH y lvl rest fuel Hxs) by lia.
    reflexivity.
Qed.

Lemma parse_members_dumps (kvs : list (string * json)) :
  forall (k : string) (x : json) (lvl : nat) (rest : string) (fuel : nat),
    Forall (fun kv => Json.scans_back (snd kv)) ((k, x) :: kvs) ->
    (Json.members_size ((k, x) :: kvs) <= fuel)%nat ->
    Json.parse_members fuel
      (Json.encode_str k +:+
       (": " +:+ (Json.dumps_at (S lvl) x +:+ (Json.dumps_members lvl kvs +:+ rest))))
    = Some ((k, x) :: kvs, rest).
Proof.
  induction kvs as [|[k' y] ys IH]; intros k x lvl rest fuel Hall Hfuel;
    inversion Hall as [|? ? Hx Hxs]; subst; cbn [snd] in Hx;
    change (Json.members_size ((k, x) :: ?l))
      with (S (Json.size x + Json.members_size l)) in Hfuel;
    (destruct fuel as [|fuel]; [lia|]);
    rewrite encode_str_app; cbn [Json.parse_members];
    change (Ascii.eqb PyStr.dq PyStr.dq) with true; cbv iota;
    rewrite scan_string_escape;
    change (": " +:+ ?X) with (String ":" (String " " X));
    rewrite skip_ws_head by reflexivity;
    change (Ascii.eqb ":" ":") with true; cbv iota;
    change (Json.skip_ws (String " " ?X)) with (Json.skip_ws X);
    rewrite skip_ws_dumps;
    rewrite (Hx (S lvl) _ fuel) by (try apply number_ends_members; lia).
  - rewrite skip_ws_members_nil. reflexivity.
  - rewrite dumps_members_cons.
    rewrite skip_ws_head by reflexivity.
    change (Ascii.eqb "," "}") with false.
    change (Ascii.eqb "," ",") with true. cbv iota.
    rewrite skip_ws_newline_indent.
    rewrite encode_str_app. rewrite skip_ws_head by reflexivity.
    rewrite <- encode_str_app.
    rewrite (IH k' y lvl rest fuel Hxs) by lia.
    reflexivity.
Qed.

(** *** Dicts without repeated keys *)

Lemma dict_set_fresh (d : list (string * json)) (k : string) (v : json) :
  ~ In k (map fst d) -> Py.dict_set d k v = (d ++ [(k, v)])%list.
Proof.
  induction d as [|[k' v'] d IH]; cbn [Py.dict_set map fst In]; intros Hk.
  - reflexivity.
  - destruct (String.eqb k k') eqn:E.
    + apply String.eqb_eq in E. subst k'. exfalso. apply Hk. left. reflexivity.
    + rewrite IH; [reflexivity|]. intros Hin. apply Hk. right. exact Hin.
Qed.

Lemma fold_dict_set_nodup (l acc : list (string * json)) :
  List.NoDup (map fst (acc ++ l)) ->
  fold_left (fun d kv => Py.dict_set d (fst kv) (snd kv)) l acc = (acc ++ l)%list.
Proof.
  revert acc. induction l as [|[k v] l IH]; intros acc Hnd; cbn [fold_left fst snd].
  - rewrite app_nil_r. reflexivity.
  - rewrite dict_set_fresh.
    + rewrite IH.
      * rewrite <- app_assoc. reflexivity.
      * rewrite <- app_assoc. exact Hnd.
    + rewrite map_app in Hnd. cbn [map fst] in Hnd.
      apply List.NoDup_remove_2 in Hnd.
      intros Hin. apply Hnd. apply in_or_app. left. exact Hin.
Qed.

Lemma dict_of_pairs_nodup (d : list (string * json)) :
  NoDup (map fst d) -> Json.dict_of_pairs d = d.
Proof.
  intros Hnd. apply NoDup_ListNoDup in Hnd.
  unfold Json.dict_of_pairs. rewrite fold_dict_set_nodup; auto.
Qed.

(** *** Every well-formed value scans back *)

Lemma wf_scans_back (v : json) : Json.wf v -> Json.scans_back v.
Proof.
  induction v as [ | b | n | s | l IHl | d IHd] using json_ind';
    intros Hwf lvl rest fuel Hrest Hfuel.
  - destruct fuel as [|fuel]; [cbn in Hfuel; lia | reflexivity].
  - destruct fuel as [|fuel]; [cbn in Hfuel; lia | destruct b; reflexivity].
  - destruct fuel as [|fuel]; [cbn in Hfuel; lia|].
    cbn [Json.dumps_at].
    destruct (of_Z_head n) as (c & t & E & Hc).
    pose proof (scan_number_of_Z n rest Hrest) as Hs.
    rewrite E in *. rewrite str_app_cons in *.
    rewrite parse_value_number by exact Hc. rewrite Hs. reflexivity.
  - destruct fuel as [|fuel]; [cbn in Hfuel; lia|].
    cbn [Json.dumps_at]. rewrite encode_str_app. cbn [Json.parse_value].
    change (Ascii.eqb PyStr.dq PyStr.dq) with true. cbv iota.
    rewrite scan_string_escape. reflexivity.
  - apply wf_list in Hwf. rewrite size_list in Hfuel.
    destruct fuel as [|fuel]; [lia|].
    destruct l as [|x xs]; [reflexivity|].
    rewrite dumps_at_list.
    change ("[" +:+ ?X) with (String "[" X).
    rewrite str_app_cons, !str_app_assoc.
    destruct (dumps_head (S lvl) x) as (c & t & E & Hws & Hc).
    rewrite (parse_value_list fuel _ c
               (t +:+ (Json.dumps_items lvl xs +:+ rest))).
    + rewrite <- str_app_cons, <- E.
      rewrite parse_elements_dumps; [reflexivity| |lia].
      clear -IHl Hwf. induction IHl as [|y ys Hy Hys IH]; [constructor|].
      inversion Hwf; subst. constructor; [apply Hy; assumption | apply IH; assumption].
    + change ("" +:+ ?X) with X.
      rewrite skip_ws_newline_indent, skip_ws_dumps, E, str_app_cons.
      reflexivity.
    + exact Hc.
  - apply wf_dict in Hwf. destruct Hwf as [Hnd Hwf]. rewrite size_dict in Hfuel.
    destruct fuel as [|fuel]; [lia|].
    destruct d as [|[k x] kvs]; [reflexivity|].
    rewrite dumps_at_dict.
    change ("{" +:+ ?X) with (String "{" X).
    rewrite str_app_cons, !str_app_assoc.
    rewrite (parse_value_dict fuel _
               (Json.escape k +:+ String PyStr.dq
                  (": " +:+ (Json.dumps_at (S lvl) x +:+
                             (Json.dumps_members lvl kvs +:+ rest))))).
    + rewrite <- encode_str_app.
      rewrite parse_members_dumps; [|clear -IHd Hwf|lia].
      * rewrite dict_of_pairs_nodup by exact Hnd. reflexivity.
      * induction IHd as [|y ys Hy Hys IH]; [constructor|].
        inversion Hwf; subst. constructor; [apply Hy; assumption | apply IH; assumption].
    + change ("" +:+ ?X) with X.
      rewrite skip_ws_newline_indent, encode_str_app.
      apply skip_ws_head. reflexivity.
Qed.

(** *** The fuel [loads] gives is enough *)

Lemma newline_indent_length (lvl : nat) :
  String.length (Json.newline_indent lvl) = S (String.length (Json.spaces lvl)).
Proof. reflexivity. Qed.

Lemma items_size_le_length (lvl : nat) (l : list json) :
  Forall (fun x => forall lvl, (Json.size x <= String.length (Json.dumps_at lvl x))%nat) l ->
  (Json.items_size l <= String.length (Json.dumps_items lvl l))%nat.
Proof.
  induction 1 as [|y ys Hy Hys IH].
  - cbn. lia.
  - cbn [Json.dumps_items]. rewrite !str_length_app.
    change (Json.items_size (y :: ys)) with (S (Json.size y + Json.items_size ys)).
    change (String.length ",") with 1%nat.
    specialize (Hy (S lvl)). lia.
Qed.

Lemma members_size_le_length (lvl : nat) (l : list (string * json)) :
  Forall (fun kv => forall lvl,
            (Json.size (snd kv) <= String.length (Json.dumps_at lvl (snd kv)))%nat) l ->
  (Json.members_size l <= String.length (Json.dumps_members lvl l))%nat.
Proof.
  induction 1 as [|[k y] ys Hy Hys IH].
  - cbn. lia.
  - cbn [Json.dumps_members]. rewrite !str_length_app.
    change (Json.members_size ((k, y) :: ys))
      with (S (Json.size y + Json.members_size ys)).
    change (String.length ",") with 1%nat.
    specialize (Hy (S lvl)). cbn [snd] in Hy. lia.
Qed.

Lemma size_le_length (v : json) :
  forall lvl, (Json.size v <= String.length (Json.dumps_at lvl v))%nat.
Proof.
  induction v as [ | b | n | s | l IHl | d IHd] using json_ind'; intros lvl.
  - cbn. lia.
  - destruct b; cbn; lia.
  - cbn [Json.dumps_at Json.size].
    destruct (of_Z_head n) as (c & t & -> & _). cbn. lia.
  - cbn [Json.dumps_at Json.size]. rewrite <- (str_app_nil_r (Json.encode_str s)).
    rewrite encode_str_app. cbn. lia.
  - rewrite size_list. destruct l as [|x xs]; [cbn; lia|].
    rewrite dumps_at_list, !str_length_app, newline_indent_length.
    change (String.length "[") with 1%nat.
    change (Json.items_size (x :: xs)) with (S (Json.size x + Json.items_size xs)).
    inversion IHl as [|? ? Hx Hxs]; subst.
    pose proof (items_size_le_length lvl xs Hxs).
    specialize (Hx (S lvl)). lia.
  - rewrite size_dict. destruct d as [|[k x] kvs]; [cbn; lia|].
    rewrite dumps_at_dict, !str_length_app, newline_indent_length.
    change (String.length "{") with 1%nat.
    change (Json.members_size ((k, x) :: kvs))
      with (S (Json.size x + Json.members_size kvs)).
    inversion IHd as [|? ? Hx Hxs]; subst.
    pose proof (members_size_le_length lvl kvs Hxs).
    specialize (Hx (S lvl)). cbn [snd] in Hx. lia.
Qed.

(** Round trip of the [json] library on the model: for every value whose
    dicts have distinct keys, [json.loads(json.dumps(v, indent=2))] is
    [v]. *)
Lemma loads_dumps (v : json) : Json.wf v -> Json.loads (Json.dumps v) = Some v.
Proof.
  intros Hwf. unfold Json.loads, Json.dumps.
  rewrite <- (str_app_nil_r (Json.dumps_at 0 v)) at 2.
  rewrite skip_ws_dumps.
  rewrite (wf_scans_back v Hwf 0%nat "" _ eq_refl).
  - reflexivity.
  - pose proof (size_le_length v 0). lia.
Qed.

(** *** The envelope *)

Lemma wf_dict_value (d : list (string * json)) (k : string) (v : json) :
  Json.wf (JDict d) -> Py.dict_get d k = Some v -> Json.wf v.
Proof.
  intros Hwf. apply wf_dict in Hwf. destruct Hwf as [_ Hall].
  induction Hall as [|[k' x] l Hx Hl IH]; cbn [Py.dict_get]; [discriminate|].
  destruct (String.eqb k k'); [intros [= <-]; exact Hx | exact IH].
Qed.

Lemma NoDup_keys2 (a b : string) : a <> b -> NoDup [a; b].
Proof.
  intros Hab. apply NoDup_ListNoDup.
  repeat constructor; cbn; intuition congruence.
Qed.

Lemma NoDup_keys3 (a b c : string) :
  a <> b -> a <> c -> b <> c -> NoDup [a; b; c].
Proof.
  intros Hab Hac Hbc. apply NoDup_ListNoDup.
  repeat constructor; cbn; intuition congruence.
Qed.

(** The dict [format_json_response] serialises has distinct keys. *)
Lemma json_response_wf (data : json) (success : bool) (message : option string) :
  Json.wf data -> Json.wf (Utils.json_response data success message).
Proof.
  intros Hwf. unfold Utils.json_response. apply wf_dict.
  assert (Hm : (match message with
                | Some m => if PyStr.truthy m
                            then Py.dict_set [("success", JBool success)] "message" (JStr m)
                            else [("success", JBool success)]
                | None => [("success", JBool success)]
                end = [("success", JBool success)])
               \/ exists m, (match message with
                | Some m => if PyStr.truthy m
                            then Py.dict_set [("success", JBool success)] "message" (JStr m)
                            else [("success", JBool success)]
                | None => [("success", JBool success)]
                end = [("success", JBool success); ("message", JStr m)])).
  { destruct message as [m|]; [|left; reflexivity].
    destruct (PyStr.truthy m); [right; exists m; reflexivity | left; reflexivity]. }
  assert (He : (exists err, (exists d, data = JDict d /\ Py.dict_get d "error" = Some err)
                            /\ forall r,
                      match data with
                      | JDict d =>
                          match Py.dict_get d "error" with
                          | Some err => Py.dict_set r "error" err
                          | None => Py.dict_set r "data" data
                          end
                      | _ => Py.dict_set r "data" data
                      end = Py.dict_set r "error" err)
               \/ (forall r,
                      match data with
                      | JDict d =>
                          match Py.dict_get d "error" with
                          | Some err => Py.dict_set r "error" err
                          | None => Py.dict_set r "data" data
                          end
                      | _ => Py.dict_set r "data" data
                      end = Py.dict_set r "data" data)).
  { destruct data as [ | | | | |d]; try (right; reflexivity).
    destruct (Py.dict_get d "error") as [err|] eqn:E;
      [left; exists err; split; [exists d; split; [reflexivity|exact E]|reflexivity]
      | right; reflexivity]. }
  destruct Hm as [-> | [m ->]];
    destruct He as [(err & (d & -> & Hd) & ->) | ->];
    cbn [Py.dict_set String.eqb Ascii.eqb Bool.eqb map fst];
    (split; [first [apply NoDup_keys2 | apply NoDup_keys3]; discriminate|]);
    repeat constructor; cbn [snd]; try exact Hwf;
    eapply wf_dict_value; eassumption.
Qed.

(** C8, as the code has it. For every JSON-safe payload (dict keys are
    distinct) and optional message, parsing the string
    [format_json_response] produces with [success=True] gives an object
    whose [success] is true and whose [message] is the message given,
    when one was given and it is not empty (there is no [message] key
    otherwise). When the payload is not a dict with an ["error"] key,
    the object's [data] equals the payload and it has no [error] key.
    When the payload is a dict with an ["error"] key, the object has no
    [data] key: its [error] is the payload's ["error"] value. *)
Theorem format_json_response_round_trip (data : json) (message : option string) :
  Json.wf data ->
  exists obj,
    Json.loads (Utils.format_json_response data true message) = Some (JDict obj)
    /\ Py.dict_get obj "success" = Some (JBool true)
    /\ (forall m, message = Some m -> m <> "" ->
        Py.dict_get obj "message" = Some (JStr m))
    /\ (message = None \/ message = Some "" -> Py.dict_get obj "message" = None)
    /\ ((forall d, data = JDict d -> Py.dict_get d "error" = None) ->
        Py.dict_get obj "data" = Some data /\ Py.dict_get obj "error" = None)
    /\ (forall d err, data = JDict d -> Py.dict_get d "error" = Some err ->
        Py.dict_get obj "error" = Some err /\ Py.dict_get obj "data" = None).
Proof.
  intros Hwf.
  pose proof (loads_dumps _ (json_response_wf data true message Hwf)) as Hl.
  unfold Utils.format_json_response. rewrite Hl. clear Hl.
  unfold Utils.json_response. eexists. split; [reflexivity|].
  destruct message as [[|c m]|];
    cbn [PyStr.truthy Py.dict_set String.eqb Ascii.eqb Bool.eqb];
    (destruct data as [ | b | n | s | l | d];
     [..|destruct (Py.dict_get d "error") as [err|] eqn:E]);
    cbn [Py.dict_set Py.dict_get String.eqb Ascii.eqb Bool.eqb];
    repeat split;
    try reflexivity;
    try (intros m' [= <-] Hne; congruence);
    repeat match goal with
           | H : forall d0, JDict ?d = JDict d0 -> _ |- _ => specialize (H d eq_refl)
           | H : JDict _ = JDict _ |- _ => injection H as H; subst
           | H : _ \/ _ |- _ => destruct H
           end;
    try congruence;
    intros [Hm|Hm]; discriminate Hm.
Qed.

Lemma format_json_response_round_trip_run :
  exists obj,
    Json.loads
      (Utils.format_json_response
         (JDict [("RecordId", JInt 7); ("Tags", JList [JStr "new"; JNull])])
         true (Some "Record created successfully"))
    = Some (JDict obj)
    /\ Py.dict_get obj "success" = Some (JBool true)
    /\ (forall m, Some "Record created successfully" = Some m -> m <> "" ->
        Py.dict_get obj "message" = Some (JStr m))
    /\ (Some "Record created successfully" = None \/
        Some "Record created successfully" = Some "" ->
        Py.dict_get obj "message" = None)
    /\ ((forall d,
           JDict [("RecordId", JInt 7); ("Tags", JList [JStr "new"; JNull])] = JDict d ->
           Py.dict_get d "error" = None) ->
        Py.dict_get obj "data"
        = Some (JDict [("RecordId", JInt 7); ("Tags", JList [JStr "new"; JNull])])
        /\ Py.dict_get obj "error" = None)
    /\ (forall d err,
          JDict [("RecordId", JInt 7); ("Tags", JList [JStr "new"; JNull])] = JDict d ->
          Py.dict_get d "error" = Some err ->
          Py.dict_get obj "error" = Some err /\ Py.dict_get obj "data" = None).
Proof.
  apply (format_json_response_round_trip
           (JDict [("RecordId", JInt 7); ("Tags", JList [JStr "new"; JNull])])
           (Some "Record created successfully")).
  cbn. split; [apply NoDup_keys2; discriminate | repeat split].
Defined.

(** C8, as the claim has it, fails: a JSON-safe payload that is a dict
    with an ["error"] key does not come back under [data]. The parsed
    output has no [data] key at all, and the payload's other keys are
    gone. *)
Lemma error_key_payload_loses_data :
  Json.wf (JDict [("error", JStr "disk full"); ("path", JStr "/tmp/x")])
  /\ Json.loads
       (Utils.format_json_response
          (JDict [("error", JStr "disk full"); ("path", JStr "/tmp/x")])
          true None)
     = Some (JDict [("success", JBool true); ("error", JStr "disk full")])
  /\ Py.dict_get [("success", JBool true); ("error", JStr "disk full")] "data"
     = None.
Proof.
  split; [|split; reflexivity].
  cbn. split; [apply NoDup_keys2; discriminate | repeat split].
Qed.

(** ** The helpers of utils.py *)

(** *** [truncate_string] *)

Lemma take_length (n : nat) (s : string) :
  String.length (Text.take n s) = Nat.min n (String.length s).
Proof.
  revert s; induction n as [|n IH]; intros [|c s]; simpl; try reflexivity.
  rewrite IH. reflexivity.
Qed.

Lemma take_prefix (n : nat) (s : string) :
  exists dropped, s = Text.take n s +:+ dropped.
Proof.
  revert s; induction n as [|n IH]; intros s.
  - exists s. destruct s; reflexivity.
  - destruct s as [|c s]; [exists ""; reflexivity|].
    destruct (IH s) as [d Hd]. exists d. simpl. rewrite str_app_cons.
    f_equal. exact Hd.
Qed.

Lemma slice_to_length (s : string) (k : Z) :
  Z.of_nat (String.length (Text.slice_to s k)) =
  Z.max 0 (Z.min (Z.of_nat (String.length s))
                 (if k <? 0 then Z.of_nat (String.length s) + k else k)).
Proof.
  unfold Text.slice_to. destruct (k <? 0) eqn:Hk; rewrite take_length; lia.
Qed.

(** X6. When the suffix fits in the limit, [truncate_string] keeps its
    promise: the result is never longer than [max_length]. A string
    within the limit is returned as it is; a longer one gives exactly
    [max_length] characters, a prefix of the string followed by the
    suffix. *)
Theorem truncate_string_within_limit (s : string) (max_length : Z)
    (suffix : string) :
  Z.of_nat (String.length suffix) <= max_length ->
  Z.of_nat (String.length (Helpers.truncate_string s max_length suffix))
    <= max_length
  /\ (Z.of_nat (String.length s) <= max_length ->
      Helpers.truncate_string s max_length suffix = s)
  /\ (max_length < Z.of_nat (String.length s) ->
      Z.of_nat (String.length (Helpers.truncate_string s max_length suffix))
        = max_length
      /\ exists kept dropped,
           s = kept +:+ dropped
           /\ Helpers.truncate_string s max_length suffix = kept +:+ suffix).
Proof.
  intros Hfit. unfold Helpers.truncate_string.
  destruct (Z.of_nat (String.length s) <=? max_length) eqn:Hlen.
  - split; [lia|]. split; [reflexivity | lia].
  - assert (Hsize :
      Z.of_nat (String.length
                  (Text.slice_to s (max_length - Z.of_nat (String.length suffix))
                   +:+ suffix)) = max_length).
    { rewrite str_length_app, Nat2Z.inj_add, slice_to_length.
      destruct (max_length - Z.of_nat (String.length suffix) <? 0) eqn:Hk; lia. }
    split; [lia|]. split; [lia|]. intros _. split; [exact Hsize|].
    unfold Text.slice_to.
    destruct (max_length - Z.of_nat (String.length suffix) <? 0);
      match goal with
      | |- context [Text.take ?n s] =>
          destruct (take_prefix n s) as [d Hd];
          exists (Text.take n s), d; split; [exact Hd | reflexivity]
      end.
Qed.

Lemma truncate_string_within_limit_run :
  Z.of_nat (String.length (Helpers.truncate_string "Method CRM" 8 "...")) <= 8.
Proof.
  apply (truncate_string_within_limit "Method CRM" 8 "..."). simpl. lia.
Defined.

(** X7. When the suffix is longer than the limit, every string that is
    truncated comes out longer than [max_length]: the slice
    [s[:max_length - len(suffix)]] has a negative bound, which counts
    from the end of the string. *)
Theorem truncate_string_suffix_over_limit (s : string) (max_length : Z)
    (suffix : string) :
  max_length < Z.of_nat (String.length suffix) ->
  max_length < Z.of_nat (String.length s) ->
  max_length
    < Z.of_nat (String.length (Helpers.truncate_string s max_length suffix))
  /\ Z.of_nat (String.length (Helpers.truncate_string s max_length suffix))
     = Z.max 0 (Z.of_nat (String.length s)
                - (Z.of_nat (String.length suffix) - max_length))
       + Z.of_nat (String.length suffix).
Proof.
  intros Hsuffix Hlong. unfold Helpers.truncate_string.
  destruct (Z.of_nat (String.length s) <=? max_length) eqn:Hlen; [lia|].
  rewrite str_length_app, Nat2Z.inj_add, slice_to_length.
  destruct (max_length - Z.of_nat (String.length suffix) <? 0) eqn:Hk; lia.
Qed.

Lemma truncate_string_suffix_over_limit_run :
  2 < Z.of_nat (String.length (Helpers.truncate_string "abcdefghij" 2 "...")).
Proof.
  apply (truncate_string_suffix_over_limit "abcdefghij" 2 "..."); simpl; lia.
Defined.

(** *** [safe_get] *)

Lemma split_from_app (sep : ascii) (p q : string) :
  Text.split_from sep (p +:+ String sep q) =
  (fst (Text.split_from sep p),
   (snd (Text.split_from sep p) ++ Text.split sep q)%list).
Proof.
  induction p as [|c p IH].
  - simpl. unfold Text.split. destruct (Text.split_from sep q) as [x xs].
    rewrite Ascii.eqb_refl. reflexivity.
  - rewrite str_app_cons. simpl. rewrite IH.
    destruct (Text.split_from sep p) as [x xs]. simpl.
    destruct (Ascii.eqb c sep); reflexivity.
Qed.

Lemma split_app (sep : ascii) (p q : string) :
  Text.split sep (p +:+ String sep q) = (Text.split sep p ++ Text.split sep q)%list.
Proof.
  unfold Text.split at 1 2. rewrite split_from_app.
  destruct (Text.split_from sep p) as [x xs]. reflexivity.
Qed.

Lemma split_not_nil (sep : ascii) (s : string) : Text.split sep s <> [].
Proof. unfold Text.split. destruct (Text.split_from sep s). discriminate. Qed.

Lemma safe_get_loop_app (ks1 ks2 : list string) (value stop default : json) :
  ks2 <> [] -> (forall d, stop <> JDict d) ->
  Helpers.safe_get_loop (ks1 ++ ks2) value default =
  Helpers.safe_get_loop ks2 (Helpers.safe_get_loop ks1 value stop) default.
Proof.
  intros Hks2 Hstop. revert value; induction ks1 as [|k ks1 IH]; intros value.
  - reflexivity.
  - assert (Hfail : Helpers.safe_get_loop ks2 stop default = default).
    { destruct ks2 as [|k2 ks2]; [congruence|].
      simpl. destruct stop; try reflexivity. exfalso. eapply Hstop. reflexivity. }
    simpl. destruct value; try (symmetry; exact Hfail).
    destruct (Py.dict_get fields k); [apply IH | symmetry; exact Hfail].
Qed.

(** X8. Paths compose: looking up [p.q] is looking up [q] in what the
    lookup of [p] finds. A lookup of [p] that fails is given [None] as
    its default, from which the lookup of [q] fails as well. *)
Theorem safe_get_path_composes (data : json) (p q : string) (default : json) :
  Helpers.safe_get data (p +:+ "." +:+ q) default =
  Helpers.safe_get (Helpers.safe_get data p JNull) q default.
Proof.
  unfold Helpers.safe_get.
  change (p +:+ "." +:+ q) with (p +:+ String "." q).
  rewrite split_app. apply safe_get_loop_app.
  - apply split_not_nil.
  - discriminate.
Qed.

Lemma contains_char_cons (c x : ascii) (s : string) :
  PyStr.contains (String c "") (String x s) =
  Ascii.eqb c x || PyStr.contains (String c "") s.
Proof.
  cbn [PyStr.contains PyStr.startswith].
  destruct (Ascii.eqb c x); [reflexivity|]. reflexivity.
Qed.

Lemma split_from_head_no_sep (sep : ascii) (s : string) :
  PyStr.contains (String sep "") (fst (Text.split_from sep s)) = false.
Proof.
  induction s as [|c s IH]; [reflexivity|].
  simpl. destruct (Text.split_from sep s) as [x xs].
  destruct (Ascii.eqb c sep) eqn:E; [reflexivity|].
  simpl fst in *. rewrite contains_char_cons, IH.
  rewrite Ascii.eqb_sym, E. reflexivity.
Qed.

Lemma dict_get_none_of_keys (d : list (string * json)) (k : string) :
  ~ In k (map fst d) -> Py.dict_get d k = None.
Proof.
  induction d as [|[k' v] d IH]; [reflexivity|].
  intros Hin. simpl. destruct (String.eqb k k') eqn:E.
  - apply String.eqb_eq in E. exfalso. apply Hin. left. symmetry. exact E.
  - apply IH. intros H'. apply Hin. right. exact H'.
Qed.

(** X9. A key that holds a dot cannot be reached: in a dict whose keys
    all hold a dot, [safe_get] finds nothing, whatever the path, and
    returns the default. *)
Theorem safe_get_dotted_keys_unreachable (d : list (string * json))
    (path : string) (default : json) :
  Forall (fun kv => PyStr.contains "." (fst kv) = true) d ->
  Helpers.safe_get (JDict d) path default = default.
Proof.
  intros Hd. unfold Helpers.safe_get, Text.split.
  pose proof (split_from_head_no_sep "." path) as Hhead.
  destruct (Text.split_from "." path) as [k ks]. simpl in Hhead. simpl.
  rewrite dict_get_none_of_keys; [reflexivity|].
  intros Hin. apply in_map_iff in Hin. destruct Hin as [[k' v] [Hk Hin]].
  simpl in Hk. subst k'.
  rewrite List.Forall_forall in Hd. specialize (Hd _ Hin). simpl in Hd.
  congruence.
Qed.

Lemma safe_get_dotted_keys_unreachable_run :
  Helpers.safe_get (JDict [("user.name", JStr "Ada")]) "user.name" (JStr "?")
  = JStr "?".
Proof.
  apply (safe_get_dotted_keys_unreachable [("user.name", JStr "Ada")]).
  repeat constructor.
Defined.

(** *** [parse_boolean] *)

Lemma of_Z_inj (n m : Z) : PyStr.of_Z n = PyStr.of_Z m -> n = m.
Proof.
  intros Heq.
  pose proof (scan_number_of_Z n "" eq_refl) as Hn.
  pose proof (scan_number_of_Z m "" eq_refl) as Hm.
  rewrite Heq in Hn. congruence.
Qed.

Lemma lower_char_digit_or_minus (c : ascii) :
  Json.is_digit c = true \/ c = "-"%char -> Text.lower_char c = c.
Proof.
  intros [Hd | ->]; [|reflexivity].
  destruct c as [[] [] [] [] [] [] [] []]; try discriminate Hd; reflexivity.
Qed.

Lemma lower_empty (t : string) : String.eqb (Text.lower t) "" = String.eqb t "".
Proof. destruct t; reflexivity. Qed.

(** X10. [parse_boolean] reads [str(b)] back as [b]. On the decimal text
    of an integer it is true for 1 only, while on the integer itself it
    is true for every value but 0. *)
Theorem parse_boolean_of_text `{PyRuntime} :
  (forall b : bool, Helpers.parse_boolean (JStr (Fmt.str (JBool b))) = b)
  /\ (forall n : Z, Helpers.parse_boolean (JStr (Fmt.str (JInt n))) = (n =? 1))
  /\ (forall n : Z, Helpers.parse_boolean (JInt n) = negb (n =? 0)).
Proof.
  split; [intros []; reflexivity|]. split; [|reflexivity].
  intros n. cbn [Fmt.str Helpers.parse_boolean].
  destruct (of_Z_head n) as (c & t & Hs & Hc).
  assert (Hone : String.eqb (PyStr.of_Z n) "1" = (n =? 1)).
  { destruct (Z.eqb_spec n 1) as [->|Hne]; [reflexivity|].
    apply String.eqb_neq. intros Heq. apply Hne.
    apply of_Z_inj. exact Heq. }
  rewrite <- Hone, Hs. cbn [Text.lower].
  rewrite (lower_char_digit_or_minus c Hc).
  unfold Helpers.str_in. cbn [existsb String.eqb].
  rewrite lower_empty.
  destruct Hc as [Hd | ->]; [|reflexivity].
  destruct c as [[] [] [] [] [] [] [] []]; try discriminate Hd;
    cbn [Ascii.eqb Bool.eqb andb orb]; try reflexivity;
    destruct (String.eqb t ""); reflexivity.
Qed.

(** *** [select_fields] *)

Lemma str_in_eqb (k k' : string) (fs : list string) :
  String.eqb k k' = true -> Helpers.str_in k fs = Helpers.str_in k' fs.
Proof. intros E. apply String.eqb_eq in E. subst. reflexivity. Qed.

Lemma dict_get_filter_record (fs : list string) (d : list (string * json))
    (k : string) :
  Py.dict_get (List.filter (fun kv => Helpers.str_in (fst kv) fs) d) k =
  if Helpers.str_in k fs then Py.dict_get d k else None.
Proof.
  induction d as [|[k' v] d IH]; [simpl; destruct (Helpers.str_in k fs); reflexivity|].
  cbn [List.filter fst]. destruct (Helpers.str_in k' fs) eqn:Hk'.
  - cbn [Py.dict_get]. destruct (String.eqb k k') eqn:E.
    + rewrite (str_in_eqb _ _ fs E), Hk'. reflexivity.
    + exact IH.
  - rewrite IH. cbn [Py.dict_get]. destruct (String.eqb k k') eqn:E.
    + rewrite (str_in_eqb _ _ fs E), Hk'. reflexivity.
    + reflexivity.
Qed.

Lemma filter_twice {A} (p : A -> bool) (l : list A) :
  List.filter p (List.filter p l) = List.filter p l.
Proof.
  induction l as [|x l IH]; [reflexivity|].
  simpl. destruct (p x) eqn:E; [|exact IH].
  simpl. rewrite E, IH. reflexivity.
Qed.

(** X11. [select_fields] on a record is a projection: the result holds
    a key exactly when the record holds it and it is one of [fields],
    with the record's value, and selecting the same fields again changes
    nothing. *)
Theorem select_fields_projection (d : list (string * json)) (fields : list string) :
  exists d',
    Helpers.select_fields (JDict d) (Some fields) = Ok (JDict d')
    /\ (forall k, Py.dict_get d' k =
                  if Helpers.str_in k fields then Py.dict_get d k else None)
    /\ Helpers.select_fields (JDict d') (Some fields) = Ok (JDict d').
Proof.
  eexists. split; [reflexivity|]. split.
  - intros k. apply dict_get_filter_record.
  - cbn [Helpers.select_fields Helpers.filter_record].
    rewrite filter_twice. reflexivity.
Qed.

(** *** [build_query_filter] *)

Lemma startswith_strip_prefix (p s : string) :
  PyStr.startswith p s = false -> Json.strip_prefix p s = None.
Proof.
  revert s; induction p as [|a p IH]; intros [|b s]; simpl; try discriminate;
    try reflexivity.
  destruct (Ascii.eqb a b); simpl; [apply IH | reflexivity].
Qed.

Lemma rsplit_once_none (a : ascii) (p s : string) :
  PyStr.contains (String a p) s = false ->
  Text.rsplit_once (String a p) s = None.
Proof.
  induction s as [|c s IH]; [reflexivity|].
  cbn [PyStr.contains]. intros Hc. apply orb_false_iff in Hc.
  destruct Hc as [Hstart Hrest].
  cbn [Text.rsplit_once]. rewrite (IH Hrest).
  rewrite (startswith_strip_prefix _ _ Hstart). reflexivity.
Qed.

Lemma strip_prefix_app (p rest : string) :
  Json.strip_prefix p (p +:+ rest) = Some rest.
Proof.
  induction p as [|a p IH]; [destruct rest; reflexivity|].
  rewrite str_app_cons. simpl. rewrite Ascii.eqb_refl. exact IH.
Qed.

Lemma startswith_app (p rest : string) : PyStr.startswith p (p +:+ rest) = true.
Proof.
  induction p as [|a p IH]; [destruct rest; reflexivity|].
  rewrite str_app_cons. simpl. rewrite Ascii.eqb_refl. exact IH.
Qed.

Lemma contains_app (sep f rest : string) :
  PyStr.contains sep (f +:+ sep +:+ rest) = true.
Proof.
  induction f as [|c f IH].
  - apply contains_prefix. apply (startswith_app sep rest).
  - rewrite str_app_cons. cbn [PyStr.contains]. rewrite IH. apply orb_true_r.
Qed.

Lemma rsplit_once_suffix (field op : string) :
  PyStr.contains "__" ("_" +:+ op) = false ->
  Text.rsplit_once "__" (field +:+ "__" +:+ op) = Some (field, op).
Proof.
  intros Hop. induction field as [|c f IH].
  - change ("" +:+ "__" +:+ op) with (String "_" ("_" +:+ op)).
    cbn [Text.rsplit_once]. rewrite (rsplit_once_none _ _ _ Hop).
    reflexivity.
  - rewrite str_app_cons. cbn [Text.rsplit_once]. rewrite IH. reflexivity.
Qed.

Lemma parse_key_suffix (field op : string) :
  PyStr.contains "__" ("_" +:+ op) = false ->
  Helpers.parse_key (field +:+ "__" +:+ op) = (field, Helpers.op_map op).
Proof.
  intros Hop. unfold Helpers.parse_key.
  rewrite (contains_app "__" field op), (rsplit_once_suffix _ _ Hop).
  reflexivity.
Qed.

(** X12. A filter key [field__op]: the field is what stands before the
    last double underscore, and the suffix selects the operator, [eq]
    when it is not one of the eight known ones. A number is compared
    with that operator and a string with it or with the function syntax
    of [contains], [startswith] and [endswith]; a string is put between
    quotes as it is. For [None] and a Boolean the operator is dropped
    and the comparison is always [eq]. *)
Theorem build_query_filter_suffix (field op : string) :
  PyStr.contains "__" ("_" +:+ op) = false ->
  (forall n,
     Helpers.build_query_filter [(field +:+ "__" +:+ op, JInt n)]
     = field +:+ " " +:+ Helpers.op_map op +:+ " " +:+ PyStr.of_Z n)
  /\ (forall s,
        Helpers.build_query_filter [(field +:+ "__" +:+ op, JStr s)]
        = if Helpers.is_string_function (Helpers.op_map op)
          then Helpers.op_map op +:+ "(" +:+ field +:+ ", '" +:+ s +:+ "')"
          else field +:+ " " +:+ Helpers.op_map op +:+ " '" +:+ s +:+ "'")
  /\ (forall b : bool,
        Helpers.build_query_filter [(field +:+ "__" +:+ op, JBool b)]
        = field +:+ " eq " +:+ (if b then "true" else "false"))
  /\ Helpers.build_query_filter [(field +:+ "__" +:+ op, JNull)]
     = field +:+ " eq null".
Proof.
  intros Hop.
  unfold Helpers.build_query_filter, Helpers.expressions, Helpers.expression.
  cbn [omap list_omap fst snd]. rewrite (parse_key_suffix _ _ Hop).
  repeat split; intros; try reflexivity.
  destruct (Helpers.is_string_function (Helpers.op_map op)); reflexivity.
Qed.

Lemma build_query_filter_suffix_run :
  Helpers.build_query_filter [("is_active" +:+ "__" +:+ "ne", JBool true)]
  = "is_active" +:+ " eq " +:+ "true".
Proof.
  apply (proj1 (proj2 (proj2 (build_query_filter_suffix "is_active" "ne" eq_refl)))
           true).
Defined.

Lemma expressions_skip_containers (filters : list (string * json)) :
  Helpers.expressions
    (List.filter (fun kv => match snd kv with
                            | JList _ | JDict _ => false
                            | _ => true
                            end) filters)
  = Helpers.expressions filters.
Proof.
  unfold Helpers.expressions.
  induction filters as [|[k v] l IH]; [reflexivity|].
  cbn [List.filter snd].
  destruct v; cbn [omap list_omap fst snd] in *; rewrite ?IH;
    try reflexivity;
    unfold Helpers.expression; destruct (Helpers.parse_key k); reflexivity.
Qed.

(** X13. Items whose value is a list or a dict add nothing to the
    filter and raise nothing: the result is the filter of the other
    items. *)
Theorem build_query_filter_skips_containers (filters : list (string * json)) :
  Helpers.build_query_filter filters =
  Helpers.build_query_filter
    (List.filter (fun kv => match snd kv with
                            | JList _ | JDict _ => false
                            | _ => true
                            end) filters).
Proof.
  unfold Helpers.build_query_filter.
  rewrite <- (expressions_skip_containers filters).
  destruct filters as [|kv l]; [reflexivity|].
  destruct (List.filter _ (kv :: l)); reflexivity.
Qed.
(** ** The response formatters of errors.py *)

(** [format_error_response] writes the failure envelope
    [format_json_response] writes for a payload that holds the error
    alone, and parsing its text gives the object with [success] false
    and the message. *)
Lemma format_error_response_envelope (error_message : string) :
  Responses.format_error_response error_message
  = Utils.format_json_response (JDict [("error", JStr error_message)]) false None
  /\ Json.loads (Responses.format_error_response error_message)
     = Some (JDict [("success", JBool false); ("error", JStr error_message)]).
Proof.
  split; [reflexivity|].
  unfold Responses.format_error_response. apply loads_dumps.
  apply wf_dict. split; [apply NoDup_keys2; discriminate|].
  repeat constructor.
Qed.

(** X14. The two formatters of errors.py round-trip. Parsing the text of
    [format_success_response] gives an object whose [success] is true,
    whose [data] is the payload, whatever its keys, and which has no
    [error] key; the text is the one [format_json_response] writes
    whenever the payload is not a dict with an ["error"] key. Parsing
    the text of [format_error_response] gives the object with [success]
    false and the message under [error]; the text is the failure
    envelope of [format_json_response]. *)
Theorem format_success_response_round_trip (data : json)
    (message : option string) :
  Json.wf data ->
  (exists obj,
     Json.loads (Responses.format_success_response data message)
     = Some (JDict obj)
     /\ Py.dict_get obj "success" = Some (JBool true)
     /\ Py.dict_get obj "data" = Some data
     /\ Py.dict_get obj "error" = None
     /\ (forall m, message = Some m -> m <> "" ->
         Py.dict_get obj "message" = Some (JStr m))
     /\ (message = None \/ message = Some "" ->
         Py.dict_get obj "message" = None))
  /\ ((forall d, data = JDict d -> Py.dict_get d "error" = None) ->
      Responses.format_success_response data message
      = Utils.format_json_response data true message)
  /\ (forall error_message,
        Json.loads (Responses.format_error_response error_message)
        = Some (JDict [("success", JBool false);
                       ("error", JStr error_message)])
        /\ Responses.format_error_response error_message
           = Utils.format_json_response
               (JDict [("error", JStr error_message)]) false None).
Proof.
  intros Hwf. split; [|split].
  3: { intros m. destruct (format_error_response_envelope m) as [Heq Hloads].
       split; [exact Hloads | exact Heq]. }
  - unfold Responses.format_success_response.
    destruct message as [[|c m]|]; cbn [PyStr.truthy Py.dict_set String.eqb
                                         Ascii.eqb Bool.eqb];
      eexists; (split; [apply loads_dumps; apply wf_dict;
                        (split; [first [apply NoDup_keys2 | apply NoDup_keys3];
                                 discriminate|]);
                        repeat constructor; exact Hwf|]);
      repeat split; try reflexivity; try congruence;
      try (intros [Hm|Hm]; discriminate Hm);
      try (intros m0 [= <-] _; reflexivity).
  - intros Hno.
    unfold Responses.format_success_response, Utils.format_json_response,
      Utils.json_response.
    destruct data as [ | | | | |d]; try reflexivity.
    rewrite (Hno d eq_refl). reflexivity.
Qed.

Lemma format_success_response_round_trip_run :
  exists obj,
    Json.loads
      (Responses.format_success_response
         (JDict [("error", JStr "disk full"); ("path", JStr "/tmp/x")]) None)
    = Some (JDict obj)
    /\ Py.dict_get obj "success" = Some (JBool true)
    /\ Py.dict_get obj "data"
       = Some (JDict [("error", JStr "disk full"); ("path", JStr "/tmp/x")])
    /\ Py.dict_get obj "error" = None
    /\ (forall m, @None string = Some m -> m <> "" ->
        Py.dict_get obj "message" = Some (JStr m))
    /\ (@None string = None \/ @None string = Some "" ->
        Py.dict_get obj "message" = None).
Proof.
  apply (proj1 (format_success_response_round_trip
                  (JDict [("error", JStr "disk full"); ("path", JStr "/tmp/x")])
                  None
                  (conj (NoDup_keys2 "error" "path" ltac:(discriminate))
                        (conj I (conj I I))))).
Defined.

(** ** Authentication and the client (auth.py, client.py) *)

(** X15. A blank API key is an error, not a missing key: when
    [METHOD_API_KEY] is set to blanks only, [AuthManager()] raises
    "API key cannot be empty" and does not fall back to the OAuth2
    variables, whatever they hold. *)
Theorem AuthManager_init_blank_api_key (env : Auth.Env) (key : string) :
  env !! "METHOD_API_KEY" = Some key -> key <> "" -> PyStr.strip key = "" ->
  Auth.AuthManager_init env
  = Raise (AuthenticationError (Exn.api_error "API key cannot be empty")).
Proof.
  intros Hkey Hne Hblank. unfold Auth.AuthManager_init, Auth.getenv_truthy.
  rewrite Hkey. destruct key as [|c key]; [congruence|].
  cbn [PyStr.truthy]. unfold Auth.APIKeyAuth_init. rewrite Hblank.
  reflexivity.
Qed.

Lemma AuthManager_init_blank_api_key_run :
  Auth.AuthManager_init Examples.blank_key_env
  = Raise (AuthenticationError (Exn.api_error "API key cannot be empty")).
Proof.
  apply (AuthManager_init_blank_api_key Examples.blank_key_env "   ").
  - reflexivity.
  - discriminate.
  - reflexivity.
Defined.

Lemma AuthManager_init_without_key_invalid (env : Auth.Env) (m : Auth.AuthManager) :
  Auth.getenv_truthy env "METHOD_API_KEY" = None ->
  Auth.AuthManager_init env = Ok m -> Auth.AuthManager_is_valid m = false.
Proof.
  intros Hkey. unfold Auth.AuthManager_init. rewrite Hkey.
  destruct (Auth.getenv_truthy env "METHOD_CLIENT_ID");
    destruct (Auth.getenv_truthy env "METHOD_CLIENT_SECRET");
    destruct (Auth.getenv_truthy env "METHOD_REDIRECT_URI");
    intros [= <-]; reflexivity.
Qed.

(** X16. Without a non-empty [METHOD_API_KEY] no client can be built:
    [MethodAPIClient()] raises in every environment. With an OAuth2
    client id in the environment and no timeout or retry setting, what
    it raises is [AuthenticationError("Authentication is not valid")]. *)
Theorem MethodAPIClient_init_needs_api_key `{PyRuntime} (env : Auth.Env)
    (base_url : option string) (timeout : pyfloat) (max_retries : Z) :
  Auth.getenv_truthy env "METHOD_API_KEY" = None ->
  (exists e,
     Client.MethodAPIClient_init env base_url None timeout max_retries = Raise e)
  /\ (forall id,
        Auth.getenv_truthy env "METHOD_CLIENT_ID" = Some id ->
        env !! "METHOD_REQUEST_TIMEOUT" = None ->
        env !! "METHOD_MAX_RETRIES" = None ->
        Client.MethodAPIClient_init env base_url None timeout max_retries
        = Raise (AuthenticationError
                   (Exn.api_error "Authentication is not valid"))).
Proof.
  intros Hkey. unfold Client.MethodAPIClient_init.
  pose proof (AuthManager_init_without_key_invalid env) as Hinv.
  specialize (fun m => Hinv m Hkey).
  split.
  - destruct (Auth.AuthManager_init env) as [m|e]; [|eexists; reflexivity].
    cbn [rbind].
    destruct (match env !! "METHOD_REQUEST_TIMEOUT" with
              | Some v => py_float v | None => Ok timeout end);
      [|eexists; reflexivity].
    cbn [rbind].
    destruct (match env !! "METHOD_MAX_RETRIES" with
              | Some v => py_int v | None => Ok max_retries end);
      [|eexists; reflexivity].
    cbn [rbind]. rewrite (Hinv m eq_refl). eexists; reflexivity.
  - intros id Hid Ht Hr. rewrite Ht, Hr.
    destruct (Auth.AuthManager_init env) as [m|e] eqn:Hm.
    + cbn [rbind]. rewrite (Hinv m eq_refl). reflexivity.
    + exfalso. revert Hm. unfold Auth.AuthManager_init. rewrite Hkey, Hid.
      destruct (Auth.getenv_truthy env "METHOD_CLIENT_SECRET");
        destruct (Auth.getenv_truthy env "METHOD_REDIRECT_URI"); discriminate.
Qed.

Lemma MethodAPIClient_init_needs_api_key_run :
  Client.MethodAPIClient_init (H := Ref.runtime) Examples.client_credentials_env
    None None Client.default_timeout Client.default_max_retries
  = Raise (AuthenticationError (Exn.api_error "Authentication is not valid")).
Proof.
  apply (proj2 (MethodAPIClient_init_needs_api_key (H := Ref.runtime)
                  Examples.client_credentials_env None
                  Client.default_timeout Client.default_max_retries eq_refl)
           "my-client"); reflexivity.
Defined.

(** Every client [MethodAPIClient(...)] returns authenticates with an
    API key that is not empty. *)
Lemma MethodAPIClient_init_api_key `{PyRuntime} (env : Auth.Env)
    (base_url : option string) (auth_manager : option Auth.AuthManager)
    (timeout : pyfloat) (max_retries : Z) (c : Client.MethodAPIClient) :
  Client.MethodAPIClient_init env base_url auth_manager timeout max_retries = Ok c ->
  exists key,
    key <> ""
    /\ Auth.auth (Client.auth_manager c) = Some (Auth.APIKeyAuth key).
Proof.
  unfold Client.MethodAPIClient_init.
  destruct (match auth_manager with
            | Some m => Ok m | None => Auth.AuthManager_init env end) as [m|];
    [|discriminate].
  cbn [rbind].
  destruct (match env !! "METHOD_REQUEST_TIMEOUT" with
            | Some v => py_float v | None => Ok timeout end); [|discriminate].
  cbn [rbind].
  destruct (match env !! "METHOD_MAX_RETRIES" with
            | Some v => py_int v | None => Ok max_retries end); [|discriminate].
  cbn [rbind].
  destruct (Auth.AuthManager_is_valid m) eqn:Hv; [|discriminate].
  intros [= <-]. cbn [Client.auth_manager].
  unfold Auth.AuthManager_is_valid in Hv.
  destruct (Auth.auth m) as [[key| | | ]|]; try discriminate Hv.
  exists key. split; [|reflexivity].
  destruct key; [discriminate Hv | discriminate].
Qed.

Section RequestOutcomes.
Context `{PyRuntime}.
Variable net : Client.Network.
Variable self : Client.MethodAPIClient.
Variable key : string.
Hypothesis Hauth : Auth.auth (Client.auth_manager self) = Some (Auth.APIKeyAuth key).

Lemma api_key_get_headers :
  Auth.AuthManager_get_headers (Client.auth_manager self)
  = Ok (Expect.api_key_headers key).
Proof. unfold Auth.AuthManager_get_headers. rewrite Hauth. reflexivity. Qed.

(** With API-key authentication [request] sends exactly one request. *)
Lemma request_sends method endpoint params json_data w :
  snd (Client.request net self method endpoint params json_data w)
  = Expect.after w
      (Expect.api_request method
         (Client.base_url self +:+ "/" +:+ PyStr.lstrip_char "/" endpoint)
         key params json_data).
Proof.
  unfold Client.request. rewrite retrying_request_body.
  unfold Client.request_body, Client.try_except, Client.request_try,
    Client.bind, Client.lift, Client.send, Client.raise, Client.ret,
    Client.request_except.
  rewrite api_key_get_headers.
  destruct (net _ _) as [response|e1].
  - destruct (status_code response =? 429).
    + destruct (Client.parse_retry_after _) as [ra|e2]; [reflexivity|].
      destruct (Exn.is_MethodAPIError e2); reflexivity.
    + destruct (Client.raise_for_status response) as [[]|e2].
      * destruct (status_code response =? 204); [reflexivity|].
        destruct (Response_json response) as [v|e3]; [reflexivity|].
        destruct (Exn.is_MethodAPIError e3); reflexivity.
      * destruct (Exn.is_MethodAPIError e2); reflexivity.
  - destruct (Exn.is_MethodAPIError e1); reflexivity.
Qed.

(** What [request] returns, from what the network answers. *)
Lemma request_outcome method endpoint params json_data w :
  let rq :=
    Expect.api_request method
      (Client.base_url self +:+ "/" +:+ PyStr.lstrip_char "/" endpoint)
      key params json_data in
  let out := fst (Client.request net self method endpoint params json_data w) in
  (forall e, net (Client.sent w) rq = Raise e -> Exn.is_MethodAPIError e = false ->
     out = Raise (MethodAPIError (Exn.api_error (Errors.handle_api_error e))))
  /\ (forall response, net (Client.sent w) rq = Ok response ->
      (status_code response <> 429 -> ~ (200 <= status_code response <= 299) ->
       out = Raise (MethodAPIError
                      (Exn.api_error
                         (Errors.handle_api_error
                            (HTTPStatusError (status_text response) response)))))
      /\ (status_code response = 204 -> out = Ok Client.no_content_marker)
      /\ (200 <= status_code response <= 299 -> status_code response <> 204 ->
          forall v, body response = inl v -> out = Ok v)
      /\ (200 <= status_code response <= 299 -> status_code response <> 204 ->
          forall t, body response = inr t ->
          out = Raise (MethodAPIError
                         (Exn.api_error
                            (Errors.handle_api_error
                               (PyException "JSONDecodeError" t)))))).
Proof.
  intros rq out. subst out rq.
  unfold Client.request. rewrite retrying_request_body.
  unfold Client.request_body, Client.try_except, Client.request_try,
    Client.bind, Client.lift, Client.send, Client.raise, Client.ret,
    Client.request_except, Expect.api_request.
  rewrite api_key_get_headers.
  split.
  - intros e -> He. cbn [fst]. rewrite He. reflexivity.
  - intros response ->.
    unfold Client.raise_for_status, Response_json.
    repeat split.
    + intros H429 Hout. apply Z.eqb_neq in H429. rewrite H429.
      destruct ((200 <=? status_code response) && (status_code response <=? 299))
        eqn:E; [exfalso; apply Hout; lia | reflexivity].
    + intros ->. reflexivity.
    + intros Hin H204 v Hv.
      destruct (status_code response =? 429) eqn:E429; [lia|].
      replace ((200 <=? status_code response) && (status_code response <=? 299))
        with true by lia.
      apply Z.eqb_neq in H204. rewrite H204, Hv. reflexivity.
    + intros Hin H204 t Ht.
      destruct (status_code response =? 429) eqn:E429; [lia|].
      replace ((200 <=? status_code response) && (status_code response <=? 299))
        with true by lia.
      apply Z.eqb_neq in H204. rewrite H204, Ht. reflexivity.
Qed.

End RequestOutcomes.

(** X17. A client that [MethodAPIClient(...)] returned sends exactly one
    HTTP request for every call of [request], whatever the outcome: the
    method, the parameters and the body are the caller's, the URL is the
    base URL, a slash and the endpoint without its leading slashes, and
    the headers are those of the API key. *)
Theorem request_sends_one_request `{PyRuntime} (env : Auth.Env)
    (base_url : option string) (auth_manager : option Auth.AuthManager)
    (timeout : pyfloat) (max_retries : Z) (c : Client.MethodAPIClient)
    (net : Client.Network) :
  Client.MethodAPIClient_init env base_url auth_manager timeout max_retries = Ok c ->
  exists key,
    key <> ""
    /\ forall method endpoint params json_data w,
         snd (Client.request net c method endpoint params json_data w)
         = Expect.after w
             (Expect.api_request method
                (Client.base_url c +:+ "/" +:+ PyStr.lstrip_char "/" endpoint)
                key params json_data).
Proof.
  intros Hinit.
  destruct (MethodAPIClient_init_api_key _ _ _ _ _ _ Hinit) as (key & Hne & Hkey).
  exists key. split; [exact Hne|]. intros. apply request_sends. exact Hkey.
Qed.

Lemma request_sends_one_request_run :
  exists key,
    key <> ""
    /\ forall method endpoint params json_data w,
         snd (Client.request (H := Ref.runtime) Scenario.flaky_net Scenario.client
                method endpoint params json_data w)
         = Expect.after w
             (Expect.api_request method
                (Client.base_url Scenario.client +:+ "/" +:+
                 PyStr.lstrip_char "/" endpoint)
                key params json_data).
Proof.
  apply (request_sends_one_request (H := Ref.runtime) Scenario.api_key_env
           None None Client.default_timeout Client.default_max_retries
           Scenario.client Scenario.flaky_net).
  reflexivity.
Defined.

(** X18. Whatever goes wrong in [request], what it raises is a
    [MethodAPIError] or one of its subclasses: no httpx exception and
    no error of the decoding of the response leaves it. *)
Theorem request_raises_MethodAPIError `{PyRuntime} (net : Client.Network)
    (self : Client.MethodAPIClient) (method endpoint : string)
    (params : option (list (string * json))) (json_data : option json)
    (w w' : Client.World) (e : exn) :
  Client.request net self method endpoint params json_data w = (Raise e, w') ->
  Exn.is_MethodAPIError e = true.
Proof.
  unfold Client.request. rewrite retrying_request_body.
  apply request_body_raises_api_error.
Qed.

Lemma request_raises_MethodAPIError_run :
  Exn.is_MethodAPIError
    (MethodAPIError
       (Exn.api_error
          (Errors.handle_api_error (H := Ref.runtime)
             (ConnectError "All connection attempts failed"))))
  = true.
Proof.
  apply (request_raises_MethodAPIError (H := Ref.runtime) Scenario.flaky_net
           Scenario.client "GET" "me" None None Scenario.empty_world
           (Expect.after Scenario.empty_world (Scenario.get_request "me" None))).
  reflexivity.
Defined.

(** ** The tools (tools/tables.py, tools/files.py) *)

Section ClientCache.
Context `{PyRuntime}.

Lemma tables_get_client_cached (env : Auth.Env) (w : Client.World)
    (c : Client.MethodAPIClient) :
  Client.tables_client w = Some c -> Tools.tables_get_client env w = (Ok c, w).
Proof. intros Hc. unfold Tools.tables_get_client. rewrite Hc. reflexivity. Qed.

Lemma files_get_client_cached (env : Auth.Env) (w : Client.World)
    (c : Client.MethodAPIClient) :
  Client.files_client w = Some c -> Tools.files_get_client env w = (Ok c, w).
Proof. intros Hc. unfold Tools.files_get_client. rewrite Hc. reflexivity. Qed.

(** X19. The environment is read once for each module: after a first
    successful [get_client()], every later call returns the same client
    in any environment. Creating the client of one module sends nothing
    and leaves the client of the other module as it is, and a failed
    creation leaves no client behind. *)
Theorem get_client_reads_environment_once (env : Auth.Env) (w : Client.World) :
  (forall c w1, Tools.tables_get_client env w = (Ok c, w1) ->
     (forall env', Tools.tables_get_client env' w1 = (Ok c, w1))
     /\ Client.sent w1 = Client.sent w
     /\ Client.files_client w1 = Client.files_client w)
  /\ (forall c w1, Tools.files_get_client env w = (Ok c, w1) ->
        (forall env', Tools.files_get_client env' w1 = (Ok c, w1))
        /\ Client.sent w1 = Client.sent w
        /\ Client.tables_client w1 = Client.tables_client w)
  /\ (forall e w1, Tools.tables_get_client env w = (Raise e, w1) -> w1 = w)
  /\ (forall e w1, Tools.files_get_client env w = (Raise e, w1) -> w1 = w).
Proof.
  unfold Tools.tables_get_client, Tools.files_get_client.
  repeat split;
    destruct (Client.tables_client w) eqn:Ht;
    destruct (Client.files_client w) eqn:Hf;
    destruct (Client.MethodAPIClient_init env None None Client.default_timeout
                Client.default_max_retries);
    try intros env'; intros; simplify_eq; cbn;
    rewrite ?Ht, ?Hf; reflexivity.
Qed.

End ClientCache.

Lemma get_client_reads_environment_once_run :
  Tools.tables_get_client (H := Ref.runtime) Examples.client_credentials_env
    {| Client.sent := [];
       Client.tables_client := Some Scenario.client;
       Client.files_client := None |}
  = (Ok Scenario.client,
     {| Client.sent := [];
        Client.tables_client := Some Scenario.client;
        Client.files_client := None |}).
Proof.
  apply (proj1 (proj1 (get_client_reads_environment_once (H := Ref.runtime)
                         Scenario.api_key_env Scenario.empty_world)
                  Scenario.client _ eq_refl)
           Examples.client_credentials_env).
Defined.

Section ToolFacts.
Context `{PyRuntime}.
Variable env : Auth.Env.
Variable net : Client.Network.

(** X20. No client, no request: when the module holds no client and
    [MethodAPIClient()] raises, every tool returns the translation of
    that exception, sends nothing and leaves the world as it was. *)
Theorem tools_without_client (e : exn) (w : Client.World) :
  Client.MethodAPIClient_init env None None Client.default_timeout
    Client.default_max_retries = Raise e ->
  Client.tables_client w = None ->
  Client.files_client w = None ->
  (forall fmt params,
     Tools.method_tables_query env net fmt params w
     = (Ok (Errors.handle_api_error e), w))
  /\ (forall params,
        Tables.method_tables_update env net params w
        = (Ok (Errors.handle_api_error e), w))
  /\ (forall params,
        Tables.method_tables_delete env net params w
        = (Ok (Errors.handle_api_error e), w))
  /\ (forall params,
        Tools.method_files_upload env net params w
        = (Ok (Errors.handle_api_error e), w))
  /\ (forall str_title params,
        Files.method_files_list env net str_title params w
        = (Ok (Errors.handle_api_error e), w))
  /\ (forall params,
        Files.method_files_get_url env net params w
        = (Ok (Errors.handle_api_error e), w))
  /\ (forall params,
        Files.method_files_update_link env net params w
        = (Ok (Errors.handle_api_error e), w))
  /\ (forall params,
        Files.method_files_delete env net params w
        = (Ok (Errors.handle_api_error e), w)).
Proof.
  intros Hinit Ht Hf.
  assert (Htc : Tools.tables_get_client env w = (Raise e, w)).
  { unfold Tools.tables_get_client. rewrite Ht, Hinit. reflexivity. }
  assert (Hfc : Tools.files_get_client env w = (Raise e, w)).
  { unfold Tools.files_get_client. rewrite Hf, Hinit. reflexivity. }
  repeat split; intros;
    unfold Tools.method_tables_query, Tools.method_tables_query_body,
      Tables.method_tables_update, Tables.method_tables_update_body,
      Tables.method_tables_delete, Tables.method_tables_delete_body,
      Tools.method_files_upload, Tools.method_files_upload_body,
      Files.method_files_list, Files.method_files_list_body,
      Files.method_files_get_url, Files.method_files_get_url_body,
      Files.method_files_update_link, Files.method_files_update_link_body,
      Files.method_files_delete, Files.method_files_delete_body,
      Tools.tool_boundary, Client.try_except, Client.bind;
    rewrite ?Htc, ?Hfc; reflexivity.
Qed.

End ToolFacts.

Lemma tools_without_client_run :
  Tables.method_tables_delete (H := Ref.runtime) Scenario.no_credentials_env
    (Scenario.constant_net Examples.no_content) Examples.customer_42
    Scenario.empty_world
  = (Ok (Errors.handle_api_error Auth.no_credentials), Scenario.empty_world).
Proof.
  apply (proj1 (proj2 (proj2
           (tools_without_client (H := Ref.runtime) Scenario.no_credentials_env
              (Scenario.constant_net Examples.no_content)
              Auth.no_credentials Scenario.empty_world
              eq_refl eq_refl eq_refl)))).
Defined.

Section Handlers.
Context `{PyRuntime}.
Variable env : Auth.Env.
Variable net : Client.Network.
Variable c : Client.MethodAPIClient.
Variable key : string.
Hypothesis Hauth : Auth.auth (Client.auth_manager c) = Some (Auth.APIKeyAuth key).

Lemma request_eq method endpoint params json_data w :
  Client.request net c method endpoint params json_data w
  = (fst (Client.request net c method endpoint params json_data w),
     Expect.after w
       (Expect.api_request method
          (Client.base_url c +:+ "/" +:+ PyStr.lstrip_char "/" endpoint)
          key params json_data)).
Proof.
  rewrite <- (request_sends net c key Hauth).
  destruct (Client.request net c method endpoint params json_data w).
  reflexivity.
Qed.

(** X21. An error of the exchange is translated twice on its way out of
    a tool that calls the API through [request]: [request] wraps the
    translator's message in a [MethodAPIError], and the tool translates
    that error again. For a transport error and for a status outside
    200..299 other than 429 the tool returns ["Error: "] followed by the
    translator's message, a text that starts with ["Error: Error"]; the
    request has been sent. *)
Theorem tool_translates_request_errors_twice (method endpoint : string)
    (params : option (list (string * json))) (json_data : option json)
    (k : json -> Client.M string) (w : Client.World) :
  let rq :=
    Expect.api_request method
      (Client.base_url c +:+ "/" +:+ PyStr.lstrip_char "/" endpoint)
      key params json_data in
  let tool :=
    Tools.tool_boundary
      (Client.bind (Client.request net c method endpoint params json_data) k) in
  (forall e, net (Client.sent w) rq = Raise e -> Exn.is_MethodAPIError e = false ->
     tool w = (Ok ("Error: " +:+ Errors.handle_api_error e), Expect.after w rq))
  /\ (forall response, net (Client.sent w) rq = Ok response ->
      status_code response <> 429 -> ~ (200 <= status_code response <= 299) ->
      tool w
      = (Ok ("Error: " +:+
             Errors.handle_api_error
               (HTTPStatusError (status_text response) response)),
         Expect.after w rq))
  /\ (forall e, exists rest,
        "Error: " +:+ Errors.handle_api_error e = "Error: Error" +:+ rest).
Proof.
  intros rq tool. subst rq tool.
  pose proof (request_outcome net c key Hauth method endpoint params json_data w)
    as [Hraise Hresp].
  cbv zeta in Hraise, Hresp.
  unfold Tools.tool_boundary, Client.try_except, Client.bind.
  rewrite request_eq.
  split; [|split].
  - intros e Hnet He. rewrite (Hraise e Hnet He). reflexivity.
  - intros response Hnet H429 Hout.
    rewrite (proj1 (Hresp response Hnet) H429 Hout). reflexivity.
  - intros e. destruct (handle_api_error_starts_with_Error e) as [rest Hr].
    exists rest. rewrite Hr. reflexivity.
Qed.

(** X22. The delete tools confirm on the status alone. When the API
    answers the DELETE with 204, or with another status in 200..299 and
    a JSON body, [method_tables_delete] and [method_files_delete] return
    their confirmation, which does not depend on the response; parsing
    it gives [success], the message and the identifiers under [data].
    One request has been sent, to [tables/<table>/<record_id>] or
    [files/<file_id>] under the base URL. *)
Theorem delete_tools_confirm (w : Client.World) (response : Response) :
  (status_code response = 204
   \/ (200 <= status_code response <= 299 /\ exists v, body response = inl v)) ->
  (forall params,
     let rq :=
       Expect.api_request "DELETE"
         (Client.base_url c +:+ "/tables/" +:+ TableDeleteInput.table params +:+
          "/" +:+ TableDeleteInput.record_id params)
         key None None in
     Client.tables_client w = Some c ->
     net (Client.sent w) rq = Ok response ->
     Tables.method_tables_delete env net params w
     = (Ok (Tables.delete_confirmation params), Expect.after w rq))
  /\ (forall params,
        let rq :=
          Expect.api_request "DELETE"
            (Client.base_url c +:+ "/files/" +:+ FileDeleteInput.file_id params)
            key None None in
        Client.files_client w = Some c ->
        net (Client.sent w) rq = Ok response ->
        Files.method_files_delete env net params w
        = (Ok (Files.delete_confirmation params), Expect.after w rq))
  /\ (forall params,
        Json.loads (Tables.delete_confirmation params)
        = Some (JDict
                  [("success", JBool true);
                   ("message", JStr "Record deleted successfully");
                   ("data",
                    JDict [("RecordId", JStr (TableDeleteInput.record_id params));
                           ("Table", JStr (TableDeleteInput.table params));
                           ("DeletedAt", JStr "now")])]))
  /\ (forall params,
        Json.loads (Files.delete_confirmation params)
        = Some (JDict
                  [("success", JBool true);
                   ("message", JStr "File deleted successfully");
                   ("data",
                    JDict [("FileId", JStr (FileDeleteInput.file_id params));
                           ("DeletedAt", JStr "now")])])).
Proof.
  intros Hstatus.
  assert (Hok : forall method endpoint w,
            net (Client.sent w)
              (Expect.api_request method
                 (Client.base_url c +:+ "/" +:+ PyStr.lstrip_char "/" endpoint)
                 key None None) = Ok response ->
            exists v, fst (Client.request net c method endpoint None None w) = Ok v).
  { intros method endpoint w0 Hnet.
    pose proof (request_outcome net c key Hauth method endpoint None None w0)
      as [_ Hresp].
    cbv zeta in Hresp. specialize (Hresp response Hnet).
    destruct Hresp as (_ & H204 & Hjson & _).
    destruct (Z.eq_dec (status_code response) 204) as [E|E].
    - eexists. apply H204. exact E.
    - destruct Hstatus as [E'|[Hin [v Hv]]]; [contradiction|].
      exists v. apply (Hjson Hin E v Hv). }
  split; [|split; [|split]].
  - intros params rq Hc Hnet.
    unfold Tables.method_tables_delete, Tables.method_tables_delete_body,
      Tools.tool_boundary, Client.try_except, Client.bind, Client.delete.
    rewrite (tables_get_client_cached env w c Hc), request_eq.
    destruct (Hok "DELETE"
                ("tables/" +:+ TableDeleteInput.table params +:+ "/" +:+
                 TableDeleteInput.record_id params) w Hnet) as [v Hv].
    rewrite Hv. reflexivity.
  - intros params rq Hc Hnet.
    unfold Files.method_files_delete, Files.method_files_delete_body,
      Tools.tool_boundary, Client.try_except, Client.bind, Client.delete.
    rewrite (files_get_client_cached env w c Hc), request_eq.
    destruct (Hok "DELETE" ("files/" +:+ FileDeleteInput.file_id params) w Hnet)
      as [v Hv].
    rewrite Hv. reflexivity.
  - intros params. unfold Tables.delete_confirmation, Utils.format_json_response.
    apply loads_dumps. apply wf_dict.
    split; [apply NoDup_keys3; discriminate|].
    constructor; [exact I|]. constructor; [exact I|].
    constructor; [|constructor]. cbn [snd]. apply wf_dict.
    split; [apply NoDup_keys3; discriminate|]. repeat constructor.
  - intros params. unfold Files.delete_confirmation, Utils.format_json_response.
    apply loads_dumps. apply wf_dict.
    split; [apply NoDup_keys3; discriminate|].
    constructor; [exact I|]. constructor; [exact I|].
    constructor; [|constructor]. cbn [snd]. apply wf_dict.
    split; [apply NoDup_keys2; discriminate|]. repeat constructor.
Qed.

(** X23. A success status is not enough when the body is not JSON: for
    a status in 200..299 other than 204 whose body cannot be decoded,
    the delete tools return the error text of the decoding failure,
    although the DELETE has been sent and accepted. *)
Theorem delete_tools_undecodable_body (w : Client.World) (response : Response)
    (t : string) :
  200 <= status_code response <= 299 -> status_code response <> 204 ->
  body response = inr t ->
  (forall params,
     let rq :=
       Expect.api_request "DELETE"
         (Client.base_url c +:+ "/tables/" +:+ TableDeleteInput.table params +:+
          "/" +:+ TableDeleteInput.record_id params)
         key None None in
     Client.tables_client w = Some c ->
     net (Client.sent w) rq = Ok response ->
     Tables.method_tables_delete env net params w
     = (Ok ("Error: " +:+
            Errors.handle_api_error (PyException "JSONDecodeError" t)),
        Expect.after w rq))
  /\ (forall params,
        let rq :=
          Expect.api_request "DELETE"
            (Client.base_url c +:+ "/files/" +:+ FileDeleteInput.file_id params)
            key None None in
        Client.files_client w = Some c ->
        net (Client.sent w) rq = Ok response ->
        Files.method_files_delete env net params w
        = (Ok ("Error: " +:+
               Errors.handle_api_error (PyException "JSONDecodeError" t)),
           Expect.after w rq)).
Proof.
  intros Hin H204 Hbody.
  assert (Hbad : forall method endpoint w,
            net (Client.sent w)
              (Expect.api_request method
                 (Client.base_url c +:+ "/" +:+ PyStr.lstrip_char "/" endpoint)
                 key None None) = Ok response ->
            fst (Client.request net c method endpoint None None w)
            = Raise (MethodAPIError
                       (Exn.api_error
                          (Errors.handle_api_error
                             (PyException "JSONDecodeError" t))))).
  { intros method endpoint w0 Hnet.
    pose proof (request_outcome net c key Hauth method endpoint None None w0)
      as [_ Hresp].
    cbv zeta in Hresp. specialize (Hresp response Hnet).
    destruct Hresp as (_ & _ & _ & Hraw). apply (Hraw Hin H204 t Hbody). }
  split.
  - intros params rq Hc Hnet.
    unfold Tables.method_tables_delete, Tables.method_tables_delete_body,
      Tools.tool_boundary, Client.try_except, Client.bind, Client.delete.
    rewrite (tables_get_client_cached env w c Hc), request_eq.
    rewrite (Hbad "DELETE"
               ("tables/" +:+ TableDeleteInput.table params +:+ "/" +:+
                TableDeleteInput.record_id params) w Hnet).
    reflexivity.
  - intros params rq Hc Hnet.
    unfold Files.method_files_delete, Files.method_files_delete_body,
      Tools.tool_boundary, Client.try_except, Client.bind, Client.delete.
    rewrite (files_get_client_cached env w c Hc), request_eq.
    rewrite (Hbad "DELETE" ("files/" +:+ FileDeleteInput.file_id params) w Hnet).
    reflexivity.
Qed.

(** X24. [method_files_update_link] converts the record id before it
    calls the API: when [int(link_record_id)] raises, the tool returns
    the translation of that error and nothing is sent. Otherwise one PUT
    goes to [files/<file_id>/link], and its body holds the table name
    and the record id as an integer, and nothing else: the description
    is not sent. *)
Theorem method_files_update_link_record_id (params : FileUpdateLinkInput.t)
    (w : Client.World) :
  Client.files_client w = Some c ->
  (forall e,
     py_int (FileUpdateLinkInput.link_record_id params) = Raise e ->
     Files.method_files_update_link env net params w
     = (Ok (Errors.handle_api_error e), w))
  /\ (forall n,
        py_int (FileUpdateLinkInput.link_record_id params) = Ok n ->
        snd (Files.method_files_update_link env net params w)
        = Expect.after w
            (Expect.api_request "PUT"
               (Client.base_url c +:+ "/files/" +:+
                FileUpdateLinkInput.file_id params +:+ "/link")
               key None
               (Some (JDict [("tableName",
                              JStr (FileUpdateLinkInput.link_table params));
                             ("recordId", JInt n)])))).
Proof.
  intros Hc.
  unfold Files.method_files_update_link, Files.method_files_update_link_body,
    Tools.tool_boundary, Client.try_except, Client.bind, Client.lift, Client.put.
  rewrite (files_get_client_cached env w c Hc).
  split.
  - intros e ->. reflexivity.
  - intros n ->. rewrite request_eq.
    destruct (fst (Client.request net c "PUT" _ None _ w)) as [result|e];
      [|reflexivity].
    destruct (Fmt.get result "Filename" JNull); reflexivity.
Qed.

(** X25. [method_files_get_url] calls the API with an httpx client of
    its own, so its errors are translated once and a 429 is a status
    error like any other: for a status outside 200..299 the tool returns
    the translator's message for that status. For a status in 200..299
    with a JSON body it returns the envelope whose [DownloadURL] is the
    decoded body. *)
Theorem method_files_get_url_outcome (params : FileGetURLInput.t)
    (w : Client.World) (response : Response) :
  let rq := Files.get_url_request c params (Expect.api_key_headers key) in
  Client.files_client w = Some c ->
  net (Client.sent w) rq = Ok response ->
  (~ (200 <= status_code response <= 299) ->
   Files.method_files_get_url env net params w
   = (Ok (Errors.handle_api_error
            (HTTPStatusError (status_text response) response)),
      Expect.after w rq))
  /\ (200 <= status_code response <= 299 ->
      forall v, body response = inl v ->
      Files.method_files_get_url env net params w
      = (Ok (Utils.format_json_response
               (JDict [("FileId", JStr (FileGetURLInput.file_id params));
                       ("DownloadURL", v);
                       ("ExpiresIn", JStr "20 minutes");
                       ("Note",
                        JStr "This URL expires in 20 minutes. Generate a new URL after expiration.")])
               true None),
         Expect.after w rq)).
Proof.
  intros rq Hc Hnet. subst rq.
  unfold Files.method_files_get_url, Files.method_files_get_url_body,
    Tools.tool_boundary, Client.try_except, Client.bind, Client.lift,
    Client.send, Client.ret.
  rewrite (files_get_client_cached env w c Hc).
  rewrite (api_key_get_headers c key Hauth), Hnet.
  unfold Client.raise_for_status, Response_json.
  split.
  - intros Hout.
    destruct ((200 <=? status_code response) && (status_code response <=? 299))
      eqn:E; [exfalso; apply Hout; lia | reflexivity].
  - intros Hin v Hv.
    replace ((200 <=? status_code response) && (status_code response <=? 299))
      with true by lia.
    rewrite Hv. reflexivity.
Qed.

End Handlers.

Lemma tool_translates_request_errors_twice_run :
  Tables.method_tables_delete (H := Ref.runtime) Scenario.api_key_env
    (Scenario.constant_net Examples.not_found) Examples.customer_42
    Examples.ready_world
  = (Ok ("Error: " +:+
         Errors.handle_api_error (H := Ref.runtime)
           (HTTPStatusError (status_text Examples.not_found) Examples.not_found)),
     Expect.after Examples.ready_world
       (Expect.api_request "DELETE"
          "https://rest.method.me/api/v1/tables/Customer/42" "test-key"
          None None)).
Proof.
  apply (proj1 (proj2
           (tool_translates_request_errors_twice (H := Ref.runtime)
              (Scenario.constant_net Examples.not_found) Scenario.client
              "test-key" eq_refl "DELETE" "tables/Customer/42" None None
              (fun _ => Client.ret (Tables.delete_confirmation Examples.customer_42))
              Examples.ready_world))
           Examples.not_found eq_refl).
  - cbn. lia.
  - cbn. lia.
Defined.

Lemma delete_tools_confirm_run :
  Tables.method_tables_delete (H := Ref.runtime) Scenario.api_key_env
    (Scenario.constant_net Examples.no_content) Examples.customer_42
    Examples.ready_world
  = (Ok (Tables.delete_confirmation Examples.customer_42),
     Expect.after Examples.ready_world
       (Expect.api_request "DELETE"
          "https://rest.method.me/api/v1/tables/Customer/42" "test-key"
          None None)).
Proof.
  apply (proj1
           (delete_tools_confirm (H := Ref.runtime) Scenario.api_key_env
              (Scenario.constant_net Examples.no_content) Scenario.client
              "test-key" eq_refl Examples.ready_world Examples.no_content
              (or_introl eq_refl))
           Examples.customer_42 eq_refl eq_refl).
Defined.

Lemma delete_tools_undecodable_body_run :
  Tables.method_tables_delete (H := Ref.runtime) Scenario.api_key_env
    (Scenario.constant_net Examples.empty_ok) Examples.customer_42
    Examples.ready_world
  = (Ok ("Error: " +:+
         Errors.handle_api_error (H := Ref.runtime)
           (PyException "JSONDecodeError"
              "Expecting value: line 1 column 1 (char 0)")),
     Expect.after Examples.ready_world
       (Expect.api_request "DELETE"
          "https://rest.method.me/api/v1/tables/Customer/42" "test-key"
          None None)).
Proof.
  refine (proj1
            (delete_tools_undecodable_body (H := Ref.runtime) Scenario.api_key_env
               (Scenario.constant_net Examples.empty_ok) Scenario.client
               "test-key" eq_refl Examples.ready_world Examples.empty_ok
               "Expecting value: line 1 column 1 (char 0)" _ _ eq_refl)
            Examples.customer_42 eq_refl eq_refl).
  - cbn. lia.
  - cbn. lia.
Defined.

Lemma method_files_update_link_record_id_run :
  Files.method_files_update_link (H := Ref.runtime) Scenario.api_key_env
    (Scenario.constant_net Examples.no_content) (Examples.relink "INV-7")
    Examples.ready_world
  = (Ok (Errors.handle_api_error (H := Ref.runtime)
           (Exn.value_error "invalid literal for int() with base 10: 'INV-7'")),
     Examples.ready_world).
Proof.
  apply (proj1
           (method_files_update_link_record_id (H := Ref.runtime)
              Scenario.api_key_env (Scenario.constant_net Examples.no_content)
              Scenario.client "test-key" eq_refl (Examples.relink "INV-7")
              Examples.ready_world eq_refl)).
  reflexivity.
Defined.

Lemma method_files_get_url_outcome_run :
  Files.method_files_get_url (H := Ref.runtime) Scenario.api_key_env
    (Scenario.constant_net (Scenario.rate_limited "30")) Examples.file_f1
    Examples.ready_world
  = (Ok (Errors.handle_api_error (H := Ref.runtime)
           (HTTPStatusError (status_text (Scenario.rate_limited "30"))
              (Scenario.rate_limited "30"))),
     Expect.after Examples.ready_world
       (Files.get_url_request Scenario.client Examples.file_f1
          (Expect.api_key_headers "test-key"))).
Proof.
  apply (proj1
           (method_files_get_url_outcome (H := Ref.runtime) Scenario.api_key_env
              (Scenario.constant_net (Scenario.rate_limited "30"))
              Scenario.client "test-key" eq_refl Examples.file_f1
              Examples.ready_world (Scenario.rate_limited "30") eq_refl eq_refl)).
  cbn. lia.
Defined.

Section Listings.
Context `{PyRuntime}.
Variable env : Auth.Env.
Variable net : Client.Network.
Variable c : Client.MethodAPIClient.

(** X26. [method_files_list] on the answer the files endpoint gives, a
    plain list: in JSON format the tool returns the envelope of the
    pagination metadata followed by the files. The total is unknown,
    [has_more] is true exactly when the page is full (as many files as
    [top], or 20 when [top] is not given), [next_offset] is then the
    offset plus the number of files and [None] otherwise: the
    pagination invariant holds. *)
Theorem method_files_list_of_list (str_title : string -> string)
    (params : FileListInput.t) (w w2 : Client.World) (files : list json) :
  Client.files_client w = Some c ->
  FileListInput.response_format params = Models.JSON ->
  Client.get net c "files" (Some (Files.list_query_params params)) w
  = (Ok (JList files), w2) ->
  let n := Z.of_nat (List.length files) in
  let limit := Models.int_or (FileListInput.top params) 20 in
  let offset := Models.int_or (FileListInput.skip params) 0 in
  let pagination :=
    [("total", JNull); ("count", JInt n); ("offset", JInt offset);
     ("limit", JInt limit); ("has_more", JBool (n =? limit));
     ("next_offset", if n =? limit then JInt (offset + n) else JNull)] in
  Files.method_files_list env net str_title params w
  = (Ok (Utils.format_json_response
           (JDict (pagination ++ [("files", JList files)])) true None), w2)
  /\ Pagination.invariant pagination.
Proof.
  intros Hc Hfmt Hget n limit offset pagination.
  subst pagination n limit offset.
  split.
  - unfold Files.method_files_list, Files.method_files_list_body,
      Tools.tool_boundary, Client.try_except, Client.bind, Client.lift,
      Client.ret.
    rewrite (files_get_client_cached env w c Hc), Hget, Hfmt.
    cbn [Files.list_metadata].
    unfold Files.list_pagination, Utils.format_pagination_info,
      Utils.eq_int, Utils.add_int.
    cbn [Py.as_int rbind].
    destruct (Z.of_nat (List.length files)
              =? Models.int_or (FileListInput.top params) 20);
      reflexivity.
  - unfold Pagination.invariant, Pagination.next_offset_set, Pagination.has_more.
    cbn [Py.dict_get String.eqb Ascii.eqb Bool.eqb].
    destruct (Z.of_nat (List.length files)
              =? Models.int_or (FileListInput.top params) 20);
      reflexivity.
Qed.

(** X27. The Markdown footer of [method_tables_query] when the API
    announces a next page on a page that is not full: the response has a
    [nextLink], no [count], and fewer or more records than the limit
    ([top], or 10 when [top] is not given). The footer says that more
    records are available and gives [None] as the next offset. *)
Theorem method_tables_query_markdown_footer
    (format_markdown_table : json -> string -> result string)
    (params : Models.TableQueryInput) (w w2 : Client.World)
    (d : list (string * json)) (record : json) (records : list json)
    (link : json) (table_md : string) :
  Client.tables_client w = Some c ->
  Models.response_format params = Models.MARKDOWN ->
  Client.get net c ("tables/" +:+ Models.table params)
    (Some (Tools.query_params params)) w
  = (Ok (JDict d), w2) ->
  Py.dict_get d "value" = Some (JList (record :: records)) ->
  Py.dict_get d "count" = None ->
  Py.dict_get d "nextLink" = Some link -> link <> JNull ->
  let n := Z.of_nat (List.length (record :: records)) in
  let offset := Models.int_or (Models.skip params) 0 in
  n <> Models.int_or (Models.top params) 10 ->
  format_markdown_table (JList (record :: records))
    ("Query Results: " +:+ Models.table params +:+ " (" +:+ PyStr.of_Z n +:+
     " records)") = Ok table_md ->
  Tools.method_tables_query env net format_markdown_table params w
  = (Ok (table_md +:+ PyStr.NL +:+ PyStr.NL +:+
         "**Pagination**: Showing records " +:+ PyStr.of_Z (offset + 1) +:+
         "-" +:+ PyStr.of_Z (offset + n) +:+
         " | More records available | Next offset: None"), w2).
Proof.
  intros Hc Hfmt Hget Hvalue Hcount Hlink Hnn n offset Hpage Hmd.
  subst n offset.
  unfold Tools.method_tables_query, Tools.method_tables_query_body,
    Tools.tool_boundary, Client.try_except, Client.bind, Client.lift,
    Client.ret.
  rewrite (tables_get_client_cached env w c Hc), Hget, Hfmt.
  cbn [Fmt.get]. rewrite Hvalue, Hcount, Hlink.
  cbn [Fmt.len].
  unfold Tools.query_pagination, Utils.format_pagination_info, Utils.eq_int.
  cbn [Py.as_int rbind].
  apply Z.eqb_neq in Hpage. rewrite Hpage.
  cbn [rbind].
  assert (Hmore : match link with JNull => false | _ => true end = true).
  { destruct link; try reflexivity. congruence. }
  rewrite Hmore.
  cbn [Py.dict_set String.eqb Ascii.eqb Bool.eqb Py.truthy negb
       Tools.dict_item Py.dict_get Fmt.str].
  rewrite Hmd. rewrite !str_app_assoc. reflexivity.
Qed.

End Listings.

Lemma method_files_list_of_list_run :
  Files.method_files_list (H := Ref.runtime) Scenario.api_key_env
    (Scenario.constant_net Examples.files_page) (fun s => s)
    (Examples.first_files (Some 2)) Examples.ready_world
  = (Ok (Utils.format_json_response
           (JDict ([("total", JNull); ("count", JInt 2); ("offset", JInt 0);
                    ("limit", JInt 2); ("has_more", JBool true);
                    ("next_offset", JInt 2)] ++
                   [("files", JList Examples.two_files)])) true None),
     Expect.after Examples.ready_world
       (Scenario.get_request "files" (Some [("$top", JInt 2)])))
  /\ Pagination.invariant
       [("total", JNull); ("count", JInt 2); ("offset", JInt 0);
        ("limit", JInt 2); ("has_more", JBool true); ("next_offset", JInt 2)].
Proof.
  apply (method_files_list_of_list (H := Ref.runtime) Scenario.api_key_env
           (Scenario.constant_net Examples.files_page) Scenario.client
           (fun s => s) (Examples.first_files (Some 2)) Examples.ready_world
           (Expect.after Examples.ready_world
              (Scenario.get_request "files" (Some [("$top", JInt 2)])))
           Examples.two_files);
    reflexivity.
Defined.

Lemma method_tables_query_markdown_footer_run :
  Tools.method_tables_query (H := Ref.runtime) Scenario.api_key_env
    (Scenario.constant_net Examples.linked_page) Examples.title_only
    Examples.customers_markdown Examples.ready_world
  = (Ok ("## Query Results: Customer (2 records)" +:+ PyStr.NL +:+ PyStr.NL +:+
         "**Pagination**: Showing records " +:+ PyStr.of_Z (0 + 1) +:+
         "-" +:+ PyStr.of_Z (0 + 2) +:+
         " | More records available | Next offset: None"),
     Expect.after Examples.ready_world
       (Scenario.get_request "tables/Customer" (Some [("$top", JInt 20)]))).
Proof.
  apply (method_tables_query_markdown_footer (H := Ref.runtime)
           Scenario.api_key_env (Scenario.constant_net Examples.linked_page)
           Scenario.client Examples.title_only Examples.customers_markdown
           Examples.ready_world
           (Expect.after Examples.ready_world
              (Scenario.get_request "tables/Customer" (Some [("$top", JInt 20)])))
           [("value", Scenario.two_records);
            ("nextLink",
             JStr "https://rest.method.me/api/v1/tables/Customer?$skip=2")]
           (JDict [("RecordID", JInt 1); ("Name", JStr "Ada")])
           [JDict [("RecordID", JInt 2); ("Name", JStr "Grace")]]
           (JStr "https://rest.method.me/api/v1/tables/Customer?$skip=2")
           "## Query Results: Customer (2 records)");
    try reflexivity; try discriminate.
Defined.

(** ** [format_markdown_list] *)

Section MarkdownList.
Context `{PyRuntime}.
Variable str_title : string -> string.

Lemma record_lines_dict (title_field : string) (fields : option (list string))
    (i : Z) (d : list (string * json)) :
  exists ls, Helpers.record_lines str_title title_field fields i (JDict d) = Ok ls.
Proof. unfold Helpers.record_lines. cbn [Fmt.get rbind]. eexists. reflexivity. Qed.

Lemma record_lines_not_dict (title_field : string) (fields : option (list string))
    (i : Z) (x : json) :
  (forall d, x <> JDict d) ->
  Helpers.record_lines str_title title_field fields i x
  = Raise (Exn.attribute_error
             ("'" +:+ Py.type_name x +:+ "' object has no attribute 'get'")).
Proof.
  intros Hx. destruct x; try reflexivity. exfalso. eapply Hx. reflexivity.
Qed.

Lemma records_lines_dicts (title_field : string) (fields : option (list string))
    (l : list json) :
  Forall (fun x => exists d, x = JDict d) l ->
  forall i, exists ls,
    Helpers.records_lines str_title title_field fields i l = Ok ls.
Proof.
  induction 1 as [|x l [d ->] _ IH]; intros i; [eexists; reflexivity|].
  cbn [Helpers.records_lines].
  destruct (record_lines_dict title_field fields i d) as [ls ->].
  destruct (IH (i + 1)) as [rest ->]. eexists. reflexivity.
Qed.

Lemma records_lines_first_not_dict (title_field : string)
    (fields : option (list string)) (l1 : list json) (x : json) (l2 : list json) :
  Forall (fun x => exists d, x = JDict d) l1 ->
  (forall d, x <> JDict d) ->
  forall i,
    Helpers.records_lines str_title title_field fields i (l1 ++ x :: l2)
    = Raise (Exn.attribute_error
               ("'" +:+ Py.type_name x +:+ "' object has no attribute 'get'")).
Proof.
  intros Hl1 Hx. induction Hl1 as [|y l1 [d ->] _ IH]; intros i.
  - cbn [app Helpers.records_lines].
    rewrite (record_lines_not_dict _ _ _ _ Hx). reflexivity.
  - cbn [app Helpers.records_lines].
    destruct (record_lines_dict title_field fields i d) as [ls ->].
    cbn [rbind]. rewrite IH. reflexivity.
Qed.

(** [format_markdown_list] returns a text for every list of records:
    "No records found." for the empty list, and a text for a list of
    dicts, whatever their keys and values. A list that holds something
    else than a dict raises the [AttributeError] of the first such
    item. *)
Lemma format_markdown_list_on_lists (title_field : string)
    (fields : option (list string)) (title : option string) :
  Helpers.format_markdown_list str_title (JList []) title_field fields title
  = Ok "No records found."
  /\ (forall l, Forall (fun x => exists d, x = JDict d) l ->
        exists text,
          Helpers.format_markdown_list str_title (JList l) title_field fields title
          = Ok text)
  /\ (forall l1 x l2,
        Forall (fun x => exists d, x = JDict d) l1 ->
        (forall d, x <> JDict d) ->
        Helpers.format_markdown_list str_title (JList (l1 ++ x :: l2))
          title_field fields title
        = Raise (Exn.attribute_error
                   ("'" +:+ Py.type_name x +:+
                    "' object has no attribute 'get'"))).
Proof.
  split; [reflexivity|]. split.
  - intros l Hl. destruct l as [|r rs]; [eexists; reflexivity|].
    unfold Helpers.format_markdown_list.
    cbn [Py.truthy negb Helpers.iterate rbind].
    destruct (records_lines_dicts title_field fields (r :: rs) Hl 1) as [ls ->].
    eexists. reflexivity.
  - intros l1 x l2 Hl1 Hx. unfold Helpers.format_markdown_list.
    assert (Hne : Py.truthy (JList (l1 ++ x :: l2)) = true)
      by (destruct l1; reflexivity).
    rewrite Hne. cbn [negb Helpers.iterate rbind].
    rewrite (records_lines_first_not_dict _ _ _ _ _ Hl1 Hx). reflexivity.
Qed.

End MarkdownList.

(** ** [method_tables_update] *)

Lemma dict_get_dict_set (d : list (string * json)) (k k' : string) (v : json) :
  Py.dict_get (Py.dict_set d k v) k' =
  if String.eqb k' k then Some v else Py.dict_get d k'.
Proof.
  induction d as [|[k0 v0] d IH].
  - cbn [Py.dict_set Py.dict_get]. reflexivity.
  - cbn [Py.dict_set]. destruct (String.eqb k k0) eqn:E.
    + apply String.eqb_eq in E. subst k0. cbn [Py.dict_get].
      destruct (String.eqb k' k); reflexivity.
    + cbn [Py.dict_get]. rewrite IH.
      destruct (String.eqb k' k0) eqn:E0; [|reflexivity].
      apply String.eqb_eq in E0. subst k0.
      rewrite String.eqb_sym, E. reflexivity.
Qed.

Section Update.
Context `{PyRuntime}.
Variable env : Auth.Env.
Variable net : Client.Network.
Variable c : Client.MethodAPIClient.
Variable key : string.
Hypothesis Hauth : Auth.auth (Client.auth_manager c) = Some (Auth.APIKeyAuth key).

(** X28. [method_tables_update] sends one PATCH to
    [tables/<table>/<record_id>] whose body is the fields, or, when
    related records are given, the fields with the related records
    under ["RelatedRecords"]: a field of that name is replaced, and
    every other field is sent as it is. *)
Theorem method_tables_update_payload (params : TableUpdateInput.t)
    (w : Client.World) :
  Client.tables_client w = Some c ->
  snd (Tables.method_tables_update env net params w)
  = Expect.after w
      (Expect.api_request "PATCH"
         (Client.base_url c +:+ "/tables/" +:+ TableUpdateInput.table params +:+
          "/" +:+ TableUpdateInput.record_id params)
         key None (Some (JDict (Tables.update_payload params))))
  /\ (TableUpdateInput.related_records params = None
      \/ TableUpdateInput.related_records params = Some [] ->
      Tables.update_payload params = TableUpdateInput.fields params)
  /\ (forall r rs,
        TableUpdateInput.related_records params = Some (r :: rs) ->
        forall k,
          Py.dict_get (Tables.update_payload params) k
          = if String.eqb k "RelatedRecords" then Some (JList (r :: rs))
            else Py.dict_get (TableUpdateInput.fields params) k).
Proof.
  intros Hc. split; [|split].
  - unfold Tables.method_tables_update, Tables.method_tables_update_body,
      Tools.tool_boundary, Client.try_except, Client.bind, Client.patch.
    rewrite (tables_get_client_cached env w c Hc).
    rewrite (request_eq net c key Hauth).
    destruct (fst (Client.request net c "PATCH" _ None _ w)); reflexivity.
  - unfold Tables.update_payload. intros [-> | ->]; reflexivity.
  - intros r rs Hrr k. unfold Tables.update_payload. rewrite Hrr.
    apply dict_get_dict_set.
Qed.

End Update.

Lemma method_tables_update_payload_run :
  snd (Tables.method_tables_update (H := Ref.runtime) Scenario.api_key_env
         (Scenario.constant_net Examples.no_content) Examples.update_customer
         Examples.ready_world)
  = Expect.after Examples.ready_world
      (Expect.api_request "PATCH"
         "https://rest.method.me/api/v1/tables/Customer/42" "test-key" None
         (Some (JDict [("Email", JStr "ada@example.com");
                       ("RelatedRecords",
                        JList [JDict [("RecordId", JInt 7);
                                      ("Status", JStr "Paid")]])]))).
Proof.
  apply (proj1
           (method_tables_update_payload (H := Ref.runtime) Scenario.api_key_env
              (Scenario.constant_net Examples.no_content) Scenario.client
              "test-key" eq_refl Examples.update_customer Examples.ready_world
              eq_refl)).
Defined.

(** ** The API key tools (tools/apikeys.py) *)

Section ApikeyTools.
Context `{PyRuntime}.
Variable env : Auth.Env.
Variable net : Client.Network.
Variable c : Client.MethodAPIClient.
Variable key : string.
Hypothesis Hauth : Auth.auth (Client.auth_manager c) = Some (Auth.APIKeyAuth key).

Lemma apikeys_get_client_cached (s : Apikeys.State) :
  Apikeys.client s = Some c -> Apikeys.get_client env s = (Ok c, s).
Proof. intros Hc. unfold Apikeys.get_client. rewrite Hc. reflexivity. Qed.

(** X29. [method_apikeys_update] sends the fields that are given, and
    only them: a field is left out when it is [None], not when it is
    empty or false. With no field given the tool returns its own error
    text and sends nothing; otherwise one PUT goes to
    [apikeys/<key_id>] with the payload as its body. *)
Theorem method_apikeys_update_fields (params : APIKeyUpdateInput.t)
    (s : Apikeys.State) :
  Apikeys.client s = Some c ->
  (Py.dict_get (Apikeys.update_payload params) "Name"
   = JStr <$> APIKeyUpdateInput.name params
   /\ Py.dict_get (Apikeys.update_payload params) "Description"
      = JStr <$> APIKeyUpdateInput.description params
   /\ Py.dict_get (Apikeys.update_payload params) "Permissions"
      = (fun l => JList (map JStr l)) <$> APIKeyUpdateInput.permissions params
   /\ Py.dict_get (Apikeys.update_payload params) "IsActive"
      = JBool <$> APIKeyUpdateInput.is_active params)
  /\ (APIKeyUpdateInput.name params = None ->
      APIKeyUpdateInput.description params = None ->
      APIKeyUpdateInput.permissions params = None ->
      APIKeyUpdateInput.is_active params = None ->
      Apikeys.method_apikeys_update env net params s
      = (Ok Apikeys.no_fields_error, s))
  /\ (APIKeyUpdateInput.name params <> None
      \/ APIKeyUpdateInput.description params <> None
      \/ APIKeyUpdateInput.permissions params <> None
      \/ APIKeyUpdateInput.is_active params <> None ->
      Apikeys.world (snd (Apikeys.method_apikeys_update env net params s))
      = Expect.after (Apikeys.world s)
          (Expect.api_request "PUT"
             (Client.base_url c +:+ "/apikeys/" +:+
              APIKeyUpdateInput.key_id params)
             key None (Some (JDict (Apikeys.update_payload params))))).
Proof.
  intros Hc. destruct params as [key_id name description permissions is_active].
  unfold Apikeys.update_payload. cbn [APIKeyUpdateInput.name
    APIKeyUpdateInput.description APIKeyUpdateInput.permissions
    APIKeyUpdateInput.is_active APIKeyUpdateInput.key_id].
  split; [|split].
  - destruct name, description, permissions, is_active; repeat split; reflexivity.
  - intros -> -> -> ->.
    unfold Apikeys.method_apikeys_update, Apikeys.tool_boundary,
      Apikeys.method_apikeys_update_body, Apikeys.sbind.
    rewrite (apikeys_get_client_cached s Hc). reflexivity.
  - intros Hgiven.
    unfold Apikeys.method_apikeys_update, Apikeys.tool_boundary,
      Apikeys.method_apikeys_update_body, Apikeys.sbind, Apikeys.in_world,
      Apikeys.sret, Client.put.
    rewrite (apikeys_get_client_cached s Hc).
    unfold Apikeys.update_payload. cbn [APIKeyUpdateInput.name
      APIKeyUpdateInput.description APIKeyUpdateInput.permissions
      APIKeyUpdateInput.is_active APIKeyUpdateInput.key_id].
    destruct name, description, permissions, is_active;
      try (exfalso; destruct Hgiven as [Hg|[Hg|[Hg|Hg]]]; apply Hg; reflexivity);
      cbn [fmap option_fmap option_map Tools.add_param Py.dict_set String.eqb
           Ascii.eqb Bool.eqb];
      rewrite (request_eq net c key Hauth);
      match goal with
      | |- context [fst ?r] => destruct (fst r)
      end; reflexivity.
Qed.

Variable str_title : string -> string.

(** X30. The page range in the Markdown footer of
    [method_apikeys_list]. The two bounds are [params.skip or 0 + 1] and
    [params.skip or 0 + len(api_keys)], and [or] binds last: with a skip
    [n] other than 0 the footer reads "Showing keys n-n", whatever the
    number of keys on the page; without a skip it reads "Showing keys
    1-" and the number of keys. *)
Theorem method_apikeys_list_page_range (params : APIKeyListInput.t)
    (s : Apikeys.State) (w2 : Client.World) (d : list (string * json))
    (first : json) (others : list json) (t : Z) :
  Apikeys.client s = Some c ->
  APIKeyListInput.response_format params = Models.MARKDOWN ->
  Client.get net c "apikeys" (Some (Apikeys.list_query_params params))
    (Apikeys.world s) = (Ok (JDict d), w2) ->
  Py.dict_get d "value" = Some (JList (first :: others)) ->
  Forall (fun x => exists fields, x = JDict fields) (first :: others) ->
  Py.dict_get d "@odata.count" = Some (JInt t) ->
  let shown (a b : Z) :=
    exists keys_md tail,
      Apikeys.method_apikeys_list env net str_title params s
      = (Ok (keys_md +:+ PyStr.NL +:+ PyStr.NL +:+
             "**Pagination**: Showing keys " +:+ PyStr.of_Z a +:+ "-" +:+
             PyStr.of_Z b +:+ " of " +:+ PyStr.of_Z t +:+ tail),
         {| Apikeys.world := w2; Apikeys.client := Some c |}) in
  (forall n, APIKeyListInput.skip params = Some n -> n <> 0 -> shown n n)
  /\ (APIKeyListInput.skip params = None \/ APIKeyListInput.skip params = Some 0 ->
      shown 1 (Z.of_nat (List.length (first :: others)))).
Proof.
  intros Hc Hfmt Hget Hvalue Hdicts Hcount shown. subst shown.
  assert (Hrun : forall a b,
            Models.int_or (APIKeyListInput.skip params) (0 + 1) = a ->
            Models.int_or (APIKeyListInput.skip params)
              (0 + Z.of_nat (List.length (first :: others))) = b ->
            exists keys_md tail,
              Apikeys.method_apikeys_list env net str_title params s
              = (Ok (keys_md +:+ PyStr.NL +:+ PyStr.NL +:+
                     "**Pagination**: Showing keys " +:+ PyStr.of_Z a +:+ "-" +:+
                     PyStr.of_Z b +:+ " of " +:+ PyStr.of_Z t +:+ tail),
                 {| Apikeys.world := w2; Apikeys.client := Some c |})).
  { intros a b Ha Hb.
    unfold Apikeys.method_apikeys_list, Apikeys.tool_boundary,
      Apikeys.method_apikeys_list_body, Apikeys.sbind, Apikeys.in_world,
      Apikeys.slift, Apikeys.sret.
    rewrite (apikeys_get_client_cached s Hc), Hget, Hfmt.
    cbn [Fmt.get]. rewrite Hvalue, Hcount. cbn [Fmt.len].
    unfold Utils.format_pagination_info, Utils.add_int, Utils.gt_int.
    cbn [Py.as_int rbind].
    cbn [Py.truthy negb].
    destruct (Models.int_or (APIKeyListInput.skip params) 0
              + Z.of_nat (List.length (first :: others)) <? t) eqn:Hmore;
      cbn [rbind];
      match goal with
      | |- context [Helpers.format_markdown_list str_title ?data ?tf ?fs ?ti] =>
          destruct (proj1 (proj2 (format_markdown_list_on_lists str_title tf fs ti))
                      (first :: others) Hdicts) as [keys_md Hmd]
      end;
      rewrite Hmd; unfold Apikeys.list_footer;
      rewrite Ha, Hb;
      cbn [Tools.dict_item Py.dict_get String.eqb Ascii.eqb Bool.eqb
           Py.truthy Fmt.str];
      rewrite Hc; exists keys_md; eexists;
      rewrite !str_app_assoc; reflexivity. }
  split.
  - intros n Hskip Hn. apply Hrun; rewrite Hskip; unfold Models.int_or;
      apply Z.eqb_neq in Hn; rewrite Hn; reflexivity.
  - intros Hskip. apply Hrun; destruct Hskip as [-> | ->]; reflexivity.
Qed.

End ApikeyTools.

Lemma method_apikeys_update_fields_run :
  Apikeys.method_apikeys_update (H := Ref.runtime) Scenario.api_key_env
    (Scenario.constant_net Examples.no_content) Examples.empty_update
    Examples.apikeys_ready
  = (Ok Apikeys.no_fields_error, Examples.apikeys_ready).
Proof.
  apply (proj1 (proj2
           (method_apikeys_update_fields (H := Ref.runtime) Scenario.api_key_env
              (Scenario.constant_net Examples.no_content) Scenario.client
              "test-key" eq_refl Examples.empty_update Examples.apikeys_ready
              eq_refl)));
    reflexivity.
Defined.

Lemma method_apikeys_list_page_range_run :
  exists keys_md tail,
    Apikeys.method_apikeys_list (H := Ref.runtime) Scenario.api_key_env
      (Scenario.constant_net Examples.keys_page) (fun s => s)
      Examples.keys_after_five Examples.apikeys_ready
    = (Ok (keys_md +:+ PyStr.NL +:+ PyStr.NL +:+
           "**Pagination**: Showing keys " +:+ PyStr.of_Z 5 +:+ "-" +:+
           PyStr.of_Z 5 +:+ " of " +:+ PyStr.of_Z 7 +:+ tail),
       {| Apikeys.world :=
            Expect.after Scenario.empty_world
              (Scenario.get_request "apikeys"
                 (Some [("$top", JInt 20); ("$skip", JInt 5)]));
          Apikeys.client := Some Scenario.client |}).
Proof.
  refine (proj1
            (method_apikeys_list_page_range (H := Ref.runtime) Scenario.api_key_env
               (Scenario.constant_net Examples.keys_page) Scenario.client
               (fun s => s) Examples.keys_after_five Examples.apikeys_ready
               (Expect.after Scenario.empty_world
                  (Scenario.get_request "apikeys"
                     (Some [("$top", JInt 20); ("$skip", JInt 5)])))
               [("value",
                 JList [JDict [("Id", JInt 6); ("Name", JStr "ci")];
                        JDict [("Id", JInt 7); ("Name", JStr "backup")]]);
                ("@odata.count", JInt 7)]
               (JDict [("Id", JInt 6); ("Name", JStr "ci")])
               [JDict [("Id", JInt 7); ("Name", JStr "backup")]]
               7 eq_refl eq_refl eq_refl eq_refl _ eq_refl)
            5 eq_refl _).
  - repeat constructor; eexists; reflexivity.
  - discriminate.
Defined.
